(** * Personal-Website-Creator: the extraction, retry and repair pipeline

    A shallow embedding of the orchestrator of [app.py] (intent detection,
    the retry loops, JSON extraction, skills derivation, post-generation
    normalisation) and of the tools of [main.py] (the portfolio renderer and
    the HTML structural repair), with the properties of the specification
    stated over it.

    Python [str] values are modelled as [string] (one [ascii] per character),
    Python [int] values as [Z] or [nat], [dict]s as association lists in
    insertion order, and raised exceptions as an explicit [Raise] result. *)

From Stdlib Require Import List String Ascii Bool Arith PeanoNat ZArith Lia.
From Stdlib Require Import DecimalString Permutation Sorted.

Set Warnings "-register-all".
Import ListNotations.

Local Open Scope list_scope.
Local Open Scope string_scope.

(* ================================================================== *)
(** ** Python strings *)
(* ================================================================== *)

Module PyStr.

(** The double quote and the newline, as one-character strings. *)
Definition dq : string := String "034"%char EmptyString.
Definition nl : string := String "010"%char EmptyString.

Fixpoint drop (n : nat) (s : string) : string :=
  match n, s with
  | O, _ => s
  | S _, EmptyString => EmptyString
  | S n', String _ s' => drop n' s'
  end.

Fixpoint take (n : nat) (s : string) : string :=
  match n, s with
  | O, _ => EmptyString
  | S _, EmptyString => EmptyString
  | S n', String c s' => String c (take n' s')
  end.

(** [s.startswith(p)]. *)
Fixpoint starts_with (p s : string) : bool :=
  match p, s with
  | EmptyString, _ => true
  | String _ _, EmptyString => false
  | String a p', String b s' => Ascii.eqb a b && starts_with p' s'
  end.

(** [s.find(p)]: the index of the leftmost occurrence. *)
Fixpoint find (p s : string) : option nat :=
  if starts_with p s then Some 0
  else match s with
       | EmptyString => None
       | String _ s' => option_map S (find p s')
       end.

(** [p in s]. *)
Definition contains (p s : string) : bool :=
  match find p s with Some _ => true | None => false end.

(** [s.count(c)] for a one-character needle. *)
Fixpoint count_char (c : ascii) (s : string) : nat :=
  match s with
  | EmptyString => 0
  | String a s' => (if Ascii.eqb a c then 1 else 0) + count_char c s'
  end.

(** [c * n] for a one-character string. *)
Fixpoint repeat_char (c : ascii) (n : nat) : string :=
  match n with
  | O => EmptyString
  | S n' => String c (repeat_char c n')
  end.

Fixpoint mem_char (c : ascii) (s : string) : bool :=
  match s with
  | EmptyString => false
  | String a s' => Ascii.eqb a c || mem_char c s'
  end.

Fixpoint all_chars (f : ascii -> bool) (s : string) : bool :=
  match s with
  | EmptyString => true
  | String a s' => f a && all_chars f s'
  end.

Fixpoint map_chars (f : ascii -> ascii) (s : string) : string :=
  match s with
  | EmptyString => EmptyString
  | String a s' => String (f a) (map_chars f s')
  end.

Fixpoint take_while (f : ascii -> bool) (s : string) : string :=
  match s with
  | EmptyString => EmptyString
  | String a s' => if f a then String a (take_while f s') else EmptyString
  end.

Definition is_upper (c : ascii) : bool :=
  let n := nat_of_ascii c in ((65 <=? n) && (n <=? 90))%nat.
Definition is_lower (c : ascii) : bool :=
  let n := nat_of_ascii c in ((97 <=? n) && (n <=? 122))%nat.
Definition is_digit (c : ascii) : bool :=
  let n := nat_of_ascii c in ((48 <=? n) && (n <=? 57))%nat.

Definition lower_char (c : ascii) : ascii :=
  if is_upper c then ascii_of_nat (nat_of_ascii c + 32) else c.

(** [s.lower()] on ASCII text. *)
Definition lower (s : string) : string := map_chars lower_char s.

(** [re.search(p, s, re.IGNORECASE)] for a literal lower-case pattern. *)
Definition icontains (p s : string) : bool := contains p (lower s).

(** The replacement loop of [str.replace] for a non-empty pattern: [skip]
    counts the characters of the current occurrence still to be passed. *)
Fixpoint replace_from (p r : string) (skip : nat) (s : string) : string :=
  match s with
  | EmptyString => EmptyString
  | String c s' =>
      match skip with
      | S k => replace_from p r k s'
      | O => if starts_with p s
             then r ++ replace_from p r (String.length p - 1) s'
             else String c (replace_from p r 0 s')
      end
  end.

(** With an empty pattern Python inserts [r] around every character. *)
Fixpoint interleave (r s : string) : string :=
  match s with
  | EmptyString => r
  | String c s' => r ++ String c (interleave r s')
  end.

(** [s.replace(p, r)]: every non-overlapping occurrence, left to right. *)
Definition replace (p r s : string) : string :=
  match p with
  | EmptyString => interleave r s
  | String _ _ => replace_from p r 0 s
  end.

(** [str(n)] for a non-negative [int]. *)
Definition str_nat (n : nat) : string := NilEmpty.string_of_uint (Nat.to_uint n).

(** [str(z)] for an [int]. *)
Definition str_int (z : Z) : string := NilZero.string_of_int (Z.to_int z).

Fixpoint concat_all (l : list string) : string :=
  match l with
  | [] => EmptyString
  | s :: l' => s ++ concat_all l'
  end.

(** [sep.join(l)]. *)
Fixpoint join (sep : string) (l : list string) : string :=
  match l with
  | [] => EmptyString
  | [s] => s
  | s :: l' => s ++ sep ++ join sep l'
  end.

(** [t] is [s] with characters of the class [J] put in at some places. *)
Inductive padded (J : ascii -> bool) : string -> string -> Prop :=
| padded_nil : padded J EmptyString EmptyString
| padded_keep (c : ascii) (s t : string) :
    padded J s t -> padded J (String c s) (String c t)
| padded_put (c : ascii) (s t : string) :
    J c = true -> padded J s t -> padded J s (String c t).

(** [t] is [s] with copies of the block [b] put in at some places. *)
Inductive inserted (b : string) : string -> string -> Prop :=
| inserted_nil : inserted b EmptyString EmptyString
| inserted_keep (c : ascii) (s t : string) :
    inserted b s t -> inserted b (String c s) (String c t)
| inserted_block (s t : string) :
    inserted b s t -> inserted b s (b ++ t).

(** An occurrence of [x] can begin inside [b]: it lies in [b], or a tail of
    [b] begins [x]. *)
Fixpoint meets (x b : string) : bool :=
  match b with
  | EmptyString => false
  | String _ b' => starts_with x b || starts_with b x || meets x b'
  end.

End PyStr.


(* ================================================================== *)
(** ** Exceptions, agent responses, JSON values *)
(* ================================================================== *)

Module Py.

(** A raised exception: its class and [str(e)]. *)
Record exn : Type := Exn { exn_type : string; exn_msg : string }.

Inductive result (A : Type) : Type :=
| Ok (a : A)
| Raise (e : exn).
Arguments Ok {A} a.
Arguments Raise {A} e.

Definition bind {A B : Type} (r : result A) (k : A -> result B) : result B :=
  match r with
  | Ok a => k a
  | Raise e => Raise e
  end.

(** One [await github_agent.run(...)]: the model call is opaque, so a run
    either raises or returns the text of [result.data]. *)
Inductive outcome : Type :=
| Raises (e : exn)
| Returns (data : string).

(** Values that [json.loads] builds (numbers are integers in this model). *)
Inductive json : Type :=
| JNull
| JBool (b : bool)
| JNum (z : Z)
| JStr (s : string)
| JArr (l : list json)
| JObj (m : list (string * json)).

(** [bool(v)]. *)
Definition truthy (v : json) : bool :=
  match v with
  | JNull => false
  | JBool b => b
  | JNum z => negb (Z.eqb z 0)
  | JStr s => negb (String.eqb s EmptyString)
  | JArr l => match l with [] => false | _ => true end
  | JObj m => match m with [] => false | _ => true end
  end.

(** [v is None]. *)
Definition is_none (v : json) : bool :=
  match v with JNull => true | _ => false end.

(** [d.get(k)] on a dict kept as an association list. *)
Fixpoint dict_get {V : Type} (k : string) (d : list (string * V)) : option V :=
  match d with
  | [] => None
  | (k', v) :: d' => if String.eqb k' k then Some v else dict_get k d'
  end.

(** [d[k] = v]: an existing key keeps its position, a new key goes last. *)
Fixpoint dict_set {V : Type} (k : string) (v : V) (d : list (string * V)) : list (string * V) :=
  match d with
  | [] => [(k, v)]
  | (k', v') :: d' => if String.eqb k' k then (k', v) :: d' else (k', v') :: dict_set k v d'
  end.

(** [sorted(l, key=key, reverse=True)] on integer keys: stable, so equal
    keys keep their input order. *)
Fixpoint insert_desc {A : Type} (key : A -> nat) (x : A) (l : list A) : list A :=
  match l with
  | [] => [x]
  | y :: l' => if (key x <? key y)%nat then y :: insert_desc key x l' else x :: y :: l'
  end.

Fixpoint sorted_desc {A : Type} (key : A -> nat) (l : list A) : list A :=
  match l with
  | [] => []
  | x :: l' => insert_desc key x (sorted_desc key l')
  end.

(** The order [sorted(..., reverse=True)] leaves a list in. *)
Definition descending {A : Type} (key : A -> nat) (a b : A) : Prop :=
  (key b <= key a)%nat.

(** [list(d.keys())] and [d.get(k, 0)]. *)
Definition keys {V : Type} (d : list (string * V)) : list string := map fst d.

Definition get0 (k : string) (d : list (string * nat)) : nat :=
  match dict_get k d with Some n => n | None => 0%nat end.

End Py.

(* ================================================================== *)
(** ** A reference [json.loads] for the integer fragment of JSON *)
(* ================================================================== *)

Module JsonText.
Import PyStr Py.

Definition is_ws (c : ascii) : bool :=
  let n := nat_of_ascii c in
  ((n =? 32) || (n =? 9) || (n =? 10) || (n =? 13))%nat.

Fixpoint skip_ws (s : string) : string :=
  match s with
  | String c s' => if is_ws c then skip_ws s' else s
  | EmptyString => s
  end.

Definition decode_error : exn := Exn "JSONDecodeError" "Expecting value".

(** The characters of a string literal after its opening quote: the text and
    what follows the closing quote. Only the two-character escapes are read. *)
Fixpoint read_string (s : string) : option (string * string) :=
  match s with
  | EmptyString => None
  | String c s' =>
      if Ascii.eqb c "034"%char then Some (EmptyString, s')
      else if Ascii.eqb c "092"%char then
        match s' with
        | String e s'' =>
            let put (a : ascii) :=
              match read_string s'' with
              | Some (t, rest) => Some (String a t, rest)
              | None => None
              end in
            if Ascii.eqb e "034"%char then put "034"%char
            else if Ascii.eqb e "092"%char then put "092"%char
            else if Ascii.eqb e "/"%char then put "/"%char
            else if Ascii.eqb e "n"%char then put "010"%char
            else if Ascii.eqb e "t"%char then put "009"%char
            else if Ascii.eqb e "r"%char then put "013"%char
            else None
        | EmptyString => None
        end
      else if (nat_of_ascii c <? 32)%nat then None
      else match read_string s' with
           | Some (t, rest) => Some (String c t, rest)
           | None => None
           end
  end.

Fixpoint digits_value (acc : Z) (s : string) : Z :=
  match s with
  | EmptyString => acc
  | String c s' => digits_value (acc * 10 + Z.of_nat (nat_of_ascii c - 48)) s'
  end.

(** An integer literal: no leading zero, no fraction, no exponent. *)
Definition read_int (s : string) : option (Z * string) :=
  let ds := take_while is_digit s in
  let rest := drop (String.length ds) s in
  match ds with
  | EmptyString => None
  | String d ds' =>
      if Ascii.eqb d "0"%char && negb (String.eqb ds' EmptyString) then None
      else match rest with
           | String c _ =>
               if Ascii.eqb c "."%char || Ascii.eqb c "e"%char || Ascii.eqb c "E"%char
               then None else Some (digits_value 0 ds, rest)
           | EmptyString => Some (digits_value 0 ds, rest)
           end
  end.

Fixpoint read_value (fuel : nat) (s : string) : option (json * string) :=
  match fuel with
  | O => None
  | S fuel' =>
      let read_members :=
        fix members (n : nat) (s : string) : option (list (string * json) * string) :=
          match n with
          | O => None
          | S n' =>
              match skip_ws s with
              | String q s1 =>
                  if Ascii.eqb q "034"%char then
                    match read_string s1 with
                    | Some (k, s2) =>
                        match skip_ws s2 with
                        | String colon s3 =>
                            if Ascii.eqb colon ":"%char then
                              match read_value fuel' s3 with
                              | Some (v, s4) =>
                                  match skip_ws s4 with
                                  | String sep s5 =>
                                      if Ascii.eqb sep ","%char then
                                        match members n' s5 with
                                        | Some (m, s6) => Some ((k, v) :: m, s6)
                                        | None => None
                                        end
                                      else if Ascii.eqb sep "}"%char then Some ([(k, v)], s5)
                                      else None
                                  | EmptyString => None
                                  end
                              | None => None
                              end
                            else None
                        | EmptyString => None
                        end
                    | None => None
                    end
                  else None
              | EmptyString => None
              end
          end in
      let read_elements :=
        fix elements (n : nat) (s : string) : option (list json * string) :=
          match n with
          | O => None
          | S n' =>
              match read_value fuel' s with
              | Some (v, s1) =>
                  match skip_ws s1 with
                  | String sep s2 =>
                      if Ascii.eqb sep ","%char then
                        match elements n' s2 with
                        | Some (l, s3) => Some (v :: l, s3)
                        | None => None
                        end
                      else if Ascii.eqb sep "]"%char then Some ([v], s2)
                      else None
                  | EmptyString => None
                  end
              | None => None
              end
          end in
      match skip_ws s with
      | EmptyString => None
      | String c s1 as t =>
          if Ascii.eqb c "{"%char then
            match skip_ws s1 with
            | String c2 s2 =>
                if Ascii.eqb c2 "}"%char then Some (JObj [], s2)
                else match read_members fuel' s1 with
                     | Some (m, rest) => Some (JObj m, rest)
                     | None => None
                     end
            | EmptyString => None
            end
          else if Ascii.eqb c "["%char then
            match skip_ws s1 with
            | String c2 s2 =>
                if Ascii.eqb c2 "]"%char then Some (JArr [], s2)
                else match read_elements fuel' s1 with
                     | Some (l, rest) => Some (JArr l, rest)
                     | None => None
                     end
            | EmptyString => None
            end
          else if Ascii.eqb c "034"%char then
            match read_string s1 with
            | Some (str, rest) => Some (JStr str, rest)
            | None => None
            end
          else if starts_with "true" t then Some (JBool true, drop 4 t)
          else if starts_with "false" t then Some (JBool false, drop 5 t)
          else if starts_with "null" t then Some (JNull, drop 4 t)
          else if Ascii.eqb c "-"%char then
            match read_int s1 with
            | Some (z, rest) => Some (JNum (- z), rest)
            | None => None
            end
          else match read_int t with
               | Some (z, rest) => Some (JNum z, rest)
               | None => None
               end
      end
  end.

(** [json.loads(s)] on the fragment above: one value, then only blanks. *)
Definition loads (s : string) : result json :=
  match read_value (S (String.length s)) s with
  | Some (v, rest) =>
      match skip_ws rest with
      | EmptyString => Ok v
      | String _ _ => Raise (Exn "JSONDecodeError" "Extra data")
      end
  | None => Raise decode_error
  end.

End JsonText.

(* ================================================================== *)
(** ** The orchestrator of app.py *)
(* ================================================================== *)

Module App.
Import PyStr Py.

(** *** Intent detection and the username *)

(** The character class [[a-zA-Z0-9-]]. *)
Definition is_user_char (c : ascii) : bool :=
  is_lower c || is_upper c || is_digit c || Ascii.eqb c "-"%char.

(** [re.match] of [github\.com/([a-zA-Z0-9-]+)] at the start of [s]. *)
Definition username_at (s : string) : option string :=
  if starts_with "github.com/" s then
    match take_while is_user_char (drop 11 s) with
    | EmptyString => None
    | u => Some u
    end
  else None.

(** [re.search]: the leftmost position where the pattern matches. *)
Fixpoint search_username (s : string) : option string :=
  match username_at s with
  | Some u => Some u
  | None =>
      match s with
      | EmptyString => None
      | String _ s' => search_username s'
      end
  end.

(** The guard of the portfolio branch and the username it binds: both are
    computed on [message.lower()]. *)
Definition portfolio_username (message : string) : option string :=
  if contains "portfolio" (lower message) && contains "github.com/" (lower message)
  then search_username (lower message)
  else None.

(** *** Conversation state and the saved artifact *)

Record ConversationState : Type := {
  generated_html : option string;
  current_username : option string;
  portfolio_path : option string;
  files : list (string * string)
}.

Definition str_truthy (o : option string) : bool :=
  match o with
  | Some (String _ _) => true
  | _ => false
  end.

Definition PORTFOLIO_DIR : string := "generated_portfolios".

Definition portfolio_filename (username : string) : string :=
  username ++ "_portfolio.html".

(** [ConversationState.save_portfolio]. *)
Definition save_portfolio (st : ConversationState) : ConversationState * option string :=
  match generated_html st, current_username st with
  | Some html, Some username =>
      if str_truthy (Some html) && str_truthy (Some username) then
        let file_path := PORTFOLIO_DIR ++ "/" ++ portfolio_filename username in
        ({| generated_html := generated_html st;
            current_username := current_username st;
            portfolio_path := Some file_path;
            files := dict_set file_path html (files st) |},
         Some file_path)
      else (st, None)
  | _, _ => (st, None)
  end.

(** [download_portfolio]: the path, if one is remembered and the file is
    there. *)
Definition download_portfolio (st : ConversationState) : option string :=
  match portfolio_path st with
  | Some path =>
      if str_truthy (Some path)
         && match dict_get path (files st) with Some _ => true | None => false end
      then Some path
      else None
  | None => None
  end.

(** [clear_all]: the three fields are reset, the files stay where they are. *)
Definition clear_all (st : ConversationState) : ConversationState :=
  {| generated_html := None;
     current_username := None;
     portfolio_path := None;
     files := files st |}.


Definition github_profile_url (username : string) : string :=
  "https://github.com/" ++ username.

Definition github_avatar_url (username : string) : string :=
  "https://github.com/" ++ username ++ ".png".

(** *** Fenced blocks and brace spans in a model response *)

Definition fence : string := "```".

(** The lazy group [(.*?)] up to the first closing [\n```]. *)
Definition fence_body (t : string) : option string :=
  match find (nl ++ fence) t with
  | Some i => Some (take i t)
  | None => None
  end.

(** A match of [```(?:tag)?\n(.*?)\n```] (DOTALL) at the start of [s]: the
    optional tag is tried first, then the bare fence. *)
Definition fence_at (tag s : string) : option string :=
  match (if starts_with (fence ++ tag ++ nl) s
         then fence_body (drop (String.length (fence ++ tag ++ nl)) s)
         else None) with
  | Some b => Some b
  | None =>
      if starts_with (fence ++ nl) s
      then fence_body (drop (String.length (fence ++ nl)) s)
      else None
  end.

Fixpoint fence_search (tag s : string) : option string :=
  match fence_at tag s with
  | Some b => Some b
  | None =>
      match s with
      | EmptyString => None
      | String _ s' => fence_search tag s'
      end
  end.

(** [s.rfind(c)] for one character. *)
Fixpoint rfind_char (c : ascii) (s : string) : option nat :=
  match s with
  | EmptyString => None
  | String a s' =>
      match rfind_char c s' with
      | Some j => Some (S j)
      | None => if Ascii.eqb a c then Some 0 else None
      end
  end.

(** [re.search(r'({.*})', s, re.DOTALL)]: greedy, from the first opening
    brace to the last closing brace after it. *)
Definition dict_search (s : string) : option string :=
  match find "{" s with
  | None => None
  | Some i =>
      let t := drop (S i) s in
      match rfind_char "}"%char t with
      | Some j => Some ("{" ++ take (S j) t)
      | None => None
      end
  end.

(** [re.sub]: every single quote becomes a double quote. *)
Definition requote (s : string) : string := replace "'" dq s.

Definition max_retries : nat := 3.

Section Extraction.

(** [json.loads], the decoder of the standard library. *)
Variable json_loads : string -> result json.

(** The string handed to [json.loads] by the body of the [try] of the profile
    loop, if any. *)
Definition json_candidate (data : string) : option string :=
  match fence_search "json" data with
  | Some body => Some body
  | None =>
      match dict_search data with
      | Some span => Some (requote span)
      | None => None
      end
  end.

(** The body of the [try]: the new value of [profile_data], or the exception.
    With neither a fenced block nor a brace span [profile_data] stays [None]. *)
Definition extract_profile (data : string) : result json :=
  match json_candidate data with
  | Some text => json_loads text
  | None => Ok JNull
  end.

Definition profile_attempt (o : outcome) : result json :=
  match o with
  | Raises e => Raise e
  | Returns data => extract_profile data
  end.

Definition retry_profile_status (retry_count : nat) : string :=
  "Retrying profile fetch (" ++ str_nat retry_count ++ "/" ++ str_nat max_retries ++ ")...".

Definition exhausted_profile_status (e : exn) : string :=
  "Error fetching profile after " ++ str_nat max_retries ++ " attempts: " ++ exn_msg e
  ++ ". Creating a basic profile instead.".

(** The [while retry_count < max_retries and profile_data is None] loop. The
    agent is a script of outcomes, one per run; the loop returns the final
    [profile_data], the status updates it yielded and the runs left, or [None]
    when the script ends before the loop does. *)
Fixpoint fetch_profile_loop (script : list outcome) (retry_count : nat) (log : list string)
  : option (json * list string * list outcome) :=
  if (retry_count <? max_retries)%nat then
    match script with
    | [] => None
    | o :: script' =>
        match profile_attempt o with
        | Ok v =>
            if is_none v then fetch_profile_loop script' retry_count log
            else Some (v, log, script')
        | Raise e =>
            let retry_count' := S retry_count in
            let status :=
              if (retry_count' <? max_retries)%nat
              then retry_profile_status retry_count'
              else exhausted_profile_status e in
            fetch_profile_loop script' retry_count' (log ++ [status])%list
        end
    end
  else Some (JNull, log, script).

Definition basic_profile (username : string) : json :=
  JObj [("profile", JObj [("name", JStr username);
                          ("bio", JStr "GitHub User");
                          ("avatar_url", JStr (github_avatar_url username))]);
        ("repos", JArr [])].

(** Step 1 of the portfolio branch: the retry loop, then the fallback. *)
Definition fetch_profile (username : string) (script : list outcome)
  : option (json * list string * list outcome) :=
  match fetch_profile_loop script 0 [] with
  | Some (profile_data, log, rest) =>
      Some (if truthy profile_data then profile_data else basic_profile username, log, rest)
  | None => None
  end.

End Extraction.

(** *** Skills from the language histogram *)

(** [all_languages[lang] = all_languages.get(lang, 0) + 1]. *)
Definition count_language (lang : string) (all_languages : list (string * nat))
  : list (string * nat) :=
  dict_set lang (get0 lang all_languages + 1)%nat all_languages.

(** The histogram after the languages seen, in the order they were seen. *)
Definition histogram (seen : list string) : list (string * nat) :=
  fold_left (fun h lang => count_language lang h) seen [].

Record Skill : Type := { skill_name : string; skill_level : nat }.

(** The list comprehension over [sorted(all_languages.items(), ...)]. *)
Definition skills_of (all_languages : list (string * nat)) : list Skill :=
  map (fun item => {| skill_name := fst item; skill_level := Nat.min (snd item * 20) 100 |})
      (sorted_desc snd all_languages).

(** *** Website generation, validation and normalisation *)

Definition fallback_template (username bio : string) : string :=
  "<!DOCTYPE html>
<html lang=" ++ dq ++ "en" ++ dq ++ ">
<head>
    <meta charset=" ++ dq ++ "UTF-8" ++ dq ++ ">
    <meta name=" ++ dq ++ "viewport" ++ dq ++ " content=" ++ dq ++ "width=device-width, initial-scale=1.0" ++ dq ++ ">
    <title>" ++ username ++ " - Portfolio</title>
    <style>
        body { font-family: sans-serif; max-width: 800px; margin: 0 auto; padding: 20px; }
        h1 { color: #0366d6; }
        .profile { display: flex; align-items: center; gap: 20px; margin-bottom: 30px; }
        .profile img { width: 100px; height: 100px; border-radius: 50%; }
    </style>
</head>
<body>
    <div class=" ++ dq ++ "profile" ++ dq ++ ">
        <img src=" ++ dq ++ "https://github.com/" ++ username ++ ".png" ++ dq ++ " alt=" ++ dq ++ username ++ dq ++ ">
        <div>
            <h1>" ++ username ++ "</h1>
            <p>" ++ bio ++ "</p>
        </div>
    </div>
    <h2>GitHub Profile</h2>
    <p><a href=" ++ dq ++ "https://github.com/" ++ username ++ dq ++ " target=" ++ dq ++ "_blank" ++ dq ++ ">View on GitHub</a></p>
</body>
</html>".

(** [s.strip()] only matters at the left end for [startswith]. *)
Definition is_space (c : ascii) : bool :=
  let n := nat_of_ascii c in
  ((n =? 32) || ((9 <=? n) && (n <=? 13)) || ((28 <=? n) && (n <=? 31)))%nat.

Fixpoint lstrip (s : string) : string :=
  match s with
  | String c s' => if is_space c then lstrip s' else s
  | EmptyString => s
  end.

Definition looks_like_html (data : string) : bool :=
  starts_with "<!DOCTYPE html>" (lstrip data)
  || starts_with "<html" (lstrip data)
  || contains "<body" data.

Definition retry_site_status (retry_count : nat) : string :=
  "Retrying website generation (" ++ str_nat retry_count ++ "/" ++ str_nat max_retries ++ ")...".

Definition exhausted_site_status (e : exn) : string :=
  "Error generating website after " ++ str_nat max_retries ++ " attempts: " ++ exn_msg e
  ++ ". Using a simplified template.".

Definition not_html_error : exn :=
  Exn "ValueError" "Response doesn't appear to be valid HTML".

(** The body of the [try] of the generation loop: the value [html_content]
    has afterwards, and the exception if one was raised. The unfenced branch
    assigns [html_content] before it checks it. *)
Definition site_attempt (o : outcome) : option string * option exn :=
  match o with
  | Raises e => (None, Some e)
  | Returns data =>
      match fence_search "html" data with
      | Some body => (Some body, None)
      | None =>
          if looks_like_html data then (Some data, None)
          else (Some data, Some not_html_error)
      end
  end.

(** The [while retry_count < max_retries and html_content is None] loop, run
    from [html_content = None]. *)
Fixpoint generate_site_loop (username bio : string) (script : list outcome)
    (retry_count : nat) (log : list string)
  : option (option string * list string * list outcome) :=
  if (retry_count <? max_retries)%nat then
    match script with
    | [] => None
    | o :: script' =>
        match site_attempt o with
        | (html_content, None) =>
            match html_content with
            | Some _ => Some (html_content, log, script')
            | None => generate_site_loop username bio script' retry_count log
            end
        | (html_content, Some e) =>
            let retry_count' := S retry_count in
            if (retry_count' <? max_retries)%nat then
              let log' := (log ++ [retry_site_status retry_count'])%list in
              match html_content with
              | Some _ => Some (html_content, log', script')
              | None => generate_site_loop username bio script' retry_count' log'
              end
            else
              Some (Some (fallback_template username bio),
                    (log ++ [exhausted_site_status e])%list, script')
        end
    end
  else Some (None, log, script).

(** Step 4: the reply of the validation run replaces [html_content] only when
    HTML can be taken out of it; a failed run keeps [html_content]. *)
Definition validation_step (html_content : string) (o : outcome) : string :=
  match o with
  | Raises _ => html_content
  | Returns data =>
      match fence_search "html" data with
      | Some body => body
      | None =>
          if starts_with "<!DOCTYPE html>" (lstrip data) || starts_with "<html" (lstrip data)
          then data else html_content
      end
  end.

Definition script_block : string :=
  "
                        <script>
                            // Dark/Light mode toggle
                            function toggleDarkMode() {
                                document.body.classList.toggle('dark-mode');
                                localStorage.setItem('darkMode', document.body.classList.contains('dark-mode'));
                            }
                            
                            // Check for saved dark mode preference
                            document.addEventListener('DOMContentLoaded', function() {
                                if (localStorage.getItem('darkMode') === 'true') {
                                    document.body.classList.add('dark-mode');
                                }
                                
                                // Add animation to project cards
                                const cards = document.querySelectorAll('.repo-card');
                                cards.forEach(card => {
                                    card.addEventListener('mouseenter', function() {
                                        this.style.transform = 'translateY(-10px)';
                                    });
                                    card.addEventListener('mouseleave', function() {
                                        this.style.transform = 'translateY(0)';
                                    });
                                });
                            });
                        </script>
                        </body>".

Definition font_awesome_block : string :=
  "
                        <link rel=" ++ dq ++ "stylesheet" ++ dq ++ " href=" ++ dq ++ "https://cdnjs.cloudflare.com/ajax/libs/font-awesome/6.4.0/css/all.min.css" ++ dq ++ ">
                        </head>".

Definition meta_block (username : string) : string :=
  "<head>
                        <meta name=" ++ dq ++ "description" ++ dq ++ " content=" ++ dq ++ "Portfolio website for GitHub user " ++ username ++ dq ++ ">
                        <meta name=" ++ dq ++ "keywords" ++ dq ++ " content=" ++ dq ++ "portfolio, github, developer, " ++ username ++ dq ++ ">".

(** The text the meta step puts behind the opening head tag: its three
    pieces around the two places of the username. *)
Definition meta_lead : string :=
  "
                        <meta name=" ++ dq ++ "description" ++ dq ++ " content=" ++ dq ++ "Portfolio website for GitHub user ".

Definition meta_between : string :=
  dq ++ ">
                        <meta name=" ++ dq ++ "keywords" ++ dq ++ " content=" ++ dq ++ "portfolio, github, developer, ".

Definition meta_end : string :=
  dq ++ ">".

(** What the script step and the icon step put before the closing tag they
    look for. *)
Definition script_lead : string :=
  take (String.length script_block - String.length "</body>") script_block.

Definition font_awesome_lead : string :=
  take (String.length font_awesome_block - String.length "</head>") font_awesome_block.

(** A stylesheet link as the icon step writes it. *)
Definition stylesheet_link : string := "<link rel=" ++ dq ++ "stylesheet" ++ dq.

(** Tags that begin with the angle bracket and have neither a newline nor a
    second bracket, and that cannot begin inside one of the inserted blocks. *)
Definition foreign (x' : string) : Prop :=
  mem_char "<"%char x' = false
  /\ mem_char "010"%char (String "<"%char x') = false
  /\ meets (String "<"%char x') (lower script_lead) = false
  /\ meets (String "<"%char x') (lower font_awesome_lead) = false
  /\ meets (String "<"%char x') (lower meta_lead) = false
  /\ meets (String "<"%char x') (lower meta_between) = false
  /\ meets (String "<"%char x') (lower meta_end) = false.

Definition ensure_script (html_content : string) : string :=
  if icontains "<script" html_content then html_content
  else replace "</body>" script_block html_content.

Definition ensure_font_awesome (html_content : string) : string :=
  if icontains "font-awesome" html_content || icontains "fontawesome" html_content
  then html_content
  else replace "</head>" font_awesome_block html_content.

Definition ensure_meta (username html_content : string) : string :=
  if icontains ("<meta name=" ++ dq ++ "description" ++ dq) html_content then html_content
  else replace "<head>" (meta_block username) html_content.

(** The three unconditional checks after validation, in source order. *)
Definition normalise (username html_content : string) : string :=
  ensure_meta username (ensure_font_awesome (ensure_script html_content)).

(** Steps 3 and 4 and the final assignment, for a turn whose username and
    profile are known: [bio] is the text the fallback template shows. The
    result is the last yield (the artifact and its path), the status updates
    and the new conversation state; [None] when the script of runs ends early
    or [html_content] is still [None] at the first [re.search]. *)
Definition build_site (username bio : string) (script : list outcome) (st : ConversationState)
  : option (option string * option string * list string * ConversationState) :=
  let log0 := ["Generating enhanced portfolio website for " ++ username ++ "..."] in
  match generate_site_loop username bio script 0 log0 with
  | Some (Some html_content, log1, o :: _) =>
      let log2 := (log1 ++ ["Validating and fixing HTML structure..."])%list in
      let html_content := normalise username (validation_step html_content o) in
      let st1 := {| generated_html := Some html_content;
                    current_username := Some username;
                    portfolio_path := portfolio_path st;
                    files := files st |} in
      let (st2, _) := save_portfolio st1 in
      let final_status := "Enhanced portfolio website for " ++ username
        ++ " has been generated! You can view it below and download the HTML file." in
      Some ((if str_truthy (generated_html st2) then generated_html st2 else None),
            portfolio_path st2, (log2 ++ [final_status])%list, st2)
  | _ => None
  end.

End App.

(* ================================================================== *)
(** ** The claims of the specification, in its own words *)
(* ================================================================== *)

Module Spec.
Import PyStr Py App.

(** The username as it is written in the message: the characters after the
    first [github.com/] (in any letter case) that are letters, digits or
    hyphens, in the case the user typed. *)
Definition written_at (message : string) : option string :=
  if starts_with "github.com/" (lower message) then
    match take_while is_user_char (drop 11 message) with
    | EmptyString => None
    | u => Some u
    end
  else None.

Fixpoint username_as_written (message : string) : option string :=
  match written_at message with
  | Some u => Some u
  | None =>
      match message with
      | EmptyString => None
      | String _ m' => username_as_written m'
      end
  end.

(** How often the per-attempt and the exhaustion updates occur among the
    status updates of the profile loop. *)
Definition retry_updates (log : list string) : nat :=
  List.length (filter (starts_with "Retrying profile fetch") log).

Definition exhausted_updates (log : list string) : nat :=
  List.length (filter (starts_with "Error fetching profile after") log).

(** Number of times a language was seen, and the distinct languages in the
    order of their first occurrence. *)
Fixpoint occurrences (lang : string) (seen : list string) : nat :=
  match seen with
  | [] => 0
  | x :: l => (if String.eqb x lang then 1 else 0) + occurrences lang l
  end.

Fixpoint first_seen_order (seen : list string) : list string :=
  match seen with
  | [] => []
  | x :: l => x :: filter (fun y => negb (String.eqb y x)) (first_seen_order l)
  end.

(** The observations a histogram holds. *)
Definition total (h : list (string * nat)) : nat :=
  fold_right (fun item acc => (snd item + acc)%nat) 0%nat h.

(** The characters of a saved username: lower-case letters, digits, hyphen. *)
Definition is_name_char (c : ascii) : bool :=
  is_lower c || is_digit c || Ascii.eqb c "-"%char.

(** JSON mode of the extractor as the specification words it: a fenced block
    tagged json first, otherwise the brace span with its quotes normalised. *)
Fixpoint tagged_fence_search (tag s : string) : option string :=
  match (if starts_with (fence ++ tag ++ nl) s
         then fence_body (drop (String.length (fence ++ tag ++ nl)) s)
         else None) with
  | Some b => Some b
  | None =>
      match s with
      | EmptyString => None
      | String _ s' => tagged_fence_search tag s'
      end
  end.

Definition spec_json_candidate (data : string) : option string :=
  match tagged_fence_search "json" data with
  | Some body => Some body
  | None => option_map requote (dict_search data)
  end.

(** A failure of the model call, for the examples. *)
Definition boom : exn := Exn "RuntimeError" "model unavailable".

(** A reply whose JSON sits in a fence without a tag, in single quotes. *)
Definition untagged_reply : string :=
  fence ++ nl ++ "{'a': 1}" ++ nl ++ fence.

(** A generation reply whose fenced block holds a bare paragraph. *)
Definition fenced_fragment : string :=
  fence ++ "html" ++ nl ++ "<p>hi</p>" ++ nl ++ fence.

(** The state of a conversation before its first portfolio. *)
Definition empty_state : ConversationState :=
  {| generated_html := None; current_username := None;
     portfolio_path := None; files := [] |}.

(** The artifact built from the fallback template for the user ada, and the
    state that holds it. *)
Definition fallback_artifact : string :=
  normalise "ada" (fallback_template "ada" "GitHub User").

Definition fallback_state : ConversationState :=
  {| generated_html := Some fallback_artifact;
     current_username := Some "ada";
     portfolio_path := Some "generated_portfolios/ada_portfolio.html";
     files := [("generated_portfolios/ada_portfolio.html", fallback_artifact)] |}.

End Spec.

(* ================================================================== *)
(** ** The tools of main.py: profile record and portfolio renderer *)
(* ================================================================== *)

Module Render.
Import PyStr Py.

(** The values of the fields of a profile, repository or skill object: the
    scalars GitHub and the orchestrator put there. *)
Inductive value : Type :=
| VNone
| VInt (z : Z)
| VStr (s : string).

Definition dict : Type := list (string * value).

(** [d.get(k, default)]. *)
Definition get (d : dict) (k : string) (default : value) : value :=
  match dict_get k d with
  | Some v => v
  | None => default
  end.

(** [bool(v)]. *)
Definition truth (v : value) : bool :=
  match v with
  | VNone => false
  | VInt z => negb (Z.eqb z 0)
  | VStr s => negb (String.eqb s EmptyString)
  end.

(** [a or b]. *)
Definition por (a b : value) : value := if truth a then a else b.

(** [str(v)], which an f-string field applies. *)
Definition str (v : value) : string :=
  match v with
  | VNone => "None"
  | VInt z => str_int z
  | VStr s => s
  end.

(** [a == b]. *)
Definition value_eqb (a b : value) : bool :=
  match a, b with
  | VNone, VNone => true
  | VInt x, VInt y => Z.eqb x y
  | VStr x, VStr y => String.eqb x y
  | _, _ => false
  end.

Definition nonempty (s : string) : bool := negb (String.eqb s EmptyString).

(** *** fetch_github_profile: the record built from the two API replies *)

Definition fetched_profile (username : string) (profile_data : dict) : dict :=
  [("name", get profile_data "name" (VStr username));
   ("bio", get profile_data "bio" (VStr EmptyString));
   ("avatar_url", get profile_data "avatar_url" (VStr EmptyString));
   ("location", get profile_data "location" (VStr EmptyString));
   ("blog", get profile_data "blog" (VStr EmptyString));
   ("twitter", get profile_data "twitter_username" (VStr EmptyString));
   ("followers", get profile_data "followers" (VInt 0));
   ("following", get profile_data "following" (VInt 0));
   ("public_repos", get profile_data "public_repos" (VInt 0))].

Definition fetched_repo (repo : dict) : dict :=
  [("name", get repo "name" (VStr EmptyString));
   ("description", get repo "description" (VStr EmptyString));
   ("language", get repo "language" (VStr EmptyString));
   ("stars", get repo "stargazers_count" (VInt 0));
   ("forks", get repo "forks_count" (VInt 0));
   ("url", get repo "html_url" (VStr EmptyString))].

(** The argument of the renderer: [profile_data] with its three entries
    ([{}] and [[]] when a key is missing). *)
Record payload : Type := {
  profile : dict;
  repos : list dict;
  skills : list dict
}.

(** What the tool returns: the profile record and one record per repository
    of the listing. *)
Definition fetch_github_profile_result (username : string) (profile_data : dict)
    (repos_data : list dict) : payload :=
  {| profile := fetched_profile username profile_data;
     repos := map fetched_repo repos_data;
     skills := [] |}.

(** *** Sorting by stars *)

Definition star_key (x : dict) : value :=
  por (get x "stargazers_count" (VInt 0)) (get x "stars" (VInt 0)).

Definition is_int (v : value) : bool := match v with VInt _ => true | _ => false end.
Definition is_str (v : value) : bool := match v with VStr _ => true | _ => false end.

(** [a < b] where Python defines it: between two ints or two strs. *)
Definition value_ltb (a b : value) : bool :=
  match a, b with
  | VInt x, VInt y => Z.ltb x y
  | VStr x, VStr y => String.ltb x y
  | _, _ => false
  end.

Fixpoint insert_by {A : Type} (key : A -> value) (x : A) (l : list A) : list A :=
  match l with
  | [] => [x]
  | y :: l' => if value_ltb (key x) (key y) then y :: insert_by key x l' else x :: y :: l'
  end.

Fixpoint sorted_by {A : Type} (key : A -> value) (l : list A) : list A :=
  match l with
  | [] => []
  | x :: l' => insert_by key x (sorted_by key l')
  end.

(** The guarded [sorted(repos, key=..., reverse=True)]: with two or more
    repositories the keys are compared, which raises [TypeError] unless they
    are all ints or all strs; the handler then keeps the original order. *)
Definition sort_repos (repos : list dict) : list dict :=
  match repos with
  | [] => repos
  | [_] => repos
  | _ =>
      if forallb (fun x => is_int (star_key x)) repos
         || forallb (fun x => is_str (star_key x)) repos
      then sorted_by star_key repos
      else repos
  end.

(** The order the sort leaves comparable keys in: no element stands before
    one with a greater key. *)
Definition ordered {A : Type} (key : A -> value) (a b : A) : Prop :=
  value_ltb (key a) (key b) = false.

(** *** Skills derived inside the renderer *)

Fixpoint vdict_get (k : value) (d : list (value * nat)) : option nat :=
  match d with
  | [] => None
  | (k', n) :: d' => if value_eqb k' k then Some n else vdict_get k d'
  end.

Fixpoint vdict_set (k : value) (n : nat) (d : list (value * nat)) : list (value * nat) :=
  match d with
  | [] => [(k, n)]
  | (k', n') :: d' => if value_eqb k' k then (k', n) :: d' else (k', n') :: vdict_set k n d'
  end.

(** The loop over [repos] that fills [languages]. *)
Definition count_repo_language (languages : list (value * nat)) (repo : dict)
  : list (value * nat) :=
  let lang := get repo "language" VNone in
  if truth lang
  then vdict_set lang (match vdict_get lang languages with Some n => n | None => 0 end + 1)%nat
                 languages
  else languages.

Definition repo_languages (repos : list dict) : list (value * nat) :=
  fold_left count_repo_language repos [].

Definition derived_skills (repos : list dict) : list dict :=
  map (fun item => [("name", fst item);
                    ("level", VInt (Z.of_nat (Nat.min (snd item * 20) 100)))])
      (sorted_desc snd (repo_languages repos)).

(** The repositories the loop counts and the sum of the counts it holds. *)
Definition has_language (repo : dict) : bool := truth (get repo "language" VNone).

Definition language_total (languages : list (value * nat)) : nat :=
  fold_right (fun item acc => (snd item + acc)%nat) 0%nat languages.

(** *** Colours *)

Definition colors : list (string * string) :=
  [("primary", "#0366d6"); ("secondary", "#6f42c1"); ("dark", "#24292e");
   ("light", "#f6f8fa"); ("accent", "#28a745"); ("text", "#24292e");
   ("text-light", "#6a737d"); ("border", "#e1e4e8")].

Definition color_of_scheme (k : string) : string :=
  match dict_get k colors with Some c => c | None => EmptyString end.

Definition language_colors : list (string * string) :=
  [("JavaScript", "#f1e05a"); ("TypeScript", "#2b7489"); ("Python", "#3572A5");
   ("Java", "#b07219"); ("C#", "#178600"); ("PHP", "#4F5D95"); ("C++", "#f34b7d");
   ("Ruby", "#701516"); ("Go", "#00ADD8"); ("Swift", "#ffac45"); ("Kotlin", "#F18E33");
   ("Rust", "#dea584"); ("HTML", "#e34c26"); ("CSS", "#563d7c"); ("Shell", "#89e051")].

(** [language_colors.get(language, '#888')]. *)
Definition language_color (language : value) : string :=
  match language with
  | VStr s => match dict_get s language_colors with Some c => c | None => "#888" end
  | _ => "#888"
  end.

(** *** The templates *)

Definition css : string :=
  "
        :root {
            --primary: " ++ color_of_scheme "primary" ++ ";
            --secondary: " ++ color_of_scheme "secondary" ++ ";
            --dark: " ++ color_of_scheme "dark" ++ ";
            --light: " ++ color_of_scheme "light" ++ ";
            --accent: " ++ color_of_scheme "accent" ++ ";
            --text: " ++ color_of_scheme "text" ++ ";
            --text-light: " ++ color_of_scheme "text-light" ++ ";
            --border: " ++ color_of_scheme "border" ++ ";
            --transition: all 0.3s ease;
            --shadow: 0 4px 6px rgba(0, 0, 0, 0.1);
            --radius: 8px;
        }
        
        /* Base Styles */
        * {
            margin: 0;
            padding: 0;
            box-sizing: border-box;
        }
        
        body {
            font-family: -apple-system, BlinkMacSystemFont, 'Segoe UI', Roboto, Oxygen, Ubuntu, Cantarell, 'Open Sans', 'Helvetica Neue', sans-serif;
            line-height: 1.6;
            color: var(--text);
            background-color: var(--light);
            transition: var(--transition);
        }
        
        /* Dark Mode */
        body.dark-mode {
            --light: #0d1117;
            --dark: #c9d1d9;
            --text: #f0f6fc;
            --text-light: #8b949e;
            --border: #30363d;
            color: var(--text);
        }
        
        .container {
            width: 100%;
            max-width: 1200px;
            margin: 0 auto;
            padding: 0 20px;
        }
        
        a {
            color: var(--primary);
            text-decoration: none;
            transition: var(--transition);
        }
        
        a:hover {
            color: var(--secondary);
        }
        
        /* Header Styles */
        header {
            background-color: var(--primary);
            color: white;
            padding: 60px 0;
            position: relative;
            overflow: hidden;
        }
        
        header::before {
            content: '';
            position: absolute;
            top: 0;
            left: 0;
            width: 100%;
            height: 100%;
            background: linear-gradient(135deg, var(--primary) 0%, var(--secondary) 100%);
            opacity: 0.9;
            z-index: 1;
        }
        
        .header-content {
            position: relative;
            z-index: 2;
            display: flex;
            align-items: center;
            gap: 40px;
        }
        
        .profile-image {
            width: 150px;
            height: 150px;
            border-radius: 50%;
            border: 5px solid white;
            box-shadow: var(--shadow);
            transition: var(--transition);
            object-fit: cover;
        }
        
        .profile-image:hover {
            transform: scale(1.05);
        }
        
        .profile-info {
            flex: 1;
        }
        
        .profile-info h1 {
            font-size: 2.5rem;
            margin-bottom: 10px;
        }
        
        .profile-bio {
            font-size: 1.2rem;
            margin-bottom: 20px;
            opacity: 0.9;
        }
        
        .contact-info {
            display: flex;
            flex-wrap: wrap;
            gap: 15px;
        }
        
        .contact-item {
            display: flex;
            align-items: center;
            gap: 5px;
            background-color: rgba(255, 255, 255, 0.2);
            padding: 5px 10px;
            border-radius: 20px;
            font-size: 0.9rem;
        }
        
        .contact-item i {
            font-size: 1rem;
        }
        
        .contact-item a {
            color: white;
        }
        
        .contact-item a:hover {
            text-decoration: underline;
        }
        
        .theme-toggle {
            position: absolute;
            top: 20px;
            right: 20px;
            background: rgba(255, 255, 255, 0.2);
            border: none;
            color: white;
            width: 40px;
            height: 40px;
            border-radius: 50%;
            display: flex;
            align-items: center;
            justify-content: center;
            cursor: pointer;
            transition: var(--transition);
            z-index: 10;
        }
        
        .theme-toggle:hover {
            background: rgba(255, 255, 255, 0.3);
            transform: rotate(15deg);
        }
        
        /* Section Styles */
        section {
            padding: 60px 0;
        }
        
        .section-title {
            font-size: 2rem;
            margin-bottom: 40px;
            text-align: center;
            position: relative;
        }
        
        .section-title::after {
            content: '';
            position: absolute;
            bottom: -10px;
            left: 50%;
            transform: translateX(-50%);
            width: 60px;
            height: 4px;
            background-color: var(--primary);
            border-radius: 2px;
        }
        
        /* Skills Section */
        .skills-grid {
            display: grid;
            grid-template-columns: repeat(auto-fill, minmax(250px, 1fr));
            gap: 20px;
        }
        
        .skill-item {
            background-color: white;
            border-radius: var(--radius);
            padding: 20px;
            box-shadow: var(--shadow);
            transition: var(--transition);
            opacity: 0;
            transform: translateY(20px);
        }
        
        .dark-mode .skill-item {
            background-color: #1a1f24;
        }
        
        .skill-item.animated {
            opacity: 1;
            transform: translateY(0);
        }
        
        .skill-item:hover {
            transform: translateY(-5px);
            box-shadow: 0 6px 12px rgba(0, 0, 0, 0.15);
        }
        
        .skill-name {
            font-weight: bold;
            margin-bottom: 10px;
            display: flex;
            align-items: center;
            gap: 8px;
        }
        
        .language-dot {
            width: 12px;
            height: 12px;
            border-radius: 50%;
            display: inline-block;
        }
        
        .skill-bar {
            height: 10px;
            background-color: var(--border);
            border-radius: 5px;
            overflow: hidden;
        }
        
        .skill-progress {
            height: 100%;
            background-color: var(--primary);
            border-radius: 5px;
            transition: width 1s ease-in-out;
        }
        
        /* Repositories Section */
        .repos-grid {
            display: grid;
            grid-template-columns: repeat(auto-fill, minmax(300px, 1fr));
            gap: 30px;
        }
        
        .repo-card {
            background-color: white;
            border-radius: var(--radius);
            padding: 25px;
            box-shadow: var(--shadow);
            transition: var(--transition);
            border: 1px solid var(--border);
            height: 100%;
            display: flex;
            flex-direction: column;
            opacity: 0;
            transform: translateY(20px);
        }
        
        .dark-mode .repo-card {
            background-color: #1a1f24;
        }
        
        .repo-card.animated {
            opacity: 1;
            transform: translateY(0);
        }
        
        .repo-card:hover {
            transform: translateY(-10px);
            box-shadow: 0 10px 20px rgba(0, 0, 0, 0.1);
        }
        
        .repo-name {
            font-size: 1.3rem;
            margin-bottom: 10px;
            color: var(--primary);
        }
        
        .repo-description {
            margin-bottom: 15px;
            flex-grow: 1;
            color: var(--text-light);
        }
        
        .repo-meta {
            display: flex;
            justify-content: space-between;
            margin-bottom: 20px;
            font-size: 0.9rem;
            color: var(--text-light);
        }
        
        .repo-language {
            display: flex;
            align-items: center;
            gap: 5px;
        }
        
        .repo-link {
            display: inline-block;
            padding: 8px 16px;
            background-color: var(--primary);
            color: white;
            border-radius: 4px;
            text-align: center;
            transition: var(--transition);
        }
        
        .repo-link:hover {
            background-color: var(--secondary);
            color: white;
        }
        
        /* Footer */
        footer {
            background-color: var(--dark);
            color: white;
            padding: 30px 0;
            text-align: center;
        }
        
        .footer-content {
            display: flex;
            flex-direction: column;
            align-items: center;
            gap: 15px;
        }
        
        .social-links {
            display: flex;
            gap: 15px;
        }
        
        .social-link {
            width: 40px;
            height: 40px;
            border-radius: 50%;
            background-color: rgba(255, 255, 255, 0.1);
            display: flex;
            align-items: center;
            justify-content: center;
            color: white;
            transition: var(--transition);
        }
        
        .social-link:hover {
            background-color: var(--primary);
            transform: translateY(-3px);
        }
        
        /* Responsive Design */
        @media (max-width: 768px) {
            .header-content {
                flex-direction: column;
                text-align: center;
            }
            
            .contact-info {
                justify-content: center;
            }
            
            .section-title {
                font-size: 1.8rem;
            }
            
            .repos-grid {
                grid-template-columns: 1fr;
            }
        }
    ".

Definition skill_item (skill_name skill_level : value) (lang_color : string) : string :=
  "
        <div class=" ++ dq ++ "skill-item" ++ dq ++ ">
            <div class=" ++ dq ++ "skill-name" ++ dq ++ ">
                <span class=" ++ dq ++ "language-dot" ++ dq ++ " style=" ++ dq ++ "background-color: " ++ lang_color ++ dq ++ "></span>
                " ++ str skill_name ++ "
            </div>
            <div class=" ++ dq ++ "skill-bar" ++ dq ++ ">
                <div class=" ++ dq ++ "skill-progress" ++ dq ++ " style=" ++ dq ++ "width: " ++ str skill_level ++ "%" ++ dq ++ "></div>
            </div>
        </div>
        ".

(** The loop that builds [skills_html], one item per skill. *)
Definition skill_items (skills : list dict) : list string :=
  map (fun skill =>
         let skill_name := get skill "name" (VStr EmptyString) in
         let skill_level := get skill "level" (VInt 50) in
         skill_item skill_name skill_level (language_color skill_name))
      skills.

Definition detailed_block (detailed_desc : value) : string :=
  if truth detailed_desc then "<p><small>" ++ str detailed_desc ++ "</small></p>"
  else EmptyString.

Definition language_block (lang_color : string) (language : value) : string :=
  if truth language then "<div class=" ++ dq ++ "repo-language" ++ dq ++ "><span class=" ++ dq ++ "language-dot" ++ dq ++ " style=" ++ dq ++ "background-color: " ++ lang_color ++ dq ++ "></span> " ++ str language ++ "</div>"
  else EmptyString.

Definition repo_card (repo_name description detailed_desc language stars forks url : value)
    (lang_color : string) : string :=
  "
        <div class=" ++ dq ++ "repo-card" ++ dq ++ ">
            <h3 class=" ++ dq ++ "repo-name" ++ dq ++ ">" ++ str repo_name ++ "</h3>
            <p class=" ++ dq ++ "repo-description" ++ dq ++ ">" ++ str description ++ "</p>
            " ++ detailed_block detailed_desc ++ "
            <div class=" ++ dq ++ "repo-meta" ++ dq ++ ">
                " ++ language_block lang_color language ++ "
                <div><i class=" ++ dq ++ "fas fa-star" ++ dq ++ "></i> " ++ str stars ++ "</div>
                <div><i class=" ++ dq ++ "fas fa-code-branch" ++ dq ++ "></i> " ++ str forks ++ "</div>
            </div>
            <a href=" ++ dq ++ str url ++ dq ++ " class=" ++ dq ++ "repo-link" ++ dq ++ " target=" ++ dq ++ "_blank" ++ dq ++ ">View Repository</a>
        </div>
        ".

(** The body of the loop over [repos[:6]] for one repository. *)
Definition card_of (name : value) (repo : dict) : string :=
  let repo_name := get repo "name" (VStr "Repository") in
  let description :=
    por (get repo "description" (VStr EmptyString))
        (get repo "detailed_description" (VStr EmptyString)) in
  let language := get repo "language" (VStr EmptyString) in
  let stars := por (get repo "stargazers_count" (VInt 0)) (get repo "stars" (VInt 0)) in
  let forks := por (get repo "forks_count" (VInt 0)) (get repo "forks" (VInt 0)) in
  let url := por (get repo "html_url" (VStr EmptyString))
                 (VStr ("https://github.com/" ++ str name ++ "/" ++ str repo_name)) in
  let lang_color := language_color language in
  let detailed_desc := get repo "detailed_description" (VStr EmptyString) in
  let detailed_desc :=
    if value_eqb detailed_desc description then VStr EmptyString else detailed_desc in
  repo_card repo_name description detailed_desc language stars forks url lang_color.

(** The cards, one per repository of the slice [repos[:6]]. *)
Definition repo_cards (name : value) (repos : list dict) : list string :=
  map (card_of name) (firstn 6 repos).

Definition location_block (location : value) : string :=
  if truth location then "<div class=" ++ dq ++ "contact-item" ++ dq ++ "><i class=" ++ dq ++ "fas fa-map-marker-alt" ++ dq ++ "></i> " ++ str location ++ "</div>"
  else EmptyString.

Definition blog_contact_block (blog : value) : string :=
  if truth blog then "<div class=" ++ dq ++ "contact-item" ++ dq ++ "><i class=" ++ dq ++ "fas fa-globe" ++ dq ++ "></i> <a href=" ++ dq ++ str blog ++ dq ++ " target=" ++ dq ++ "_blank" ++ dq ++ ">" ++ str blog ++ "</a></div>"
  else EmptyString.

Definition twitter_contact_block (twitter : value) : string :=
  if truth twitter then "<div class=" ++ dq ++ "contact-item" ++ dq ++ "><i class=" ++ dq ++ "fab fa-twitter" ++ dq ++ "></i> <a href=" ++ dq ++ "https://twitter.com/" ++ str twitter ++ dq ++ " target=" ++ dq ++ "_blank" ++ dq ++ ">@" ++ str twitter ++ "</a></div>"
  else EmptyString.

Definition twitter_footer_block (twitter : value) : string :=
  if truth twitter then "<a href=" ++ dq ++ "https://twitter.com/" ++ str twitter ++ dq ++ " class=" ++ dq ++ "social-link" ++ dq ++ " target=" ++ dq ++ "_blank" ++ dq ++ "><i class=" ++ dq ++ "fab fa-twitter" ++ dq ++ "></i></a>"
  else EmptyString.

Definition blog_footer_block (blog : value) : string :=
  if truth blog then "<a href=" ++ dq ++ str blog ++ dq ++ " class=" ++ dq ++ "social-link" ++ dq ++ " target=" ++ dq ++ "_blank" ++ dq ++ "><i class=" ++ dq ++ "fas fa-globe" ++ dq ++ "></i></a>"
  else EmptyString.

(** The names main.py binds at module level (its imports, class and
    functions) and the builtins it uses. *)
Definition module_globals : list string :=
  ["_annotations"; "asyncio"; "os"; "re"; "dataclass"; "Any"; "List"; "Dict"; "Optional";
   "logfire"; "debug"; "AsyncClient"; "Agent"; "ModelRetry"; "RunContext"; "load_dotenv";
   "html"; "BeautifulSoup"; "Deps"; "github_agent"; "fetch_repo_structure";
   "fetch_file_content"; "fetch_github_profile"; "generate_portfolio_website";
   "complete_html_structure"; "main";
   "min"; "sorted"; "str"; "len"; "list"; "print"; "Exception"].

(** Looking a name up that is no local of the function. *)
Definition lookup_global (globals : list string) (name : string) : result unit :=
  if existsb (String.eqb name) globals then Ok tt
  else Raise (Exn "NameError" ("name '" ++ name ++ "' is not defined")).

(** The field [datetime.datetime.now().year]. *)
Definition current_year (globals : list string) (now_year : Z) : result string :=
  bind (lookup_global globals "datetime") (fun _ => Ok (str_int now_year)).

(** *** The page template *)

(** The toggle script is written with single braces inside the f-string, so
    each of its two outer brace groups opens a replacement field. Their text,
    from the opening brace to the matching closing one (main.py 802-810 and
    813-826): *)
Definition toggle_field : string :=
  "
            document.body.classList.toggle('dark-mode');
            const icon = document.querySelector('.theme-toggle i');
            if (document.body.classList.contains('dark-mode')) {
                icon.className = 'fas fa-sun';
            } else {
                icon.className = 'fas fa-moon';
            }
            localStorage.setItem('darkMode', document.body.classList.contains('dark-mode'));
        ".

Definition listener_field : string :=
  "
            if (localStorage.getItem('darkMode') === 'true') {
                document.body.classList.add('dark-mode');
                document.querySelector('.theme-toggle i').className = 'fas fa-sun';
            }
            
            // Add animation classes with delay
            const elements = document.querySelectorAll('.skill-item, .repo-card');
            elements.forEach((el, index) => {
                setTimeout(() => {
                    el.classList.add('animated');
                }, 100 + (index * 50));
            });
        ".

Definition fstring_syntax_error : exn :=
  Exn "SyntaxError" "f-string: invalid syntax".

(** The compiler reads the text of a replacement field as an expression.
    What the model needs of the expression grammar: outside a string literal
    an expression holds no semicolon. [quote] is the quote character of the
    literal being passed, if any. *)
Fixpoint has_separator (quote : option ascii) (source : string) : bool :=
  match source with
  | EmptyString => false
  | String c rest =>
      match quote with
      | Some q => has_separator (if Ascii.eqb c q then None else quote) rest
      | None =>
          if Ascii.eqb c ";"%char then true
          else if Ascii.eqb c "'"%char || Ascii.eqb c "034"%char
               then has_separator (Some c) rest
               else has_separator None rest
      end
  end.

Definition compile_field (source : string) : result unit :=
  if has_separator None source then Raise fstring_syntax_error else Ok tt.

(** Compiling main.py: the template is rejected unless the text of every
    field is an expression. The fields formatted below ([name], the
    conditional blocks, the footer year) are; the two fields of the script are
    checked. *)
Definition compile_template : result unit :=
  bind (compile_field toggle_field) (fun _ => compile_field listener_field).

Section Interpreter.

(** The value the interpreter would give a field from its text, for the two
    fields of the script. *)
Variable eval_field : string -> result string.

Definition page_parts (globals : list string) (now_year : Z)
    (name bio avatar_url location blog twitter : value) (skills_html repos_html : string)
  : list (result string) :=
  [Ok ("<!DOCTYPE html>
<html lang=" ++ dq ++ "en" ++ dq ++ ">
<head>
    <meta charset=" ++ dq ++ "UTF-8" ++ dq ++ ">
    <meta name=" ++ dq ++ "viewport" ++ dq ++ " content=" ++ dq ++ "width=device-width, initial-scale=1.0" ++ dq ++ ">
    <meta name=" ++ dq ++ "description" ++ dq ++ " content=" ++ dq ++ "Portfolio website for " ++ str name ++ " - GitHub Developer" ++ dq ++ ">
    <meta name=" ++ dq ++ "keywords" ++ dq ++ " content=" ++ dq ++ "portfolio, github, developer, " ++ str name ++ dq ++ ">
    <title>" ++ str name ++ " - Portfolio</title>
    <link rel=" ++ dq ++ "stylesheet" ++ dq ++ " href=" ++ dq ++ "https://cdnjs.cloudflare.com/ajax/libs/font-awesome/6.4.0/css/all.min.css" ++ dq ++ ">
    <style>" ++ css ++ "</style>
</head>
<body>
    <button class=" ++ dq ++ "theme-toggle" ++ dq ++ " onclick=" ++ dq ++ "toggleDarkMode()" ++ dq ++ ">
        <i class=" ++ dq ++ "fas fa-moon" ++ dq ++ "></i>
    </button>
    
    <header>
        <div class=" ++ dq ++ "container" ++ dq ++ ">
            <div class=" ++ dq ++ "header-content" ++ dq ++ ">
                <img src=" ++ dq ++ str avatar_url ++ dq ++ " alt=" ++ dq ++ str name ++ dq ++ " class=" ++ dq ++ "profile-image" ++ dq ++ ">
                <div class=" ++ dq ++ "profile-info" ++ dq ++ ">
                    <h1>" ++ str name ++ "</h1>
                    <p class=" ++ dq ++ "profile-bio" ++ dq ++ ">" ++ str bio ++ "</p>
                    <div class=" ++ dq ++ "contact-info" ++ dq ++ ">
                        " ++ location_block location ++ "
                        " ++ blog_contact_block blog ++ "
                        " ++ twitter_contact_block twitter ++ "
                        <div class=" ++ dq ++ "contact-item" ++ dq ++ "><i class=" ++ dq ++ "fab fa-github" ++ dq ++ "></i> <a href=" ++ dq ++ "https://github.com/" ++ str name ++ dq ++ " target=" ++ dq ++ "_blank" ++ dq ++ ">GitHub</a></div>
                    </div>
                </div>
            </div>
        </div>
    </header>
    
    <section id=" ++ dq ++ "skills" ++ dq ++ ">
        <div class=" ++ dq ++ "container" ++ dq ++ ">
            <h2 class=" ++ dq ++ "section-title" ++ dq ++ ">Skills</h2>
            <div class=" ++ dq ++ "skills-grid" ++ dq ++ ">
                " ++ (if nonempty skills_html then skills_html else "<p>No skills data available</p>") ++ "
            </div>
        </div>
    </section>
    
    <section id=" ++ dq ++ "projects" ++ dq ++ ">
        <div class=" ++ dq ++ "container" ++ dq ++ ">
            <h2 class=" ++ dq ++ "section-title" ++ dq ++ ">Featured Projects</h2>
            <div class=" ++ dq ++ "repos-grid" ++ dq ++ ">
                " ++ (if nonempty repos_html then repos_html else "<p>No repositories available</p>") ++ "
            </div>
        </div>
    </section>
    
    <footer>
        <div class=" ++ dq ++ "container" ++ dq ++ ">
            <div class=" ++ dq ++ "footer-content" ++ dq ++ ">
                <p>&copy; ");
   current_year globals now_year;
   Ok (" " ++ str name ++ " - GitHub Portfolio</p>
                <div class=" ++ dq ++ "social-links" ++ dq ++ ">
                    <a href=" ++ dq ++ "https://github.com/" ++ str name ++ dq ++ " class=" ++ dq ++ "social-link" ++ dq ++ " target=" ++ dq ++ "_blank" ++ dq ++ ">
                        <i class=" ++ dq ++ "fab fa-github" ++ dq ++ "></i>
                    </a>
                    " ++ twitter_footer_block twitter ++ "
                    " ++ blog_footer_block blog ++ "
                </div>
            </div>
        </div>
    </footer>
    
    <script>
        function toggleDarkMode() ");
   eval_field toggle_field;
   Ok ("
        
        // Check for saved dark mode preference
        document.addEventListener('DOMContentLoaded', function() ");
   eval_field listener_field;
   Ok (");
    </script>
</body>
</html>")].

(** An f-string at run time: its parts in source order, the first exception
    wins. *)
Fixpoint assemble (parts : list (result string)) : result string :=
  match parts with
  | [] => Ok EmptyString
  | p :: rest => bind p (fun s => bind (assemble rest) (fun t => Ok (s ++ t)))
  end.

(** The body of [generate_portfolio_website] at run time, with the module
    namespace and the clock as parameters. *)
Definition render_with (globals : list string) (now_year : Z) (profile_data : payload)
  : result string :=
  let profile := profile profile_data in
  let repos := repos profile_data in
  let skills := skills profile_data in
  let name := get profile "name" (VStr "GitHub User") in
  let bio := get profile "bio" (VStr "Software Developer") in
  let avatar_url := get profile "avatar_url" (VStr EmptyString) in
  let location := get profile "location" (VStr EmptyString) in
  let blog := get profile "blog" (VStr EmptyString) in
  let twitter := get profile "twitter_username" (VStr EmptyString) in
  let repos := sort_repos repos in
  let skills := match skills with [] => derived_skills repos | _ => skills end in
  let skills_html := concat_all (skill_items skills) in
  let repos_html := concat_all (repo_cards name repos) in
  assemble (page_parts globals now_year name bio avatar_url location blog twitter
                       skills_html repos_html).

(** Loading main.py and calling the tool: the module is compiled before any
    of it runs, so the function exists, and its template is evaluated, only
    if the compiler accepts the template. *)
Definition generate_portfolio_website_in (globals : list string) (now_year : Z)
    (profile_data : payload) : result string :=
  bind compile_template (fun _ => render_with globals now_year profile_data).

Definition generate_portfolio_website (now_year : Z) (profile_data : payload)
  : result string :=
  generate_portfolio_website_in module_globals now_year profile_data.

End Interpreter.

(** A payload as [fetch_github_profile] returns it for a user with one
    repository and a Twitter handle. *)
Definition ada_api_profile : dict :=
  [("name", VStr "ada"); ("bio", VStr EmptyString); ("location", VStr "London");
   ("twitter_username", VStr "ada_l")].

Definition ada_payload : payload :=
  fetch_github_profile_result "ada" ada_api_profile
    [[("name", VStr "x"); ("language", VStr "Rust"); ("stargazers_count", VInt 10)]].

End Render.

(* ================================================================== *)
(** ** The document tree of BeautifulSoup and the structural repair *)
(* ================================================================== *)

Module Soup.
Import PyStr Py.

(** A parsed document. Attributes are the tag's dict, kept sorted by name,
    which is the order in which the serializer writes them. *)
Inductive node : Type :=
| Tag (name : string) (attrs : list (string * string)) (children : list node)
| Text (s : string)
| Comment (s : string)
| Doctype (s : string).

(** The contents of the [BeautifulSoup] object. *)
Definition soup : Type := list node.

Definition attrs_t : Type := list (string * string).

(** Induction over a tree, with the property known of all children. *)
Fixpoint node_induction (P : node -> Prop)
    (Htag : forall name attrs children, Forall P children -> P (Tag name attrs children))
    (Htext : forall s, P (Text s))
    (Hcomment : forall s, P (Comment s))
    (Hdoctype : forall s, P (Doctype s))
    (n : node) : P n :=
  match n with
  | Tag name attrs children =>
      Htag name attrs children
        ((fix all (l : list node) : Forall P l :=
            match l with
            | [] => Forall_nil P
            | c :: l' =>
                Forall_cons c (node_induction P Htag Htext Hcomment Hdoctype c) (all l')
            end) children)
  | Text s => Htext s
  | Comment s => Hcomment s
  | Doctype s => Hdoctype s
  end.

(** *** Searching *)

(** [soup.find(...)] is not [None]: some tag, anywhere below, satisfies [p]. *)
Fixpoint has (p : string -> attrs_t -> bool) (n : node) : bool :=
  match n with
  | Tag name attrs children => p name attrs || existsb (has p) children
  | _ => false
  end.

Definition has_in (p : string -> attrs_t -> bool) (s : soup) : bool :=
  existsb (has p) s.

Definition named (tag : string) : string -> attrs_t -> bool :=
  fun name _ => String.eqb name tag.

(** [soup.html], [soup.head], [soup.body], [soup.find('style')] as truth
    values. *)
Definition has_tag (tag : string) (s : soup) : bool := has_in (named tag) s.

(** The sequences of non-blank characters of an attribute value. *)
Fixpoint words_from (cur : string) (s : string) : list string :=
  match s with
  | EmptyString => match cur with EmptyString => [] | _ => [cur] end
  | String c s' =>
      if App.is_space c
      then match cur with EmptyString => words_from EmptyString s'
                     | _ => cur :: words_from EmptyString s' end
      else words_from (cur ++ String c EmptyString) s'
  end.

Definition words (s : string) : list string := words_from EmptyString s.

(** [attrs={'rel': 'stylesheet'}]: rel is a multi-valued attribute, matched
    when one of its values, or the whole value, is the word. *)
Definition is_stylesheet_link : string -> attrs_t -> bool :=
  fun name attrs =>
    String.eqb name "link" &&
    match dict_get "rel" attrs with
    | Some v => String.eqb v "stylesheet" || existsb (String.eqb "stylesheet") (words v)
    | None => false
    end.

(** [attrs={'href': lambda x: x and 'font-awesome' in x.lower()}]. *)
Definition is_font_awesome_link : string -> attrs_t -> bool :=
  fun name attrs =>
    String.eqb name "link" &&
    match dict_get "href" attrs with
    | Some v => negb (String.eqb v EmptyString) && contains "font-awesome" (lower v)
    | None => false
    end.

(** *** Updating the first tag found *)

(** The first element of a list that [u] can update, updated. *)
Fixpoint first_some {A : Type} (u : A -> option A) (l : list A) : option (list A) :=
  match l with
  | [] => None
  | c :: l' =>
      match u c with
      | Some c' => Some (c' :: l')
      | None => option_map (cons c) (first_some u l')
      end
  end.

(** Apply [f] to the children of the first tag, in document order, that
    satisfies [p]; [None] when there is none. *)
Fixpoint update_first (p : string -> attrs_t -> bool) (f : list node -> list node) (n : node)
  : option node :=
  match n with
  | Tag name attrs children =>
      if p name attrs then Some (Tag name attrs (f children))
      else option_map (Tag name attrs) (first_some (update_first p f) children)
  | _ => None
  end.

Definition update_first_in (p : string -> attrs_t -> bool) (f : list node -> list node)
    (s : soup) : option soup :=
  first_some (update_first p f) s.

(** [tag.append(child)] and [tag.insert(0, child)] on the first [tag]. *)
Definition append_to (tag : string) (child : node) (s : soup) : option soup :=
  update_first_in (named tag) (fun children => children ++ [child])%list s.

Definition prepend_to (tag : string) (child : node) (s : soup) : option soup :=
  update_first_in (named tag) (fun children => child :: children) s.

(** *** The serializer, [str(soup)] *)

Definition void_elements : list string :=
  ["area"; "base"; "br"; "col"; "embed"; "hr"; "img"; "input"; "keygen"; "link";
   "menuitem"; "meta"; "param"; "source"; "track"; "wbr";
   "basefont"; "bgsound"; "command"; "frame"; "image"; "isindex"; "nextid"; "spacer"].

Definition is_void (name : string) : bool := existsb (String.eqb name) void_elements.

(** Text inside these tags is written as it is. *)
Definition is_raw (name : string) : bool :=
  String.eqb name "script" || String.eqb name "style".

(** The minimal formatter: ampersand and angle brackets become entities. *)
Fixpoint escape (s : string) : string :=
  match s with
  | EmptyString => EmptyString
  | String c s' =>
      (if Ascii.eqb c "&"%char then "&amp;"
       else if Ascii.eqb c "<"%char then "&lt;"
       else if Ascii.eqb c ">"%char then "&gt;"
       else String c EmptyString) ++ escape s'
  end.

(** A value with a double quote goes in single quotes; with both kinds the
    double quotes become entities. *)
Definition quoted_attribute_value (v : string) : string :=
  if mem_char "034"%char v then
    if mem_char "'"%char v
    then dq ++ replace dq "&quot;" v ++ dq
    else "'" ++ v ++ "'"
  else dq ++ v ++ dq.

Definition render_attrs (attrs : attrs_t) : string :=
  concat_all (map (fun kv => " " ++ fst kv ++ "=" ++ quoted_attribute_value (escape (snd kv)))
                  attrs).

Fixpoint render_node (raw : bool) (n : node) : string :=
  match n with
  | Tag name attrs children =>
      match children with
      | [] =>
          if is_void name then "<" ++ name ++ render_attrs attrs ++ "/>"
          else "<" ++ name ++ render_attrs attrs ++ ">" ++ "</" ++ name ++ ">"
      | _ =>
          "<" ++ name ++ render_attrs attrs ++ ">"
          ++ concat_all (map (render_node (is_raw name)) children)
          ++ "</" ++ name ++ ">"
      end
  | Text s => if raw then s else escape s
  | Comment s => "<!--" ++ s ++ "-->"
  | Doctype s => "<!DOCTYPE " ++ s ++ ">" ++ nl
  end.

Definition render (s : soup) : string := concat_all (map (render_node false) s).

(** *** The repair steps of complete_html_structure *)

(** [tag.string]: the one string below a chain of only children. *)
Fixpoint string_of (n : node) : option string :=
  match n with
  | Tag _ _ [c] => string_of c
  | Tag _ _ _ => None
  | Text s => Some s
  | Comment s => Some s
  | Doctype s => Some s
  end.

Definition open_braces (css : string) : nat := count_char "{"%char css.
Definition close_braces (css : string) : nat := count_char "}"%char css.

(** The braces a style block lacks: zero when [style_tag.string] is [None]
    or empty, or when no brace is missing. *)
Definition missing_braces (style_tag : node) : nat :=
  match string_of style_tag with
  | Some css =>
      match css with
      | EmptyString => 0
      | _ => open_braces css - close_braces css
      end
  | None => 0
  end.

(** The text the loop assigns to [style_tag.string]. *)
Definition balanced_css (css : string) : string :=
  css ++ nl ++ repeat_char "}"%char (open_braces css - close_braces css).

Definition is_style (n : node) : bool :=
  match n with
  | Tag name _ _ => String.eqb name "style"
  | _ => false
  end.

(** The tree after the loop over [soup.find_all('style')]: assigning to
    [.string] replaces the children of the tag by one string. *)
Fixpoint fix_braces (n : node) : node :=
  match n with
  | Tag name attrs children =>
      if String.eqb name "style" && (0 <? missing_braces n)%nat
      then match string_of n with
           | Some css => Tag name attrs [Text (balanced_css css)]
           | None => n
           end
      else Tag name attrs (map fix_braces children)
  | _ => n
  end.

(** The style tags in the order [find_all] lists them. *)
Fixpoint style_tags (n : node) : list node :=
  match n with
  | Tag name attrs children =>
      (if String.eqb name "style" then [n] else []) ++ flat_map style_tags children
  | _ => []
  end.

(** The characters the loop adds to a style block. *)
Definition is_brace_padding (c : ascii) : bool :=
  Ascii.eqb c "010"%char || Ascii.eqb c "}"%char.

Definition brace_entry (k : nat) : string :=
  "Added " ++ str_nat k ++ " missing CSS closing braces".

(** The entries the loop appends to [fixes_made]. *)
Definition brace_entries (s : soup) : list string :=
  map (fun t => brace_entry (missing_braces t))
      (filter (fun t => (0 <? missing_braces t)%nat) (flat_map style_tags s)).

Definition head_tag : node :=
  Tag "head" [] [Tag "meta" [("charset", "UTF-8")] []; Tag "title" [] [Text "Portfolio"]].

Definition is_head (n : node) : bool :=
  match n with
  | Tag name _ _ => String.eqb name "head"
  | _ => false
  end.

(** The new body takes every child of [html] that is no head and goes last. *)
Definition move_into_body (children : list node) : list node :=
  (filter is_head children
   ++ [Tag "body" [] (filter (fun c => negb (is_head c)) children)])%list.

Definition default_css : string :=
  "
            body {
                font-family: -apple-system, BlinkMacSystemFont, 'Segoe UI', Roboto, sans-serif;
                line-height: 1.6;
                color: #333;
                max-width: 1200px;
                margin: 0 auto;
                padding: 20px;
            }
            ".

Definition style_tag : node := Tag "style" [] [Text default_css].

Definition font_awesome_href : string :=
  "https://cdnjs.cloudflare.com/ajax/libs/font-awesome/6.4.0/css/all.min.css".

Definition fa_link : node :=
  Tag "link" [("href", font_awesome_href); ("rel", "stylesheet")] [].

(** The skeleton put around a document without an html element. *)
Definition skeleton (fixed_html : string) : string :=
  "<!DOCTYPE html>" ++ nl ++ "<html lang=" ++ dq ++ "en" ++ dq ++ ">" ++ nl
  ++ "<head>" ++ nl ++ "<meta charset=" ++ dq ++ "UTF-8" ++ dq ++ ">" ++ nl
  ++ "<title>Portfolio</title>" ++ nl ++ "</head>" ++ nl ++ "<body>" ++ nl
  ++ fixed_html ++ nl ++ "</body>" ++ nl ++ "</html>".

(** The state the function threads: the tree, [fixed_html], [fixes_made]. *)
Record repair_state : Type := {
  tree : soup;
  fixed_html : string;
  fixes_made : list string
}.

Definition no_head_error : exn :=
  Exn "AttributeError" "'NoneType' object has no attribute 'append'".

Section Repair.

(** [BeautifulSoup(text, 'html.parser')]. *)
Variable parse : string -> soup.

(** The branch for a document with an html element: head, then body. *)
Definition ensure_head_body (s : soup) : option (soup * list string) :=
  let '(s1, fixes1) :=
    if has_tag "head" s then (Some s, [])
    else (prepend_to "html" head_tag s, ["Added head tag"]) in
  match s1 with
  | None => None
  | Some s1 =>
      if has_tag "body" s1 then Some (s1, fixes1)
      else match update_first_in (named "html") move_into_body s1 with
           | Some s2 => Some (s2, (fixes1 ++ ["Added body tag"])%list)
           | None => None
           end
  end.

Definition structure_step (s : soup) : result repair_state :=
  if has_tag "html" s then
    match ensure_head_body s with
    | Some (s', fixes) =>
        Ok {| tree := s'; fixed_html := render s'; fixes_made := fixes |}
    | None => Raise no_head_error
    end
  else
    let wrapped := skeleton (render s) in
    Ok {| tree := parse wrapped; fixed_html := wrapped;
          fixes_made := ["Added basic HTML structure"] |}.

Definition css_step (st : repair_state) : result repair_state :=
  if has_tag "style" (tree st) || has_in is_stylesheet_link (tree st) then Ok st
  else match append_to "head" style_tag (tree st) with
       | Some s' => Ok {| tree := s'; fixed_html := render s';
                          fixes_made := (fixes_made st ++ ["Added basic CSS"])%list |}
       | None => Raise no_head_error
       end.

Definition font_awesome_step (st : repair_state) : result repair_state :=
  if contains "fa-" (fixed_html st) && negb (has_in is_font_awesome_link (tree st)) then
    match append_to "head" fa_link (tree st) with
    | Some s' => Ok {| tree := s'; fixed_html := render s';
                       fixes_made := (fixes_made st ++ ["Added Font Awesome link"])%list |}
    | None => Raise no_head_error
    end
  else Ok st.

Definition brace_step (st : repair_state) : repair_state :=
  match brace_entries (tree st) with
  | [] => st
  | entries =>
      let s' := map fix_braces (tree st) in
      {| tree := s'; fixed_html := render s';
         fixes_made := (fixes_made st ++ entries)%list |}
  end.

(** The try block up to the loop over the style tags. *)
Definition before_brace_loop (html_content : string) : result repair_state :=
  bind (structure_step (parse html_content)) (fun st1 =>
  bind (css_step st1) (fun st2 =>
  font_awesome_step st2)).

(** The try block up to the comparison with the input. *)
Definition repair_tree (html_content : string) : result repair_state :=
  bind (before_brace_loop html_content) (fun st3 =>
  Ok (brace_step st3)).

(** The comparison with the input and the default entry. *)
Definition final_fixes (html_content : string) (st : repair_state) : list string :=
  let fixes :=
    if negb (String.length (fixed_html st) =? String.length html_content)%nat
       && negb (String.eqb (fixed_html st) html_content)
    then (fixes_made st ++ ["Fixed HTML structure and missing tags"])%list
    else fixes_made st in
  match fixes with
  | [] => ["HTML structure is already valid"]
  | _ => fixes
  end.

(** The fixed HTML and the entries of [fixes_made]; an exception gives the
    input back with no entry. *)
Definition repair (html_content : string) : string * list string :=
  match repair_tree html_content with
  | Ok st => (fixed_html st, final_fixes html_content st)
  | Raise _ => (html_content, [])
  end.

(** The dict the tool returns: [html] and [message]. *)
Definition complete_html_structure (html_content : string) : string * string :=
  match repair_tree html_content with
  | Ok st =>
      (fixed_html st,
       "HTML structure checked and fixed: "
       ++ join ", " (final_fixes html_content st) ++ ".")
  | Raise e =>
      (html_content,
       "Error checking HTML structure: " ++ exn_msg e ++ ". Original HTML returned.")
  end.

End Repair.

(** Style blocks as the parser leaves them: nothing but text inside. *)
Definition is_text (n : node) : bool :=
  match n with
  | Text _ => true
  | _ => false
  end.

Fixpoint raw_styles (n : node) : bool :=
  match n with
  | Tag name attrs children =>
      (if String.eqb name "style" then forallb is_text children else true)
      && forallb raw_styles children
  | _ => true
  end.

(** A tree the repair finds nothing to do on: the three wrapper tags, a
    style source, the icon stylesheet if icon classes occur in the text, and
    no style block short of braces. *)
Definition styled (s : soup) : bool :=
  has_tag "style" s || has_in is_stylesheet_link s.

Definition icons_linked (s : soup) : bool :=
  negb (contains "fa-" (render s)) || has_in is_font_awesome_link s.

Definition complete (s : soup) : bool :=
  has_tag "html" s && has_tag "head" s && has_tag "body" s
  && styled s && icons_linked s
  && match brace_entries s with [] => true | _ => false end.

(** What each step keeps of a state that began with an html element: the
    wrapper tags, text-only style blocks, and [fixed_html] the serialization
    of the tree. *)
Definition wrapped (st : repair_state) : Prop :=
  has_tag "html" (tree st) = true /\ has_tag "head" (tree st) = true
  /\ has_tag "body" (tree st) = true /\ forallb raw_styles (tree st) = true
  /\ fixed_html st = render (tree st).

(** The tree a run of the repair ends with. *)
Definition repaired_tree (parse : string -> soup) (html_content : string) : soup :=
  match repair_tree parse html_content with
  | Ok st => tree st
  | Raise _ => []
  end.

(** The state in which a run enters the loop over the style tags. *)
Definition state_before_braces (parse : string -> soup) (html_content : string)
  : repair_state :=
  match before_brace_loop parse html_content with
  | Ok st => st
  | Raise _ => {| tree := []; fixed_html := html_content; fixes_made := [] |}
  end.




(** The [.string] of every style block, in document order. *)
Definition style_strings (s : soup) : list (option string) :=
  map string_of (flat_map style_tags s).

End Soup.

(* ================================================================== *)
(** ** A reference parser for the markup the repair meets *)
(* ================================================================== *)

(** [BeautifulSoup(text, 'html.parser')] on plain markup: doctype, comments,
    start tags with attributes, end tags, text, the raw text of script and
    style. Of the character references only the five of XML are decoded; what the tokenizer
    cannot read as a tag is text. *)
Module HtmlParser.
Import PyStr Py Soup.

Inductive token : Type :=
| TStart (name : string) (attrs : attrs_t) (closed : bool)
| TEnd (name : string)
| TText (s : string)
| TComment (s : string)
| TDoctype (s : string).

(** [s.partition(p)]: the text before the first [p] and the text after it. *)
Definition split_on (p s : string) : option (string * string) :=
  match find p s with
  | Some i => Some (take i s, drop (i + String.length p) s)
  | None => None
  end.

Definition is_letter (c : ascii) : bool := is_lower c || is_upper c.

Definition ends_name (c : ascii) : bool :=
  App.is_space c || Ascii.eqb c "/"%char || Ascii.eqb c ">"%char.

Definition ends_attr_name (c : ascii) : bool :=
  ends_name c || Ascii.eqb c "="%char.

Fixpoint skip_blanks (s : string) : string :=
  match s with
  | String c s' => if App.is_space c || Ascii.eqb c "/"%char then skip_blanks s' else s
  | EmptyString => s
  end.

(** The five references every parser knows; any other ampersand stays. *)
Fixpoint unescape_from (skip : nat) (s : string) : string :=
  match s with
  | EmptyString => EmptyString
  | String c s' =>
      match skip with
      | S k => unescape_from k s'
      | O =>
          if starts_with "&lt;" s then String "<"%char (unescape_from 3 s')
          else if starts_with "&gt;" s then String ">"%char (unescape_from 3 s')
          else if starts_with "&amp;" s then String "&"%char (unescape_from 4 s')
          else if starts_with "&quot;" s then String "034"%char (unescape_from 5 s')
          else if starts_with "&#39;" s then String "'"%char (unescape_from 4 s')
          else String c (unescape_from 0 s')
      end
  end.

Definition unescape (s : string) : string := unescape_from 0 s.

(** [attrs[k] = v] into a dict kept sorted by key; a repeated key keeps the
    last value. *)
Fixpoint attr_set (k v : string) (attrs : attrs_t) : attrs_t :=
  match attrs with
  | [] => [(k, v)]
  | (k', v') :: rest =>
      if String.eqb k' k then (k, v) :: rest
      else if String.ltb k k' then (k, v) :: (k', v') :: rest
      else (k', v') :: attr_set k v rest
  end.

(** The attributes of a start tag, up to its closing bracket: the dict, whether
    the tag ends in a slash, and the text after the bracket. *)
Fixpoint read_attrs (fuel : nat) (s : string) (acc : attrs_t)
  : option (attrs_t * bool * string) :=
  match fuel with
  | O => None
  | S fuel' =>
      match skip_blanks s with
      | EmptyString => None
      | String c rest as t =>
          if Ascii.eqb c ">"%char then
            Some (acc, false, rest)
          else
            let k := take_while (fun a => negb (ends_attr_name a)) t in
            match k with
            | EmptyString => read_attrs fuel' rest acc
            | _ =>
                let after := drop (String.length k) t in
                match App.lstrip after with
                | String e after_eq =>
                    if Ascii.eqb e "="%char then
                      match App.lstrip after_eq with
                      | String q body =>
                          if Ascii.eqb q "034"%char || Ascii.eqb q "'"%char then
                            match split_on (String q EmptyString) body with
                            | Some (v, rest') =>
                                read_attrs fuel' rest' (attr_set (lower k) (unescape v) acc)
                            | None => None
                            end
                          else
                            let v := take_while (fun a => negb (App.is_space a
                                                                || Ascii.eqb a ">"%char))
                                                (String q body) in
                            read_attrs fuel' (drop (String.length v) (String q body))
                                       (attr_set (lower k) (unescape v) acc)
                      | EmptyString => None
                      end
                    else read_attrs fuel' after (attr_set (lower k) EmptyString acc)
                | EmptyString => None
                end
            end
      end
  end.

(** Whether the bracket that closed the tag had a slash before it. *)
Definition self_closing (tag_text : string) : bool :=
  match rev (list_ascii_of_string tag_text) with
  | c :: _ => Ascii.eqb c "/"%char
  | [] => false
  end.

(** The raw text of a script or style element: up to its end tag, in any
    letter case. *)
Definition raw_text (name s : string) : string * string :=
  match find ("</" ++ name) (lower s) with
  | Some i => (take i s, drop i s)
  | None => (s, EmptyString)
  end.

Fixpoint tokenize (fuel : nat) (s : string) : list token :=
  match fuel with
  | O => []
  | S fuel' =>
      match s with
      | EmptyString => []
      | String c rest =>
          if Ascii.eqb c "<"%char then
            if starts_with "!--" rest then
              match split_on "-->" (drop 3 rest) with
              | Some (text, after) => TComment text :: tokenize fuel' after
              | None => [TText s]
              end
            else if starts_with "!doctype " (lower rest) then
              match split_on ">" (drop 9 rest) with
              | Some (text, after) => TDoctype text :: tokenize fuel' after
              | None => [TText s]
              end
            else if starts_with "/" rest then
              match split_on ">" (drop 1 rest) with
              | Some (text, after) =>
                  TEnd (lower (take_while (fun a => negb (ends_name a)) text))
                  :: tokenize fuel' after
              | None => [TText s]
              end
            else
              match rest with
              | String l _ =>
                  if is_letter l then
                    let name := lower (take_while (fun a => negb (ends_name a)) rest) in
                    let tail := drop (String.length name) rest in
                    match read_attrs (S (String.length tail)) tail [] with
                    | Some (attrs, _, after) =>
                        let tag_text :=
                          take (String.length tail - String.length after - 1) tail in
                        if is_raw name then
                          let '(text, after') := raw_text name after in
                          TStart name attrs (self_closing tag_text)
                          :: (match text with
                              | EmptyString => []
                              | _ => [TText text]
                              end ++ tokenize fuel' after')%list
                        else TStart name attrs (self_closing tag_text) :: tokenize fuel' after
                    | None => [TText s]
                    end
                  else TText "<" :: tokenize fuel' rest
              | EmptyString => [TText "<"]
              end
          else
            let text := take_while (fun a => negb (Ascii.eqb a "<"%char)) s in
            TText (unescape text) :: tokenize fuel' (drop (String.length text) s)
      end
  end.

(** Adjacent pieces of text are one string. *)
Fixpoint merge_text (ts : list token) : list token :=
  match ts with
  | TText a :: rest =>
      match merge_text rest with
      | TText b :: rest' => TText (a ++ b) :: rest'
      | rest' => TText a :: rest'
      end
  | t :: rest => t :: merge_text rest
  | [] => []
  end.

Definition is_ascii_space (c : ascii) : bool :=
  let n := nat_of_ascii c in
  ((n =? 32) || (n =? 9) || (n =? 10) || (n =? 12) || (n =? 13))%nat.

(** A string of blanks shrinks to one newline or one space, except below
    pre and textarea. *)
Definition collapse (preserve : bool) (s : string) : string :=
  if negb preserve && all_chars is_ascii_space s then
    if mem_char "010"%char s then nl else " "
  else s.

(** An open tag: its name, attributes and the children read so far, last
    first. *)
Definition frame : Type := string * attrs_t * list node.

Definition preserves (stack : list frame) : bool :=
  existsb (fun f => let '(name, _, _) := f in
                    String.eqb name "pre" || String.eqb name "textarea") stack.

Definition add_child (n : node) (stack : list frame) (doc : list node)
  : list frame * list node :=
  match stack with
  | (name, attrs, children) :: below => ((name, attrs, n :: children) :: below, doc)
  | [] => ([], n :: doc)
  end.

(** Close the innermost open tag. *)
Definition pop (stack : list frame) (doc : list node) : list frame * list node :=
  match stack with
  | (name, attrs, children) :: below => add_child (Tag name attrs (rev children)) below doc
  | [] => ([], doc)
  end.

(** Close the open tags down to the innermost one called [name]. *)
Fixpoint pop_to (fuel : nat) (name : string) (stack : list frame) (doc : list node)
  : list frame * list node :=
  match fuel, stack with
  | S fuel', (name', _, _) :: _ =>
      let '(stack', doc') := pop stack doc in
      if String.eqb name' name then (stack', doc')
      else pop_to fuel' name stack' doc'
  | _, _ => (stack, doc)
  end.

Fixpoint close_all (fuel : nat) (stack : list frame) (doc : list node) : list node :=
  match fuel, stack with
  | S fuel', _ :: _ => let '(stack', doc') := pop stack doc in close_all fuel' stack' doc'
  | _, _ => doc
  end.

Fixpoint build (ts : list token) (stack : list frame) (doc : list node) : soup :=
  match ts with
  | [] => rev (close_all (List.length stack) stack doc)
  | t :: ts' =>
      let '(stack', doc') :=
        match t with
        | TStart name attrs closed =>
            if is_void name || closed then add_child (Tag name attrs []) stack doc
            else ((name, attrs, []) :: stack, doc)
        | TEnd name =>
            if existsb (fun f => let '(name', _, _) := f in String.eqb name' name) stack
            then pop_to (List.length stack) name stack doc
            else (stack, doc)
        | TText s => add_child (Text (collapse (preserves stack) s)) stack doc
        | TComment s => add_child (Comment s) stack doc
        | TDoctype s => add_child (Doctype s) stack doc
        end in
      build ts' stack' doc'
  end.

Definition parse (text : string) : soup :=
  build (merge_text (tokenize (S (String.length text)) text)) [] [].

(** Two inputs of the repair: a page with an html element but no head, an
    icon class and a style block two braces short; and a fragment with a
    balanced style block and no html element. *)
Definition page_without_head : string :=
  "<html><body><i class=" ++ dq ++ "fa-x" ++ dq ++ "></i><style>a{{</style></body></html>".



End HtmlParser.

(* ================================================================== *)
(** ** The GitHub tools of main.py and the context of a turn *)
(* ================================================================== *)

Module Tools.
Import PyStr Py Render.

(** [re.match(r'https://github.com/([^/]+)/([^/]+)', repo_url)]: the dot of
    the pattern stands for any character but a newline. *)
Definition not_slash (c : ascii) : bool := negb (Ascii.eqb c "/"%char).

Definition match_repo_url (repo_url : string) : option (string * string) :=
  if starts_with "https://github" repo_url then
    match drop 14 repo_url with
    | String dot rest =>
        if Ascii.eqb dot "010"%char then None
        else if starts_with "com/" rest then
          let after_host := drop 4 rest in
          match take_while not_slash after_host with
          | EmptyString => None
          | owner =>
              match drop (String.length owner) after_host with
              | String _ after_owner =>
                  match take_while not_slash after_owner with
                  | EmptyString => None
                  | repo => Some (owner, repo)
                  end
              | EmptyString => None
              end
          end
        else None
    | EmptyString => None
    end
  else None.

(** A reply of the GitHub API: its status and its JSON body, an object (its
    scalar fields, and its tree entry if it has one) or a list of objects. *)
Inductive body : Type :=
| BObject (fields : dict) (tree : option (list dict))
| BList (items : list dict).

Record response : Type := { status_code : nat; json : body }.

(** A request: the URL and the headers sent. *)
Definition request : Type := (string * list (string * string))%type.

Definition auth_headers (github_token : option string) : list (string * string) :=
  match github_token with
  | Some (String c t) => [("Authorization", "token " ++ String c t)]
  | _ => []
  end.

Definition tree_url (owner repo branch : string) : string :=
  "https://api.github.com/repos/" ++ owner ++ "/" ++ repo ++ "/git/trees/" ++ branch
  ++ "?recursive=1".

Definition model_retry (msg : string) : exn := Exn "ModelRetry" msg.
Definition http_status_error (status : nat) : exn :=
  Exn "HTTPStatusError" (str_nat status).
Definition key_error (k : string) : exn := Exn "KeyError" ("'" ++ k ++ "'").
Definition attribute_error : exn :=
  Exn "AttributeError" "'list' object has no attribute 'get'".
Definition attribute_error_str : exn :=
  Exn "AttributeError" "'str' object has no attribute 'get'".
Definition type_error : exn :=
  Exn "TypeError" "list indices must be integers or slices, not str".

(** [d[k]]. *)
Definition item (d : dict) (k : string) : result value :=
  match dict_get k d with
  | Some v => Ok v
  | None => Raise (key_error k)
  end.

(** The comprehension that keeps the path and size of every blob. *)
Fixpoint blob_files (tree : list dict) : result (list dict) :=
  match tree with
  | [] => Ok []
  | entry :: tree' =>
      if value_eqb (get entry "type" VNone) (VStr "blob") then
        bind (item entry "path") (fun path =>
        bind (item entry "size") (fun size =>
        bind (blob_files tree') (fun files =>
        Ok ([("path", path); ("size", size)] :: files))))
      else blob_files tree'
  end.

(** The entries the first comprehension keeps, the record the second one
    builds, and whether every kept entry has both keys it reads. *)
Definition is_blob (entry : dict) : bool :=
  value_eqb (get entry "type" VNone) (VStr "blob").

Definition file_entry (entry : dict) : dict :=
  [("path", get entry "path" VNone); ("size", get entry "size" VNone)].

Definition has_key (k : string) (d : dict) : bool :=
  match dict_get k d with Some _ => true | None => false end.

Definition complete_blobs (tree : list dict) : bool :=
  forallb (fun entry => negb (is_blob entry) || (has_key "path" entry && has_key "size" entry))
          tree.

Record repo_structure : Type := {
  rs_owner : string;
  rs_repo : string;
  rs_files : list dict
}.

Section Http.

(** The client and [Response.is_success], which decides what
    [raise_for_status] does. *)
Variable http_get : string -> list (string * string) -> response.
Variable is_success : nat -> bool.

(** [fetch_repo_structure]: the requests made, in order, and the result. *)
Definition fetch_repo_structure (github_token : option string) (repo_url : string)
  : list request * result repo_structure :=
  match match_repo_url repo_url with
  | None => ([], Raise (model_retry "Invalid GitHub repository URL format"))
  | Some (owner, repo) =>
      let headers := auth_headers github_token in
      let main_url := tree_url owner repo "main" in
      let r := http_get main_url headers in
      let '(requests, r) :=
        if (status_code r =? 404)%nat
        then
          let master_url := tree_url owner repo "master" in
          ([(main_url, headers); (master_url, headers)], http_get master_url headers)
        else ([(main_url, headers)], r) in
      (requests,
       if is_success (status_code r) then
         match json r with
         | BObject _ tree =>
             bind (blob_files (match tree with Some t => t | None => [] end)) (fun files =>
             Ok {| rs_owner := owner; rs_repo := repo; rs_files := files |})
         | BList _ => Raise attribute_error
         end
       else Raise (http_status_error (status_code r)))
  end.

Definition user_url (username : string) : string :=
  "https://api.github.com/users/" ++ username.

Definition repos_url (username : string) : string :=
  "https://api.github.com/users/" ++ username ++ "/repos?sort=updated&per_page=5".

(** [fetch_github_profile]: the requests made, in order, and the result. *)
Definition fetch_github_profile (github_token : option string) (username : string)
  : list request * result payload :=
  let headers := auth_headers github_token in
  let r1 := http_get (user_url username) headers in
  if is_success (status_code r1) then
    let r2 := http_get (repos_url username) headers in
    ([(user_url username, headers); (repos_url username, headers)],
     if is_success (status_code r2) then
       match json r1, json r2 with
       | BObject profile_data _, BList repos_data =>
           Ok (fetch_github_profile_result username profile_data repos_data)
       | BList _, _ => Raise attribute_error
       | BObject profile_data _, BObject [] None =>
           Ok (fetch_github_profile_result username profile_data [])
       | BObject _ _, BObject _ _ => Raise attribute_error_str
       end
     else Raise (http_status_error (status_code r2)))
  else ([(user_url username, headers)], Raise (http_status_error (status_code r1))).

End Http.

(** The reply that decides the result of [fetch_repo_structure]: the one for
    master when main answered 404, the one for main otherwise. *)
Definition deciding_response (http_get : string -> list (string * string) -> response)
    (github_token : option string) (owner repo : string) : response :=
  let r := http_get (tree_url owner repo "main") (auth_headers github_token) in
  if (status_code r =? 404)%nat
  then http_get (tree_url owner repo "master") (auth_headers github_token)
  else r.

(** *** The context a turn is given (app.py) *)

Inductive role : Type := User | Assistant.

Definition thinking : string := "Thinking...".

(** The loop over the chat history: a pair still showing the placeholder
    contributes nothing. *)
Fixpoint conversation_history (history : list (string * string)) : list (role * string) :=
  match history with
  | [] => []
  | (user_msg, bot_msg) :: rest =>
      ((if nonempty user_msg && negb (String.eqb bot_msg thinking)
        then [(User, user_msg)] else [])
       ++ (if nonempty bot_msg && negb (String.eqb bot_msg thinking)
           then [(Assistant, bot_msg)] else [])
       ++ conversation_history rest)%list
  end.

(** [l[-6:-1]]. *)
Definition slice_last_five {A : Type} (l : list A) : list A :=
  let n := List.length l in
  firstn (n - 1 - (n - 6)) (skipn (n - 6) l).

Definition context_line (msg : role * string) : string :=
  (match fst msg with User => "User" | Assistant => "Assistant" end) ++ ": " ++ snd msg.

Definition context_messages (history : list (string * string)) : list string :=
  map context_line (slice_last_five (conversation_history history)).

Definition combined_message (message : string) (history : list (string * string)) : string :=
  if (1 <? List.length (conversation_history history))%nat then
    match context_messages history with
    | [] => message
    | lines =>
        "Previous conversation:" ++ nl ++ join nl lines ++ nl ++ nl
        ++ "Current message: " ++ message
    end
  else message.

End Tools.

(* ================================================================== *)
(** * Properties *)
(* ================================================================== *)

(** ** Facts about Python strings *)

Module PyStrFacts.
Import PyStr.

Lemma append_empty_r (s : string) : s ++ EmptyString = s.
Proof. induction s as [|c s IH]; simpl; [reflexivity | now rewrite IH]. Qed.

Lemma append_assoc (a b c : string) : (a ++ b) ++ c = a ++ b ++ c.
Proof. induction a as [|x a IH]; simpl; [reflexivity | now rewrite IH]. Qed.

Lemma length_append (a b : string) :
  String.length (a ++ b) = String.length a + String.length b.
Proof. induction a as [|x a IH]; simpl; [reflexivity | now rewrite IH]. Qed.

Lemma drop_append (a b : string) : drop (String.length a) (a ++ b) = b.
Proof. induction a as [|x a IH]; simpl; [now destruct b | exact IH]. Qed.

Lemma take_append (a b : string) : take (String.length a) (a ++ b) = a.
Proof.
  induction a as [|x a IH]; simpl; [now destruct b | now rewrite IH].
Qed.

Lemma drop_empty (n : nat) : drop n EmptyString = EmptyString.
Proof. now destruct n. Qed.

Lemma starts_with_append (p s : string) : starts_with p (p ++ s) = true.
Proof.
  induction p as [|a p IH]; simpl; [reflexivity|].
  now rewrite Ascii.eqb_refl, IH.
Qed.

Lemma starts_with_split (p s : string) :
  starts_with p s = true -> s = p ++ drop (String.length p) s.
Proof.
  revert s; induction p as [|a p IH]; intros s H; simpl in *.
  - now destruct s.
  - destruct s as [|b s]; [discriminate|].
    apply andb_true_iff in H as [Hab Hp].
    apply Ascii.eqb_eq in Hab; subst b.
    simpl. f_equal. now apply IH.
Qed.

Lemma map_chars_append (f : ascii -> ascii) (a b : string) :
  map_chars f (a ++ b) = map_chars f a ++ map_chars f b.
Proof. induction a as [|x a IH]; simpl; [reflexivity | now rewrite IH]. Qed.

Lemma map_chars_drop (f : ascii -> ascii) (n : nat) (s : string) :
  map_chars f (drop n s) = drop n (map_chars f s).
Proof.
  revert s; induction n as [|n IH]; intros [|c s]; simpl; auto.
Qed.

(** Lower-casing is idempotent, character by character. *)
Lemma lower_char_idem (c : ascii) : lower_char (lower_char c) = lower_char c.
Proof.
  destruct c as [[] [] [] [] [] [] [] []]; vm_compute; reflexivity.
Qed.

Lemma lower_idem (s : string) : lower (lower s) = lower s.
Proof.
  unfold lower; induction s as [|c s IH]; simpl; [reflexivity|].
  now rewrite lower_char_idem, IH.
Qed.

Lemma lower_append (a b : string) : lower (a ++ b) = lower a ++ lower b.
Proof. apply map_chars_append. Qed.

Lemma lower_drop (n : nat) (s : string) : lower (drop n s) = drop n (lower s).
Proof. apply map_chars_drop. Qed.

End PyStrFacts.

(** ** Intent detection: the username is taken in lower case *)

Module IntentFacts.
Import PyStr Py App Spec PyStrFacts.

Lemma is_user_char_lower (c : ascii) : is_user_char (lower_char c) = is_user_char c.
Proof.
  destruct c as [[] [] [] [] [] [] [] []]; vm_compute; reflexivity.
Qed.

Lemma take_while_user_lower (s : string) :
  take_while is_user_char (lower s) = lower (take_while is_user_char s).
Proof.
  unfold lower; induction s as [|c s IH]; simpl; [reflexivity|].
  rewrite is_user_char_lower.
  destruct (is_user_char c); simpl; [now rewrite IH | reflexivity].
Qed.

Lemma username_at_lower (m : string) :
  username_at (lower m) = option_map lower (written_at m).
Proof.
  unfold username_at, written_at.
  destruct (starts_with "github.com/" (lower m)); [|reflexivity].
  rewrite <- lower_drop, take_while_user_lower.
  now destruct (take_while is_user_char (drop 11 m)).
Qed.

Lemma search_username_lower (m : string) :
  search_username (lower m) = option_map lower (username_as_written m).
Proof.
  induction m as [|c m IH].
  - reflexivity.
  - change (lower (String c m)) with (String (lower_char c) (lower m)).
    cbn [search_username username_as_written].
    change (String (lower_char c) (lower m)) with (lower (String c m)).
    rewrite username_at_lower.
    destruct (written_at (String c m)); [reflexivity | exact IH].
Qed.

Lemma username_as_written_nonempty (m w : string) :
  username_as_written m = Some w -> w <> EmptyString.
Proof.
  revert w; induction m as [|c m IH]; intros w Hm.
  - discriminate Hm.
  - cbn [username_as_written] in Hm.
    destruct (written_at (String c m)) as [x|] eqn:E.
    + injection Hm as <-. unfold written_at in E.
      destruct (starts_with "github.com/" (lower (String c m))); [|discriminate].
      destruct (take_while is_user_char (drop 11 (String c m))); [discriminate|].
      injection E as <-. discriminate.
    + now apply IH.
Qed.

(** C10. Whenever a message takes the portfolio branch, the username bound
    there is the lower-case form of the username as written after
    [github.com/] in the message; lower-casing it again changes nothing, and
    the saved file and the GitHub profile and avatar URLs are built from that
    lower-case form. *)
Theorem portfolio_username_is_lowercase :
  forall (message u : string),
    portfolio_username message = Some u ->
    exists w : string,
      username_as_written message = Some w /\
      u = lower w /\
      lower u = u /\
      portfolio_filename u = lower w ++ "_portfolio.html" /\
      github_profile_url u = "https://github.com/" ++ lower w /\
      github_avatar_url u = "https://github.com/" ++ lower w ++ ".png" /\
      (forall (st : ConversationState) (html : string),
          generated_html st = Some html -> html <> EmptyString ->
          current_username st = Some u ->
          snd (save_portfolio st)
          = Some ("generated_portfolios/" ++ lower w ++ "_portfolio.html")).
Proof.
  intros message u H.
  unfold portfolio_username in H.
  destruct (contains "portfolio" (lower message) && contains "github.com/" (lower message));
    [|discriminate].
  rewrite search_username_lower in H.
  destruct (username_as_written message) as [w|] eqn:Hw; [|discriminate].
  injection H as <-.
  exists w.
  split; [reflexivity|]. split; [reflexivity|].
  split; [apply lower_idem|].
  split; [reflexivity|]. split; [reflexivity|]. split; [reflexivity|].
  intros st html Hh Hne Hu.
  pose proof (username_as_written_nonempty _ _ Hw) as Hnz.
  unfold save_portfolio. rewrite Hh, Hu.
  destruct html as [|h html']; [congruence|].
  destruct w as [|c w']; [congruence|].
  reflexivity.
Qed.

(** The theorem applied to a message with an upper-case URL. *)
Lemma portfolio_username_is_lowercase_witness :
  exists w : string,
    username_as_written "Make a portfolio for https://GitHub.com/SamChou05" = Some w /\
    "samchou05" = lower w /\
    lower "samchou05" = "samchou05" /\
    portfolio_filename "samchou05" = lower w ++ "_portfolio.html" /\
    github_profile_url "samchou05" = "https://github.com/" ++ lower w /\
    github_avatar_url "samchou05" = "https://github.com/" ++ lower w ++ ".png" /\
    (forall (st : ConversationState) (html : string),
        generated_html st = Some html -> html <> EmptyString ->
        current_username st = Some "samchou05" ->
        snd (save_portfolio st)
        = Some ("generated_portfolios/" ++ lower w ++ "_portfolio.html")).
Proof.
  apply (portfolio_username_is_lowercase
           "Make a portfolio for https://GitHub.com/SamChou05" "samchou05").
  vm_compute. reflexivity.
Defined.

End IntentFacts.

(** ** The profile retry loop *)

Module RetryFacts.
Import PyStr Py App Spec.

Section WithDecoder.
Variable json_loads : string -> result json.

(** A run that returns a usable profile ends the loop at once and yields no
    status update. *)
Lemma fetch_profile_loop_success (o : outcome) (v : json) (rest : list outcome)
    (log : list string) (n : nat) :
  (n < max_retries)%nat ->
  profile_attempt json_loads o = Ok v -> is_none v = false ->
  fetch_profile_loop json_loads (o :: rest) n log = Some (v, log, rest).
Proof.
  intros Hn Ho Hv. cbn [fetch_profile_loop].
  apply Nat.ltb_lt in Hn. rewrite Hn, Ho, Hv. reflexivity.
Qed.

End WithDecoder.

(** C3 (as amended). When the operation raises on each of its three attempts,
    the loop yields the retry update after the first and after the second
    failure only, yields the exhaustion update once after the third, makes no
    further run, and the caller gets the basic profile built from the
    username. *)
Theorem fetch_profile_always_failing :
  forall (json_loads : string -> result json) (username : string)
         (o1 o2 o3 : outcome) (e1 e2 e3 : exn) (rest : list outcome),
    profile_attempt json_loads o1 = Raise e1 ->
    profile_attempt json_loads o2 = Raise e2 ->
    profile_attempt json_loads o3 = Raise e3 ->
    fetch_profile json_loads username (o1 :: o2 :: o3 :: rest)
    = Some (basic_profile username,
            [retry_profile_status 1; retry_profile_status 2; exhausted_profile_status e3],
            rest)
    /\ retry_updates [retry_profile_status 1; retry_profile_status 2;
                      exhausted_profile_status e3] = 2
    /\ exhausted_updates [retry_profile_status 1; retry_profile_status 2;
                          exhausted_profile_status e3] = 1.
Proof.
  intros json_loads username o1 o2 o3 e1 e2 e3 rest H1 H2 H3.
  split; [|split; reflexivity].
  unfold fetch_profile. cbn [fetch_profile_loop].
  change (0 <? max_retries)%nat with true. cbv iota.
  rewrite H1. cbv zeta.
  change (1 <? max_retries)%nat with true. cbv iota.
  rewrite H2. cbv zeta.
  change (2 <? max_retries)%nat with true. cbv iota.
  rewrite H3. cbv zeta.
  change (3 <? max_retries)%nat with false. cbv iota.
  destruct rest; reflexivity.
Qed.

(** The theorem on a script of three raising runs. *)
Lemma fetch_profile_always_failing_witness :
  fetch_profile JsonText.loads "ada" [Raises boom; Raises boom; Raises boom]
  = Some (basic_profile "ada",
          [retry_profile_status 1; retry_profile_status 2; exhausted_profile_status boom],
          [])
  /\ retry_updates [retry_profile_status 1; retry_profile_status 2;
                    exhausted_profile_status boom] = 2
  /\ exhausted_updates [retry_profile_status 1; retry_profile_status 2;
                        exhausted_profile_status boom] = 1.
Proof.
  apply (fetch_profile_always_failing JsonText.loads "ada"
           (Raises boom) (Raises boom) (Raises boom) boom boom boom []);
    reflexivity.
Defined.

(** C3 as the specification states it fails: with three raising runs the
    retry update is yielded twice, not three times. *)
Lemma retry_update_count_counterexample :
  match fetch_profile JsonText.loads "ada" [Raises boom; Raises boom; Raises boom] with
  | Some (_, log, _) => retry_updates log <> 3
  | None => False
  end.
Proof. vm_compute. intro H. discriminate H. Qed.

End RetryFacts.

(** ** JSON extraction from a model response *)

Module ExtractFacts.
Import PyStr Py App Spec PyStrFacts.

Lemma starts_with_refl (p : string) : starts_with p p = true.
Proof.
  induction p as [|a p IH]; simpl; [reflexivity|].
  now rewrite Ascii.eqb_refl.
Qed.

(** A pattern that starts [x ++ y] starts [x], or [x] is a prefix of the
    pattern and the rest of the pattern starts [y]. *)
Lemma starts_with_app_inv (p x y : string) :
  starts_with p (x ++ y) = true ->
  starts_with p x = true \/ exists p', p = x ++ p' /\ starts_with p' y = true.
Proof.
  revert x; induction p as [|a p IH]; intros x H.
  - now left.
  - destruct x as [|b x].
    + right. exists (String a p). split; [reflexivity | exact H].
    + simpl in H. apply andb_true_iff in H as [Hab Hp].
      apply Ascii.eqb_eq in Hab; subst b.
      destruct (IH x Hp) as [Hl | [p' [-> Hr]]].
      * left. simpl. now rewrite Ascii.eqb_refl.
      * right. exists p'. split; [reflexivity | exact Hr].
Qed.

Lemma contains_false_inv (p : string) (c : ascii) (s : string) :
  contains p (String c s) = false ->
  starts_with p (String c s) = false /\ contains p s = false.
Proof.
  unfold contains. cbn [find].
  destruct (starts_with p (String c s)); [discriminate|].
  destruct (find p s); [discriminate | auto].
Qed.

(** The lazy group stops at the closing fence that follows the body. *)
Lemma find_closing_fence (body rest : string) :
  contains (nl ++ fence) body = false ->
  find (nl ++ fence) (body ++ nl ++ fence ++ rest) = Some (String.length body).
Proof.
  induction body as [|c b IH]; intros H.
  - reflexivity.
  - apply contains_false_inv in H as [Hs Hc].
    change ((String c b) ++ nl ++ fence ++ rest) with (String c (b ++ nl ++ fence ++ rest)).
    cbn [find]. rewrite (IH Hc).
    destruct (starts_with (nl ++ fence) (String c (b ++ nl ++ fence ++ rest))) eqn:E;
      [|reflexivity].
    exfalso.
    change (String c (b ++ nl ++ fence ++ rest))
      with ((String c b) ++ (nl ++ fence ++ rest)) in E.
    apply starts_with_app_inv in E as [E | [p' [Hp Hr]]]; [congruence|].
    destruct b as [|c2 [|c3 [|c4 b']]]; cbv in Hp; inversion Hp; subst;
      try discriminate Hr.
    cbv in Hs. discriminate Hs.
Qed.

Lemma fence_body_closed (body rest : string) :
  contains (nl ++ fence) body = false ->
  fence_body (body ++ nl ++ fence ++ rest) = Some body.
Proof.
  intros H. unfold fence_body. rewrite (find_closing_fence _ _ H).
  now rewrite take_append.
Qed.

Lemma fence_at_block (tagged : bool) (body post : string) :
  contains (nl ++ fence) body = false ->
  fence_at "json" (fence ++ (if tagged then "json" else EmptyString) ++ nl
                   ++ body ++ nl ++ fence ++ post) = Some body.
Proof.
  intros H. unfold fence_at. destruct tagged.
  - change (fence ++ "json" ++ nl ++ body ++ nl ++ fence ++ post)
      with ((fence ++ "json" ++ nl) ++ body ++ nl ++ fence ++ post).
    rewrite starts_with_append, drop_append, (fence_body_closed _ _ H). reflexivity.
  - change (fence ++ EmptyString ++ nl ++ body ++ nl ++ fence ++ post)
      with ((fence ++ nl) ++ body ++ nl ++ fence ++ post).
    replace (starts_with (fence ++ "json" ++ nl) ((fence ++ nl) ++ body ++ nl ++ fence ++ post))
      with false by reflexivity.
    rewrite starts_with_append, drop_append, (fence_body_closed _ _ H). reflexivity.
Qed.

(** [re.search] returns the match at the first position that has one. *)
Lemma fence_search_leftmost (tag pre rest b : string) :
  (forall i, (i < String.length pre)%nat -> fence_at tag (drop i (pre ++ rest)) = None) ->
  fence_at tag rest = Some b ->
  fence_search tag (pre ++ rest) = Some b.
Proof.
  induction pre as [|c pre IH]; intros Hleft Hat.
  - change (EmptyString ++ rest) with rest.
    destruct rest; cbn [fence_search]; rewrite Hat; reflexivity.
  - change ((String c pre) ++ rest) with (String c (pre ++ rest)).
    cbn [fence_search].
    pose proof (Hleft 0%nat (Nat.lt_0_succ _)) as H0.
    change (drop 0 (String c pre ++ rest)) with (String c (pre ++ rest)) in H0.
    rewrite H0.
    apply IH; [|exact Hat].
    intros i Hi. apply (Hleft (S i)). simpl. lia.
Qed.

Lemma mem_char_false_cons (c a : ascii) (s : string) :
  mem_char c (String a s) = false -> Ascii.eqb a c = false /\ mem_char c s = false.
Proof. simpl. apply orb_false_iff. Qed.

Lemma find_first_char (c : ascii) (pre rest : string) :
  mem_char c pre = false ->
  find (String c EmptyString) (pre ++ String c rest) = Some (String.length pre).
Proof.
  induction pre as [|a pre IH]; intros H.
  - simpl. now rewrite Ascii.eqb_refl.
  - apply mem_char_false_cons in H as [Ha Hm].
    change ((String a pre) ++ String c rest) with (String a (pre ++ String c rest)).
    cbn [find starts_with].
    rewrite Ascii.eqb_sym, Ha. cbn [andb].
    now rewrite (IH Hm).
Qed.

Lemma rfind_char_absent (c : ascii) (s : string) :
  mem_char c s = false -> rfind_char c s = None.
Proof.
  induction s as [|a s IH]; intros H; [reflexivity|].
  apply mem_char_false_cons in H as [Ha Hm].
  simpl. now rewrite (IH Hm), Ha.
Qed.

Lemma rfind_last_char (c : ascii) (mid post : string) :
  mem_char c post = false ->
  rfind_char c (mid ++ String c post) = Some (String.length mid).
Proof.
  intros H. induction mid as [|a mid IH].
  - simpl. now rewrite (rfind_char_absent _ _ H), Ascii.eqb_refl.
  - simpl. now rewrite IH.
Qed.

(** The greedy brace pattern spans from the first opening brace to the last
    closing brace. *)
Lemma dict_search_span (pre mid post : string) :
  mem_char "{"%char pre = false -> mem_char "}"%char post = false ->
  dict_search (pre ++ "{" ++ mid ++ "}" ++ post) = Some ("{" ++ mid ++ "}").
Proof.
  intros Hpre Hpost. unfold dict_search.
  change (pre ++ "{" ++ mid ++ "}" ++ post) with (pre ++ String "{"%char (mid ++ "}" ++ post)).
  rewrite (find_first_char _ _ _ Hpre).
  change (S (String.length pre)) with (String.length pre + 1)%nat || idtac.
  replace (drop (S (String.length pre)) (pre ++ String "{"%char (mid ++ "}" ++ post)))
    with (mid ++ "}" ++ post).
  2:{ clear. induction pre as [|a pre IH]; simpl; [reflexivity | exact IH]. }
  change (mid ++ "}" ++ post) with (mid ++ String "}"%char post).
  rewrite (rfind_last_char _ _ _ Hpost).
  f_equal. simpl. f_equal.
  clear. induction mid as [|a mid IH]; simpl; [reflexivity | now rewrite IH].
Qed.

(** C8 (as amended). The body of the leftmost fenced block is handed to the
    decoder as it stands, whether the fence is tagged json or has no tag; only
    a reply without such a block has the span from its first opening brace to
    its last closing brace re-quoted and decoded; and the unfenced reply
    [{'a': 1}] decodes to the object with the one member a = 1. *)
Theorem json_extraction_paths :
  forall json_loads : string -> result json,
    (forall (tagged : bool) (pre body post : string),
        contains (nl ++ fence) body = false ->
        (forall i, (i < String.length pre)%nat ->
           fence_at "json"
             (drop i (pre ++ fence ++ (if tagged then "json" else EmptyString) ++ nl
                      ++ body ++ nl ++ fence ++ post)) = None) ->
        extract_profile json_loads
          (pre ++ fence ++ (if tagged then "json" else EmptyString) ++ nl
           ++ body ++ nl ++ fence ++ post)
        = json_loads body)
    /\ (forall pre mid post : string,
        fence_search "json" (pre ++ "{" ++ mid ++ "}" ++ post) = None ->
        mem_char "{"%char pre = false -> mem_char "}"%char post = false ->
        extract_profile json_loads (pre ++ "{" ++ mid ++ "}" ++ post)
        = json_loads (requote ("{" ++ mid ++ "}")))
    /\ extract_profile JsonText.loads "{'a': 1}" = Ok (JObj [("a", JNum 1)]).
Proof.
  intros json_loads. split; [|split].
  - intros tagged pre body post Hbody Hleft.
    unfold extract_profile, json_candidate.
    rewrite (fence_search_leftmost "json" pre _ body Hleft (fence_at_block tagged body post Hbody)).
    reflexivity.
  - intros pre mid post Hfence Hpre Hpost.
    unfold extract_profile, json_candidate.
    rewrite Hfence, (dict_search_span _ _ _ Hpre Hpost). reflexivity.
  - vm_compute. reflexivity.
Qed.

(** The theorem on a tagged block inside prose and on a quoted brace span. *)
Lemma json_extraction_paths_witness :
  extract_profile JsonText.loads
    ("Here: " ++ fence ++ "json" ++ nl ++ "{" ++ dq ++ "a" ++ dq ++ ": 1}" ++ nl ++ fence ++ " done")
  = JsonText.loads ("{" ++ dq ++ "a" ++ dq ++ ": 1}")
  /\ extract_profile JsonText.loads ("so " ++ "{" ++ "'a': 1" ++ "}" ++ " it is")
     = JsonText.loads (requote ("{" ++ "'a': 1" ++ "}")).
Proof.
  destruct (json_extraction_paths JsonText.loads) as [Hfenced [Hspan _]].
  split.
  - apply (Hfenced true "Here: " ("{" ++ dq ++ "a" ++ dq ++ ": 1}") " done").
    + vm_compute. reflexivity.
    + intros i Hi.
      do 6 (destruct i as [|i]; [vm_compute; reflexivity|]).
      exfalso. simpl in Hi. lia.
  - apply (Hspan "so " "'a': 1" " it is"); vm_compute; reflexivity.
Defined.

(** C8 as the specification states it fails on a fence without a tag: the
    reply has no block tagged json, so the specification re-quotes the brace
    span, while the code hands the body of the untagged block to the decoder
    with its single quotes, and the decoder raises. *)
Lemma untagged_fence_counterexample :
  tagged_fence_search "json" untagged_reply = None
  /\ spec_json_candidate untagged_reply = Some ("{" ++ dq ++ "a" ++ dq ++ ": 1}")
  /\ json_candidate untagged_reply = Some "{'a': 1}"
  /\ json_candidate untagged_reply <> spec_json_candidate untagged_reply
  /\ extract_profile JsonText.loads untagged_reply = Raise JsonText.decode_error.
Proof.
  repeat split; try (vm_compute; reflexivity).
  vm_compute. intro H. discriminate H.
Qed.

End ExtractFacts.

(** ** Skills derived from the language histogram *)

Module SkillFacts.
Import PyStr Py App Spec.

Section StableSort.
Context {A : Type} (key : A -> nat).

Lemma insert_desc_perm (x : A) (l : list A) :
  Permutation (insert_desc key x l) (x :: l).
Proof.
  induction l as [|y l IH]; simpl; [reflexivity|].
  destruct (key x <? key y)%nat; [|reflexivity].
  rewrite IH. apply perm_swap.
Qed.

Lemma sorted_desc_perm (l : list A) : Permutation (sorted_desc key l) l.
Proof.
  induction l as [|x l IH]; simpl; [reflexivity|].
  rewrite insert_desc_perm. now constructor.
Qed.

Lemma insert_desc_sorted (x : A) (l : list A) :
  StronglySorted (descending key) l -> StronglySorted (descending key) (insert_desc key x l).
Proof.
  induction l as [|y l IH]; intros Hs; simpl.
  - repeat constructor.
  - inversion Hs as [|? ? Hl Hy]; subst.
    destruct (key x <? key y)%nat eqn:E.
    + apply Nat.ltb_lt in E. constructor; [now apply IH|].
      apply Forall_forall. intros z Hz.
      apply (Permutation_in _ (insert_desc_perm x l)) in Hz.
      destruct Hz as [<- | Hz]; [unfold descending; lia|].
      rewrite Forall_forall in Hy. now apply Hy.
    + apply Nat.ltb_ge in E. constructor; [exact Hs|].
      constructor; [exact E|].
      eapply Forall_impl; [|exact Hy]. unfold descending. intros z Hz. lia.
Qed.

Lemma sorted_desc_sorted (l : list A) :
  StronglySorted (descending key) (sorted_desc key l).
Proof.
  induction l as [|x l IH]; simpl; [constructor | now apply insert_desc_sorted].
Qed.

(** Stability: the items of one key keep their input order. *)
Lemma insert_desc_stable (n : nat) (x : A) (l : list A) :
  filter (fun a => key a =? n)%nat (insert_desc key x l)
  = filter (fun a => key a =? n)%nat (x :: l).
Proof.
  induction l as [|y l IH]; [reflexivity|].
  cbn [insert_desc]. destruct (key x <? key y)%nat eqn:E; [|reflexivity].
  apply Nat.ltb_lt in E.
  cbn [filter] in *. rewrite IH.
  destruct (key x =? n)%nat eqn:Ex, (key y =? n)%nat eqn:Ey; try reflexivity.
  apply Nat.eqb_eq in Ex, Ey. lia.
Qed.

Lemma sorted_desc_stable (n : nat) (l : list A) :
  filter (fun a => key a =? n)%nat (sorted_desc key l)
  = filter (fun a => key a =? n)%nat l.
Proof.
  induction l as [|x l IH]; [reflexivity|].
  cbn [sorted_desc]. rewrite insert_desc_stable. cbn [filter]. now rewrite IH.
Qed.

End StableSort.

(** *** The histogram: keys in first-seen order, values the occurrences *)

Lemma dict_get_set_same (k : string) (v : nat) (h : list (string * nat)) :
  dict_get k (dict_set k v h) = Some v.
Proof.
  induction h as [|[k' v'] h IH]; simpl.
  - now rewrite String.eqb_refl.
  - destruct (String.eqb k' k) eqn:E; simpl; rewrite E; [reflexivity | exact IH].
Qed.

Lemma dict_get_set_other (k k0 : string) (v : nat) (h : list (string * nat)) :
  k0 <> k -> dict_get k0 (dict_set k v h) = dict_get k0 h.
Proof.
  intros Hne. induction h as [|[k' v'] h IH]; simpl.
  - destruct (String.eqb k k0) eqn:E; [|reflexivity].
    apply String.eqb_eq in E. congruence.
  - destruct (String.eqb k' k) eqn:E; simpl.
    + apply String.eqb_eq in E; subst k'.
      destruct (String.eqb k k0) eqn:E2; [|reflexivity].
      apply String.eqb_eq in E2. congruence.
    + destruct (String.eqb k' k0); [reflexivity | exact IH].
Qed.

Lemma keys_dict_set (k : string) (v : nat) (h : list (string * nat)) :
  keys (dict_set k v h)
  = if existsb (String.eqb k) (keys h) then keys h else (keys h ++ [k])%list.
Proof.
  unfold keys.
  induction h as [|[k' v'] h IH]; simpl; [reflexivity|].
  rewrite (String.eqb_sym k k').
  destruct (String.eqb k' k) eqn:E; simpl; [reflexivity|].
  rewrite IH.
  destruct (existsb (String.eqb k) (map fst h)); reflexivity.
Qed.

Lemma histogram_snoc (seen : list string) (x : string) :
  histogram (seen ++ [x]) = count_language x (histogram seen).
Proof. unfold histogram. now rewrite fold_left_app. Qed.

Lemma occurrences_snoc (lang x : string) (seen : list string) :
  occurrences lang (seen ++ [x])
  = (occurrences lang seen + if String.eqb x lang then 1 else 0)%nat.
Proof.
  induction seen as [|y l IH]; simpl; [lia|]. rewrite IH. lia.
Qed.

Lemma get0_histogram (lang : string) (seen : list string) :
  get0 lang (histogram seen) = occurrences lang seen.
Proof.
  induction seen as [|x l IH] using rev_ind; [reflexivity|].
  rewrite histogram_snoc, occurrences_snoc. unfold count_language, get0 in *.
  destruct (String.eqb x lang) eqn:E.
  - apply String.eqb_eq in E; subst x. rewrite dict_get_set_same.
    destruct (dict_get lang (histogram l)); lia.
  - rewrite dict_get_set_other; [lia|].
    intros ->. now rewrite String.eqb_refl in E.
Qed.

Lemma filter_ne_absent (x : string) (l : list string) :
  existsb (String.eqb x) l = false ->
  filter (fun y => negb (String.eqb y x)) l = l.
Proof.
  induction l as [|a l IH]; simpl; [reflexivity|].
  intros H. apply orb_false_iff in H as [Ha Hl].
  rewrite String.eqb_sym, Ha. simpl. now rewrite IH.
Qed.

Lemma existsb_filter_ne (x a : string) (l : list string) :
  String.eqb x a = false ->
  existsb (String.eqb x) (filter (fun y => negb (String.eqb y a)) l)
  = existsb (String.eqb x) l.
Proof.
  intros Hxa. induction l as [|b l IH]; simpl; [reflexivity|].
  destruct (String.eqb b a) eqn:E; simpl.
  - apply String.eqb_eq in E; subst b. now rewrite Hxa.
  - now rewrite IH.
Qed.

Lemma existsb_first_seen (x : string) (seen : list string) :
  existsb (String.eqb x) (first_seen_order seen) = existsb (String.eqb x) seen.
Proof.
  induction seen as [|a l IH]; simpl; [reflexivity|].
  destruct (String.eqb x a) eqn:E; [reflexivity|].
  simpl. now rewrite existsb_filter_ne.
Qed.

Lemma first_seen_snoc (seen : list string) (x : string) :
  first_seen_order (seen ++ [x])
  = if existsb (String.eqb x) seen then first_seen_order seen
    else (first_seen_order seen ++ [x])%list.
Proof.
  induction seen as [|a l IH]; simpl; [reflexivity|].
  rewrite IH. destruct (String.eqb x a) eqn:E; simpl.
  - destruct (existsb (String.eqb x) l); [reflexivity|].
    rewrite filter_app. simpl. rewrite E. simpl. now rewrite app_nil_r.
  - destruct (existsb (String.eqb x) l); [reflexivity|].
    rewrite filter_app. simpl. rewrite E. reflexivity.
Qed.

Lemma keys_histogram (seen : list string) :
  keys (histogram seen) = first_seen_order seen.
Proof.
  induction seen as [|x l IH] using rev_ind; [reflexivity|].
  rewrite histogram_snoc, first_seen_snoc. unfold count_language.
  rewrite keys_dict_set, IH, existsb_first_seen. reflexivity.
Qed.

Lemma NoDup_first_seen (seen : list string) : NoDup (first_seen_order seen).
Proof.
  induction seen as [|x l IH]; simpl; constructor.
  - intros Hin. apply filter_In in Hin as [_ Hne].
    now rewrite String.eqb_refl in Hne.
  - now apply NoDup_filter.
Qed.

Lemma dict_get_in (k : string) (v : nat) (h : list (string * nat)) :
  NoDup (keys h) -> In (k, v) h -> dict_get k h = Some v.
Proof.
  induction h as [|[k' v'] h IH]; intros Hnd Hin; [contradiction|].
  simpl in *. inversion Hnd as [|? ? Hk Hnd']; subst.
  destruct Hin as [Heq | Hin].
  - injection Heq as -> ->. now rewrite String.eqb_refl.
  - destruct (String.eqb k' k) eqn:E; [|now apply IH].
    apply String.eqb_eq in E; subst k'. exfalso. apply Hk.
    change k with (fst (k, v)). now apply in_map.
Qed.

(** Every item of the histogram carries the number of occurrences of its
    language. *)
Lemma histogram_items (seen : list string) :
  Forall (fun item => snd item = occurrences (fst item) seen) (histogram seen).
Proof.
  apply Forall_forall. intros [k v] Hin. simpl.
  rewrite <- get0_histogram. unfold get0.
  rewrite (dict_get_in k v); [reflexivity | | exact Hin].
  rewrite keys_histogram. apply NoDup_first_seen.
Qed.

Lemma filter_by_occurrences (seen : list string) (n : nat) (l : list (string * nat)) :
  Forall (fun item => snd item = occurrences (fst item) seen) l ->
  map fst (filter (fun item => snd item =? n)%nat l)
  = filter (fun lang => occurrences lang seen =? n)%nat (map fst l).
Proof.
  induction l as [|[k v] l IH]; intros H; [reflexivity|].
  inversion H as [|? ? Hkv Hl]; subst. simpl in *. rewrite Hkv.
  destruct (occurrences k seen =? n)%nat; simpl; now rewrite IH.
Qed.

Lemma skill_names (h : list (string * nat)) :
  map skill_name (skills_of h) = map fst (sorted_desc snd h).
Proof. unfold skills_of. rewrite map_map. reflexivity. Qed.

(** C7. For the histogram of any sequence of observed languages: the skills
    name exactly the languages seen; each level is min(occurrences * 20, 100);
    the list is in descending order of occurrences; and languages seen equally
    often stand in the order in which they were first seen. *)
Theorem skills_from_histogram :
  forall seen : list string,
    Permutation (map skill_name (skills_of (histogram seen))) (first_seen_order seen)
    /\ Forall (fun s => skill_level s = Nat.min (occurrences (skill_name s) seen * 20) 100)
              (skills_of (histogram seen))
    /\ StronglySorted
         (fun a b => (occurrences (skill_name b) seen <= occurrences (skill_name a) seen)%nat)
         (skills_of (histogram seen))
    /\ (forall n : nat,
          filter (fun lang => occurrences lang seen =? n)%nat
                 (map skill_name (skills_of (histogram seen)))
          = filter (fun lang => occurrences lang seen =? n)%nat (first_seen_order seen)).
Proof.
  intros seen.
  pose proof (histogram_items seen) as Hitems.
  assert (Hsorted_items :
            Forall (fun item => snd item = occurrences (fst item) seen)
                   (sorted_desc snd (histogram seen))).
  { apply Forall_forall. intros item Hin.
    rewrite Forall_forall in Hitems. apply Hitems.
    apply (Permutation_in _ (sorted_desc_perm snd (histogram seen))). exact Hin. }
  split; [|split; [|split]].
  - rewrite skill_names, <- keys_histogram. unfold keys.
    apply Permutation_map, sorted_desc_perm.
  - unfold skills_of. apply Forall_map. simpl.
    eapply Forall_impl; [|exact Hsorted_items].
    intros [k v] Hkv. simpl in *. now rewrite Hkv.
  - unfold skills_of.
    pose proof (sorted_desc_sorted snd (histogram seen)) as Hs.
    induction Hs as [|item l Hl IH Hhd]; [constructor|].
    inversion Hsorted_items as [|? ? Hi Hrest]; subst.
    simpl. constructor; [now apply IH|].
    apply Forall_map. simpl.
    rewrite Forall_forall in *. intros z Hz.
    specialize (Hhd z Hz). unfold descending in Hhd.
    rewrite <- Hi, <- (Hrest z Hz). exact Hhd.
  - intros n. rewrite skill_names.
    rewrite <- (filter_by_occurrences seen n _ Hsorted_items).
    rewrite sorted_desc_stable.
    rewrite (filter_by_occurrences seen n _ Hitems).
    now rewrite <- keys_histogram.
Qed.

End SkillFacts.

(** ** The portfolio renderer *)

Module RenderFacts.
Import PyStr Py Render.

Lemma assemble_raise (s : string) (e : exn) (rest : list (result string)) :
  assemble (Ok s :: Raise e :: rest) = Raise e.
Proof. reflexivity. Qed.

(** main.py never imports [datetime]: the footer field cannot be evaluated
    in the module namespace. *)
Lemma current_year_unbound (now_year : Z) :
  current_year module_globals now_year
  = Raise (Exn "NameError" "name 'datetime' is not defined").
Proof. reflexivity. Qed.

(** A semicolon outside a string literal: the text is no expression. *)
Lemma toggle_field_rejected : compile_field toggle_field = Raise fstring_syntax_error.
Proof. reflexivity. Qed.

Lemma listener_field_rejected : compile_field listener_field = Raise fstring_syntax_error.
Proof. reflexivity. Qed.

(** The compiler rejects the template, whatever a field would evaluate to
    and whatever names the module binds: no call of the tool gets as far as
    evaluating a field. *)
Lemma template_rejected (eval_field : string -> result string) (globals : list string)
    (now_year : Z) (profile_data : payload) :
  generate_portfolio_website_in eval_field globals now_year profile_data
  = Raise fstring_syntax_error.
Proof.
  unfold generate_portfolio_website_in, compile_template.
  now rewrite toggle_field_rejected.
Qed.

(** C2 (as amended). For every payload the renderer returns no HTML, but
    not through a NameError: the compiler rejects the template of main.py for
    the single braces of its script (SyntaxError), even in a namespace that
    binds datetime, so the function is never defined and no field is ever
    evaluated. That datetime is never imported is right: in the module
    namespace the footer field could not be evaluated either. *)
Theorem renderer_rejected_at_compile_time :
  forall (eval_field : string -> result string) (globals : list string)
         (now_year : Z) (profile_data : payload),
    generate_portfolio_website_in eval_field globals now_year profile_data
    = Raise fstring_syntax_error
    /\ generate_portfolio_website eval_field now_year profile_data
       = Raise fstring_syntax_error
    /\ (forall html : string,
          generate_portfolio_website eval_field now_year profile_data <> Ok html)
    /\ exn_type fstring_syntax_error = "SyntaxError"
    /\ current_year module_globals now_year
       = Raise (Exn "NameError" "name 'datetime' is not defined").
Proof.
  intros eval_field globals now_year profile_data.
  split; [apply template_rejected|].
  split; [exact (template_rejected eval_field module_globals now_year profile_data)|].
  split; [|split; reflexivity].
  intros html. unfold generate_portfolio_website. rewrite template_rejected. discriminate.
Qed.

(** C2 as the specification states it fails: the call does not end in a
    NameError. Shown for a payload as the profile tool builds it, with fields
    that would evaluate to the empty string. *)
Lemma name_error_counterexample :
  generate_portfolio_website (fun _ => Ok EmptyString) 2025 ada_payload
  = Raise (Exn "SyntaxError" "f-string: invalid syntax")
  /\ generate_portfolio_website (fun _ => Ok EmptyString) 2025 ada_payload
     <> Raise (Exn "NameError" "name 'datetime' is not defined").
Proof.
  unfold generate_portfolio_website. rewrite template_rejected.
  split; [reflexivity | discriminate].
Qed.

(** *** Sorting and the cards *)

Lemma insert_by_perm {A : Type} (key : A -> value) (x : A) (l : list A) :
  Permutation (insert_by key x l) (x :: l).
Proof.
  induction l as [|y l IH]; simpl; [apply Permutation_refl|].
  destruct (value_ltb (key x) (key y)); [|apply Permutation_refl].
  eapply Permutation_trans; [apply perm_skip, IH | apply perm_swap].
Qed.

Lemma sorted_by_perm {A : Type} (key : A -> value) (l : list A) :
  Permutation (sorted_by key l) l.
Proof.
  induction l as [|x l IH]; simpl; [constructor|].
  eapply Permutation_trans; [apply insert_by_perm | now apply perm_skip].
Qed.

Lemma sort_repos_perm (repos : list dict) : Permutation (sort_repos repos) repos.
Proof.
  unfold sort_repos. destruct repos as [|a [|b l]]; try apply Permutation_refl.
  destruct (forallb (fun x => is_int (star_key x)) (a :: b :: l)
            || forallb (fun x => is_str (star_key x)) (a :: b :: l));
    [apply sorted_by_perm | apply Permutation_refl].
Qed.

(** The cards built before the template is assembled: one per repository,
    at most six. *)
Lemma repo_cards_length (name : value) (repos : list dict) :
  List.length (repo_cards name repos) = Nat.min 6 (List.length repos).
Proof. unfold repo_cards. now rewrite length_map, length_firstn. Qed.

(** C4, the divergence. For every payload the card loop would build one card
    for each of the first six repositories, min(N, 6) in all; but the tool
    hands no HTML, hence no card, to its caller, because the template that
    holds the cards is rejected when main.py is compiled. In particular for
    the payload of a user with one repository. *)
Theorem renderer_output_has_no_cards :
  forall (eval_field : string -> result string) (now_year : Z) (profile_data : payload),
    List.length (repo_cards (get (profile profile_data) "name" (VStr "GitHub User"))
                            (sort_repos (repos profile_data)))
    = Nat.min 6 (List.length (repos profile_data))
    /\ (forall html : string,
          generate_portfolio_website eval_field now_year profile_data <> Ok html)
    /\ List.length (repos ada_payload) = 1%nat
    /\ generate_portfolio_website eval_field 2025 ada_payload = Raise fstring_syntax_error.
Proof.
  intros eval_field now_year profile_data.
  split; [|split; [|split]].
  - rewrite repo_cards_length. now rewrite (Permutation_length (sort_repos_perm _)).
  - intros html. unfold generate_portfolio_website. rewrite template_rejected. discriminate.
  - reflexivity.
  - exact (template_rejected eval_field module_globals 2025 ada_payload).
Qed.

(** C9 at its failing input. [fetch_github_profile] stores the handle under
    the key twitter, the renderer reads twitter_username: for every profile
    record the tool builds, the handle the renderer sees is empty and both
    Twitter blocks are omitted, whatever handle the API reported. *)
Theorem twitter_blocks_never_rendered :
  forall (username : string) (api_profile : dict),
    let profile := fetched_profile username api_profile in
    get profile "twitter" (VStr EmptyString)
    = get api_profile "twitter_username" (VStr EmptyString)
    /\ get profile "twitter_username" (VStr EmptyString) = VStr EmptyString
    /\ twitter_contact_block (get profile "twitter_username" (VStr EmptyString)) = EmptyString
    /\ twitter_footer_block (get profile "twitter_username" (VStr EmptyString)) = EmptyString.
Proof.
  intros username api_profile. cbv zeta. repeat split.
Qed.

End RenderFacts.

(** ** Structural repair: the CSS brace loop *)

Module BraceFacts.
Import PyStr Py Soup.

Lemma count_char_append (c : ascii) (a b : string) :
  count_char c (a ++ b) = (count_char c a + count_char c b)%nat.
Proof.
  induction a as [|x a IH]; simpl; [reflexivity|]. rewrite IH. lia.
Qed.

Lemma count_char_repeat_same (c : ascii) (n : nat) :
  count_char c (repeat_char c n) = n.
Proof.
  induction n as [|n IH]; simpl; [reflexivity|].
  now rewrite Ascii.eqb_refl, IH.
Qed.

Lemma count_char_repeat_other (c d : ascii) (n : nat) :
  Ascii.eqb d c = false -> count_char c (repeat_char d n) = 0%nat.
Proof.
  intros H. induction n as [|n IH]; simpl; [reflexivity|]. now rewrite H, IH.
Qed.

(** After the repair a block has as many closing as opening braces. *)
Lemma balanced_css_counts (css : string) :
  (close_braces css <= open_braces css)%nat ->
  open_braces (balanced_css css) = open_braces css
  /\ close_braces (balanced_css css) = open_braces css.
Proof.
  intros H. unfold balanced_css, open_braces, close_braces in *.
  rewrite !count_char_append.
  rewrite count_char_repeat_same, (count_char_repeat_other "{"%char "}"%char) by reflexivity.
  change (count_char "{"%char nl) with 0%nat.
  change (count_char "}"%char nl) with 0%nat.
  lia.
Qed.

Lemma missing_braces_string (t : node) (css : string) :
  string_of t = Some css -> missing_braces t = (open_braces css - close_braces css)%nat.
Proof.
  intros H. unfold missing_braces. rewrite H. now destruct css.
Qed.

Lemma texts_have_no_styles (l : list node) :
  forallb is_text l = true -> flat_map style_tags l = [].
Proof.
  induction l as [|c l IH]; [reflexivity|].
  simpl. intros H. apply andb_true_iff in H as [Hc Hl].
  destruct c; try discriminate; simpl; now apply IH.
Qed.

Lemma texts_unchanged (l : list node) :
  forallb is_text l = true -> map fix_braces l = l.
Proof.
  induction l as [|c l IH]; [reflexivity|].
  simpl. intros H. apply andb_true_iff in H as [Hc Hl].
  rewrite (IH Hl). destruct c; try discriminate; reflexivity.
Qed.

Lemma flat_map_map_forall {A B : Type} (f : A -> A) (g : A -> list B) (h : B -> B)
    (l : list A) :
  Forall (fun x => g (f x) = map h (g x)) l ->
  flat_map g (map f l) = map h (flat_map g l).
Proof.
  induction 1 as [|x l Hx Hl IH]; [reflexivity|].
  simpl. now rewrite map_app, Hx, IH.
Qed.

Lemma forallb_Forall_impl {A : Type} (f : A -> bool) (P : A -> Prop) (l : list A) :
  Forall (fun x => f x = true -> P x) l -> forallb f l = true -> Forall P l.
Proof.
  induction 1 as [|x l Hx Hl IH]; [constructor|].
  simpl. intros H. apply andb_true_iff in H as [Hfx Hfl].
  constructor; auto.
Qed.

(** With style blocks that hold only strings, the loop maps each block to
    its repaired form and leaves their number and order alone. *)
Lemma style_tags_fix_braces (n : node) :
  raw_styles n = true -> style_tags (fix_braces n) = map fix_braces (style_tags n).
Proof.
  induction n as [name attrs children IH | | |] using node_induction;
    try reflexivity.
  intros Hraw. cbn [raw_styles] in Hraw.
  apply andb_true_iff in Hraw as [Hstyle Hchildren].
  cbn [fix_braces style_tags].
  destruct (String.eqb name "style") eqn:Ename.
  - rewrite (texts_have_no_styles _ Hstyle).
    cbn [andb app map].
    destruct (0 <? missing_braces (Tag name attrs children))%nat eqn:Emiss.
    + destruct (string_of (Tag name attrs children)) as [css|] eqn:Es;
        cbn [fix_braces style_tags flat_map app andb];
        rewrite ?Ename, ?Emiss, ?Es; cbn [andb];
        rewrite ?Es, ?(texts_have_no_styles _ Hstyle); reflexivity.
    + cbn [fix_braces style_tags andb]; rewrite ?Ename, ?Emiss; cbn [andb style_tags].
      rewrite ?Ename, (texts_unchanged _ Hstyle), (texts_have_no_styles _ Hstyle).
      reflexivity.
  - cbn [andb app style_tags]. rewrite ?Ename. cbn [app].
    apply flat_map_map_forall.
    apply (forallb_Forall_impl raw_styles); [exact IH | exact Hchildren].
Qed.

Lemma style_tags_fix_braces_all (s : soup) :
  forallb raw_styles s = true ->
  flat_map style_tags (map fix_braces s) = map fix_braces (flat_map style_tags s).
Proof.
  intros H. apply flat_map_map_forall.
  apply (forallb_Forall_impl raw_styles); [|exact H].
  apply Forall_forall. intros n _. apply style_tags_fix_braces.
Qed.

(** Every tag [find_all('style')] lists is a style tag, and under
    [raw_styles] its children are strings. *)
Lemma style_tags_are_raw (n : node) :
  raw_styles n = true ->
  Forall (fun t => exists attrs children,
              t = Tag "style" attrs children /\ forallb is_text children = true)
         (style_tags n).
Proof.
  induction n as [name attrs children IH | | |] using node_induction;
    try (intros _; constructor).
  intros Hraw. cbn [raw_styles] in Hraw.
  apply andb_true_iff in Hraw as [Hstyle Hchildren].
  cbn [style_tags]. apply Forall_app. split.
  - destruct (String.eqb name "style") eqn:Ename; [|constructor].
    apply String.eqb_eq in Ename; subst name.
    constructor; [|constructor]. now exists attrs, children.
  - apply Forall_flat_map.
    pose proof (forallb_Forall_impl raw_styles _ _ IH Hchildren) as H.
    exact H.
Qed.

Lemma style_tags_are_raw_all (s : soup) :
  forallb raw_styles s = true ->
  Forall (fun t => exists attrs children,
              t = Tag "style" attrs children /\ forallb is_text children = true)
         (flat_map style_tags s).
Proof.
  intros H. apply Forall_flat_map.
  apply (forallb_Forall_impl raw_styles); [|exact H].
  apply Forall_forall. intros n _. apply style_tags_are_raw.
Qed.

(** The string of a repaired style block. *)
Lemma string_of_fixed_style (attrs : attrs_t) (children : list node) (css : string) :
  forallb is_text children = true ->
  string_of (Tag "style" attrs children) = Some css ->
  string_of (fix_braces (Tag "style" attrs children))
  = Some (if (close_braces css <? open_braces css)%nat then balanced_css css else css).
Proof.
  intros Hraw Hs.
  pose proof (missing_braces_string _ _ Hs) as Hm.
  cbn [fix_braces]. change (String.eqb "style" "style") with true. cbn [andb].
  rewrite Hm, Hs.
  destruct (0 <? open_braces css - close_braces css)%nat eqn:E.
  - apply Nat.ltb_lt in E.
    replace (close_braces css <? open_braces css)%nat with true
      by (symmetry; apply Nat.ltb_lt; lia).
    reflexivity.
  - apply Nat.ltb_ge in E.
    replace (close_braces css <? open_braces css)%nat with false
      by (symmetry; apply Nat.ltb_ge; lia).
    now rewrite (texts_unchanged _ Hraw).
Qed.

(** In a document whose style blocks hold their text as strings, the loop
    over the style tags gives the i-th block, with text css, O opening and C
    closing braces: css, a newline and O - C closing braces and an entry with
    that number if O > C; its own text if O <= C. *)
Lemma fix_braces_appends_deficit (s : soup) (i : nat) (css : string) :
    forallb raw_styles s = true ->
    nth_error (style_strings s) i = Some (Some css) ->
    ((close_braces css < open_braces css)%nat ->
       nth_error (style_strings (map fix_braces s)) i
       = Some (Some (css ++ nl ++ repeat_char "}"%char (open_braces css - close_braces css)))
       /\ close_braces (css ++ nl ++ repeat_char "}"%char (open_braces css - close_braces css))
          = open_braces css
       /\ In ("Added " ++ str_nat (open_braces css - close_braces css)
              ++ " missing CSS closing braces") (brace_entries s))
    /\ ((open_braces css <= close_braces css)%nat ->
        nth_error (style_strings (map fix_braces s)) i = Some (Some css)).
Proof.
  intros Hraw Hi.
  unfold style_strings in *.
  rewrite (style_tags_fix_braces_all _ Hraw).
  rewrite nth_error_map in Hi.
  destruct (nth_error (flat_map style_tags s) i) as [t|] eqn:Et; [|discriminate].
  simpl in Hi. injection Hi as Hs.
  pose proof (style_tags_are_raw_all _ Hraw) as Hall.
  rewrite Forall_forall in Hall.
  destruct (Hall t (nth_error_In _ _ Et)) as [attrs [children [-> Hstr]]].
  pose proof (string_of_fixed_style attrs children css Hstr Hs) as Hfixed.
  rewrite !nth_error_map, Et. cbn [option_map].
  split.
  - intros Hlt. split; [|split].
    + rewrite Hfixed. apply Nat.ltb_lt in Hlt. now rewrite Hlt.
    + apply (balanced_css_counts css). lia.
    + unfold brace_entries.
      change ("Added " ++ str_nat (open_braces css - close_braces css)
              ++ " missing CSS closing braces")
        with (brace_entry (open_braces css - close_braces css)).
      rewrite <- (missing_braces_string _ _ Hs).
      apply (in_map (fun t => brace_entry (missing_braces t)) _ (Tag "style" attrs children)).
      apply filter_In. split; [exact (nth_error_In _ _ Et)|].
      apply Nat.ltb_lt. rewrite (missing_braces_string _ _ Hs). lia.
  - intros Hle. rewrite Hfixed.
    replace (close_braces css <? open_braces css)%nat with false
      by (symmetry; apply Nat.ltb_ge; exact Hle).
    reflexivity.
Qed.


Lemma in_final_fixes (html_content entry : string) (st : repair_state) :
  In entry (fixes_made st) -> In entry (final_fixes html_content st).
Proof.
  intros H. unfold final_fixes.
  destruct (negb (String.length (fixed_html st) =? String.length html_content)%nat
            && negb (String.eqb (fixed_html st) html_content)).
  - destruct (fixes_made st ++ ["Fixed HTML structure and missing tags"])%list eqn:E.
    + apply app_eq_nil in E as [_ E]. discriminate E.
    + rewrite <- E. apply in_or_app. now left.
  - destruct (fixes_made st); [contradiction | exact H].
Qed.

(** C6. Take a run of the tool that reaches the loop over the style tags,
    with style blocks that hold their text as strings, and the i-th style
    block of the document at that point, with text css, O opening and C
    closing braces. The run ends without an exception. If O > C the block of
    the repaired document holds css, a newline and exactly O - C closing
    braces (so as many closing as opening ones), the entry with the number
    O - C is among the fixes the tool reports, and the HTML it returns is the
    serialization of the repaired document. If O <= C the block keeps its
    text. The loop records one entry for each block that was short, in
    document order, and nothing else. *)
Theorem brace_loop_appends_deficit :
  forall (parse : string -> soup) (html_content : string) (before : repair_state)
         (i : nat) (css : string),
    before_brace_loop parse html_content = Ok before ->
    forallb raw_styles (tree before) = true ->
    nth_error (style_strings (tree before)) i = Some (Some css) ->
    exists after : repair_state,
      repair_tree parse html_content = Ok after
      /\ complete_html_structure parse html_content
         = (fst (repair parse html_content),
            "HTML structure checked and fixed: "
            ++ join ", " (snd (repair parse html_content)) ++ ".")
      /\ ((close_braces css < open_braces css)%nat ->
          nth_error (style_strings (tree after)) i
          = Some (Some (css ++ nl
                        ++ repeat_char "}"%char (open_braces css - close_braces css)))
          /\ close_braces (css ++ nl
                           ++ repeat_char "}"%char (open_braces css - close_braces css))
             = open_braces css
          /\ In ("Added " ++ str_nat (open_braces css - close_braces css)
                 ++ " missing CSS closing braces") (snd (repair parse html_content))
          /\ fst (repair parse html_content) = render (tree after))
      /\ ((open_braces css <= close_braces css)%nat ->
          nth_error (style_strings (tree after)) i = Some (Some css))
      /\ fixes_made after = (fixes_made before ++ brace_entries (tree before))%list.
Proof.
  intros parse html_content before i css Hrun Hraw Hi.
  destruct (fix_braces_appends_deficit (tree before) i css Hraw Hi) as [Hshort Hfull].
  exists (brace_step before).
  assert (Htree : repair_tree parse html_content = Ok (brace_step before))
    by (unfold repair_tree; now rewrite Hrun).
  split; [exact Htree|].
  split; [unfold complete_html_structure, repair; now rewrite Htree|].
  unfold repair. rewrite Htree. cbn [fst snd]. unfold brace_step.
  destruct (brace_entries (tree before)) as [|e es] eqn:E.
  - split; [|split; [exact (fun _ => Hi) | now rewrite app_nil_r]].
    intros Hlt. destruct (Hshort Hlt) as [_ [_ Hin]]. contradiction.
  - cbn [tree fixed_html fixes_made].
    split; [|split; [exact Hfull | reflexivity]].
    intros Hlt. destruct (Hshort Hlt) as [Hnth [Hcount Hin]].
    split; [exact Hnth|]. split; [exact Hcount|]. split; [|reflexivity].
    apply in_final_fixes. cbn [fixes_made]. apply in_or_app. now right.
Qed.

(** The theorem on a parsed page whose style block is two braces short. *)
Lemma brace_loop_appends_deficit_witness :
  exists after : repair_state,
    repair_tree HtmlParser.parse HtmlParser.page_without_head = Ok after
    /\ complete_html_structure HtmlParser.parse HtmlParser.page_without_head
       = (fst (repair HtmlParser.parse HtmlParser.page_without_head),
          "HTML structure checked and fixed: "
          ++ join ", " (snd (repair HtmlParser.parse HtmlParser.page_without_head)) ++ ".")
    /\ ((close_braces "a{{" < open_braces "a{{")%nat ->
        nth_error (style_strings (tree after)) 0
        = Some (Some ("a{{" ++ nl
                      ++ repeat_char "}"%char (open_braces "a{{" - close_braces "a{{")))
        /\ close_braces ("a{{" ++ nl
                         ++ repeat_char "}"%char (open_braces "a{{" - close_braces "a{{"))
           = open_braces "a{{"
        /\ In ("Added " ++ str_nat (open_braces "a{{" - close_braces "a{{")
               ++ " missing CSS closing braces")
              (snd (repair HtmlParser.parse HtmlParser.page_without_head))
        /\ fst (repair HtmlParser.parse HtmlParser.page_without_head) = render (tree after))
    /\ ((open_braces "a{{" <= close_braces "a{{")%nat ->
        nth_error (style_strings (tree after)) 0 = Some (Some "a{{"))
    /\ fixes_made after
       = (fixes_made (state_before_braces HtmlParser.parse HtmlParser.page_without_head)
          ++ brace_entries
               (tree (state_before_braces HtmlParser.parse HtmlParser.page_without_head)))%list.
Proof.
  apply (brace_loop_appends_deficit HtmlParser.parse HtmlParser.page_without_head
           (state_before_braces HtmlParser.parse HtmlParser.page_without_head) 0 "a{{");
    vm_compute; reflexivity.
Defined.

End BraceFacts.

(** ** Structural repair: what the tree updates keep *)

Module TreeFacts.
Import PyStr Py Soup BraceFacts.

Section FirstSome.
Context {A : Type} (u : A -> option A).

Lemma first_some_keeps_exists (Q : A -> bool) (l l' : list A) :
  Forall (fun c => forall c', u c = Some c' -> Q c = true -> Q c' = true) l ->
  first_some u l = Some l' -> existsb Q l = true -> existsb Q l' = true.
Proof.
  intros H; revert l'. induction H as [|c l Hc Hl IH]; intros l' Hf Hex; [discriminate|].
  cbn [first_some] in Hf. destruct (u c) as [c'|] eqn:Eu.
  - injection Hf as <-. cbn [existsb] in *.
    apply orb_true_iff in Hex as [Hq | Hq]; apply orb_true_iff; auto.
  - destruct (first_some u l) as [l''|]; [|discriminate].
    injection Hf as <-. cbn [existsb] in *.
    apply orb_true_iff in Hex as [Hq | Hq]; apply orb_true_iff; auto.
Qed.

Lemma first_some_adds_exists (Q : A -> bool) (l l' : list A) :
  Forall (fun c => forall c', u c = Some c' -> Q c' = true) l ->
  first_some u l = Some l' -> existsb Q l' = true.
Proof.
  intros H; revert l'. induction H as [|c l Hc Hl IH]; intros l' Hf; [discriminate|].
  cbn [first_some] in Hf. destruct (u c) as [c'|] eqn:Eu.
  - injection Hf as <-. cbn [existsb]. apply orb_true_iff. left. now apply Hc.
  - destruct (first_some u l) as [l''|]; [|discriminate].
    injection Hf as <-. cbn [existsb]. apply orb_true_iff. right. now apply IH.
Qed.

Lemma first_some_keeps_forall (R : A -> bool) (l l' : list A) :
  Forall (fun c => forall c', u c = Some c' -> R c = true -> R c' = true) l ->
  first_some u l = Some l' -> forallb R l = true -> forallb R l' = true.
Proof.
  intros H; revert l'. induction H as [|c l Hc Hl IH]; intros l' Hf Hall; [discriminate|].
  cbn [first_some] in Hf. cbn [forallb] in Hall.
  apply andb_true_iff in Hall as [Hrc Hrl].
  destruct (u c) as [c'|] eqn:Eu.
  - injection Hf as <-. cbn [forallb]. apply andb_true_iff. split; auto.
  - destruct (first_some u l) as [l''|]; [|discriminate].
    injection Hf as <-. cbn [forallb]. apply andb_true_iff. split; auto.
Qed.

Lemma first_some_succeeds (Q : A -> bool) (l : list A) :
  Forall (fun c => Q c = true -> exists c', u c = Some c') l ->
  existsb Q l = true -> exists l', first_some u l = Some l'.
Proof.
  induction 1 as [|c l Hc Hl IH]; intros Hex; [discriminate|].
  cbn [first_some existsb] in *.
  destruct (u c) as [c'|] eqn:Eu; [eauto|].
  apply orb_true_iff in Hex as [Hq | Hq].
  - destruct (Hc Hq) as [c' Hc']. discriminate.
  - destruct (IH Hq) as [l' ->]. simpl. eauto.
Qed.

Lemma first_some_none (l : list A) :
  Forall (fun c => u c = None) l -> first_some u l = None.
Proof.
  induction 1 as [|c l Hc Hl IH]; [reflexivity|].
  cbn [first_some]. now rewrite Hc, IH.
Qed.

End FirstSome.

Section Update.
Variables (q : string -> attrs_t -> bool) (f : list node -> list node).

(** An update that keeps what satisfies [p] among the children keeps it in
    the tree. *)
Lemma update_first_keeps (p : string -> attrs_t -> bool) :
  (forall cs, existsb (has p) cs = true -> existsb (has p) (f cs) = true) ->
  forall n n', update_first q f n = Some n' -> has p n = true -> has p n' = true.
Proof.
  intros Hf. induction n as [name attrs children IH | | |] using node_induction;
    try discriminate.
  intros n' Hu Hp. cbn [update_first] in Hu. cbn [has] in Hp.
  destruct (q name attrs).
  - injection Hu as <-. cbn [has].
    apply orb_true_iff in Hp as [Hp | Hp]; apply orb_true_iff; auto.
  - destruct (first_some (update_first q f) children) as [cs'|] eqn:E; [|discriminate].
    injection Hu as <-. cbn [has].
    apply orb_true_iff in Hp as [Hp | Hp]; apply orb_true_iff; [now left|right].
    exact (first_some_keeps_exists _ (has p) _ _ IH E Hp).
Qed.

Lemma update_first_in_keeps (p : string -> attrs_t -> bool) (s s' : soup) :
  (forall cs, existsb (has p) cs = true -> existsb (has p) (f cs) = true) ->
  update_first_in q f s = Some s' -> has_in p s = true -> has_in p s' = true.
Proof.
  intros Hf. unfold update_first_in, has_in.
  apply first_some_keeps_exists.
  apply Forall_forall. intros n _. now apply update_first_keeps.
Qed.

(** An update that puts something satisfying [p] among the children puts it
    in the tree. *)
Lemma update_first_adds (p : string -> attrs_t -> bool) :
  (forall cs, existsb (has p) (f cs) = true) ->
  forall n n', update_first q f n = Some n' -> has p n' = true.
Proof.
  intros Hf. induction n as [name attrs children IH | | |] using node_induction;
    try discriminate.
  intros n' Hu. cbn [update_first] in Hu.
  destruct (q name attrs).
  - injection Hu as <-. cbn [has]. apply orb_true_iff. right. apply Hf.
  - destruct (first_some (update_first q f) children) as [cs'|] eqn:E; [|discriminate].
    injection Hu as <-. cbn [has]. apply orb_true_iff. right.
    exact (first_some_adds_exists _ (has p) _ _ IH E).
Qed.

Lemma update_first_in_adds (p : string -> attrs_t -> bool) (s s' : soup) :
  (forall cs, existsb (has p) (f cs) = true) ->
  update_first_in q f s = Some s' -> has_in p s' = true.
Proof.
  intros Hf. unfold update_first_in, has_in.
  apply first_some_adds_exists.
  apply Forall_forall. intros n _. now apply update_first_adds.
Qed.

(** The update finds its tag whenever the search does. *)
Lemma update_first_succeeds (n : node) :
  has q n = true -> exists n', update_first q f n = Some n'.
Proof.
  induction n as [name attrs children IH | | |] using node_induction;
    try discriminate.
  intros Hq. cbn [update_first]. cbn [has] in Hq.
  destruct (q name attrs); [eauto|]. cbn [orb] in Hq.
  destruct (first_some_succeeds _ (has q) _ IH Hq) as [cs' ->]. simpl. eauto.
Qed.

Lemma update_first_in_succeeds (s : soup) :
  has_in q s = true -> exists s', update_first_in q f s = Some s'.
Proof.
  unfold update_first_in, has_in. apply first_some_succeeds.
  apply Forall_forall. intros n _. apply update_first_succeeds.
Qed.

Lemma update_first_text (n : node) : is_text n = true -> update_first q f n = None.
Proof. destruct n; try discriminate. reflexivity. Qed.

(** Updating a tag that is no style tag keeps style blocks text-only. *)
Lemma update_first_keeps_raw :
  (forall name attrs, q name attrs = true -> String.eqb name "style" = false) ->
  (forall cs, forallb raw_styles cs = true -> forallb raw_styles (f cs) = true) ->
  forall n n', update_first q f n = Some n' -> raw_styles n = true -> raw_styles n' = true.
Proof.
  intros Hq Hf. induction n as [name attrs children IH | | |] using node_induction;
    try discriminate.
  intros n' Hu Hraw. cbn [update_first] in Hu. cbn [raw_styles] in Hraw.
  apply andb_true_iff in Hraw as [Hstyle Hchildren].
  destruct (q name attrs) eqn:Eq.
  - injection Hu as <-. cbn [raw_styles]. rewrite (Hq _ _ Eq). cbn [andb]. now apply Hf.
  - destruct (first_some (update_first q f) children) as [cs'|] eqn:E; [|discriminate].
    injection Hu as <-. cbn [raw_styles].
    destruct (String.eqb name "style") eqn:Ename.
    + exfalso. rewrite first_some_none in E; [discriminate|].
      clear - Hstyle. induction children as [|c cs IHc]; constructor.
      * cbn [forallb] in Hstyle. apply andb_true_iff in Hstyle as [Hc _].
        now apply update_first_text.
      * cbn [forallb] in Hstyle. apply andb_true_iff in Hstyle as [_ Hcs]. now apply IHc.
    + cbn [andb]. exact (first_some_keeps_forall _ raw_styles _ _ IH E Hchildren).
Qed.

Lemma update_first_in_keeps_raw (s s' : soup) :
  (forall name attrs, q name attrs = true -> String.eqb name "style" = false) ->
  (forall cs, forallb raw_styles cs = true -> forallb raw_styles (f cs) = true) ->
  update_first_in q f s = Some s' ->
  forallb raw_styles s = true -> forallb raw_styles s' = true.
Proof.
  intros Hq Hf. unfold update_first_in.
  apply first_some_keeps_forall.
  apply Forall_forall. intros n _. now apply update_first_keeps_raw.
Qed.

End Update.

(** *** The brace loop touches the text of style blocks only *)

Lemma texts_have_nothing (p : string -> attrs_t -> bool) (l : list node) :
  forallb is_text l = true -> existsb (has p) l = false.
Proof.
  induction l as [|c l IH]; [reflexivity|].
  cbn [forallb existsb]. intros H. apply andb_true_iff in H as [Hc Hl].
  rewrite (IH Hl). destruct c; try discriminate. reflexivity.
Qed.

Lemma existsb_map_forall {A : Type} (Q : A -> bool) (g : A -> A) (l : list A) :
  Forall (fun c => Q (g c) = Q c) l -> existsb Q (map g l) = existsb Q l.
Proof.
  induction 1 as [|c l Hc Hl IH]; [reflexivity|].
  cbn [map existsb]. now rewrite Hc, IH.
Qed.

Lemma has_fix_braces (p : string -> attrs_t -> bool) (n : node) :
  raw_styles n = true -> has p (fix_braces n) = has p n.
Proof.
  induction n as [name attrs children IH | | |] using node_induction;
    try reflexivity.
  intros Hraw. cbn [raw_styles] in Hraw.
  apply andb_true_iff in Hraw as [Hstyle Hchildren].
  cbn [fix_braces].
  destruct (String.eqb name "style" && (0 <? missing_braces (Tag name attrs children))%nat)
    eqn:E.
  - apply andb_true_iff in E as [Ename _]. rewrite Ename in Hstyle.
    destruct (string_of (Tag name attrs children)); [|reflexivity].
    cbn [has existsb]. now rewrite (texts_have_nothing p _ Hstyle).
  - cbn [has]. f_equal. apply existsb_map_forall.
    apply (forallb_Forall_impl raw_styles); [|exact Hchildren].
    eapply Forall_impl; [|exact IH]. auto.
Qed.

Lemma has_in_fix_braces (p : string -> attrs_t -> bool) (s : soup) :
  forallb raw_styles s = true -> has_in p (map fix_braces s) = has_in p s.
Proof.
  intros H. unfold has_in. apply existsb_map_forall.
  apply (forallb_Forall_impl raw_styles); [|exact H].
  apply Forall_forall. intros n _. apply has_fix_braces.
Qed.

(** After the loop no style block lacks a brace. *)
Lemma missing_braces_fixed (attrs : attrs_t) (children : list node) :
  forallb is_text children = true ->
  missing_braces (fix_braces (Tag "style" attrs children)) = 0%nat.
Proof.
  intros Hraw.
  destruct (string_of (Tag "style" attrs children)) as [css|] eqn:Es.
  - rewrite (missing_braces_string _ _ (string_of_fixed_style attrs children css Hraw Es)).
    destruct (close_braces css <? open_braces css)%nat eqn:E.
    + apply Nat.ltb_lt in E.
      destruct (balanced_css_counts css) as [Ho Hc]; [lia|]. lia.
    + apply Nat.ltb_ge in E. lia.
  - assert (Hm : missing_braces (Tag "style" attrs children) = 0%nat)
      by (unfold missing_braces; now rewrite Es).
    cbn [fix_braces]. rewrite Hm.
    change (String.eqb "style" "style" && (0 <? 0)%nat) with false. cbv iota.
    now rewrite (texts_unchanged _ Hraw).
Qed.

Lemma brace_entries_fixed (s : soup) :
  forallb raw_styles s = true -> brace_entries (map fix_braces s) = [].
Proof.
  intros Hraw. unfold brace_entries.
  rewrite (style_tags_fix_braces_all _ Hraw).
  pose proof (style_tags_are_raw_all _ Hraw) as Hall.
  induction Hall as [|t l [attrs [children [-> Htext]]] Hl IH]; [reflexivity|].
  cbn [map filter]. rewrite (missing_braces_fixed attrs children Htext).
  cbn [Nat.ltb Nat.leb]. exact IH.
Qed.

End TreeFacts.

(** ** Structural repair: the serialized text after the brace loop *)

Module RenderTextFacts.
Import PyStr Py Soup BraceFacts TreeFacts.

Section Padding.
Variable J : ascii -> bool.

Lemma padded_refl (s : string) : padded J s s.
Proof. induction s; constructor; assumption. Qed.

Lemma padded_app (a a' b b' : string) :
  padded J a a' -> padded J b b' -> padded J (a ++ b) (a' ++ b').
Proof.
  intros Ha Hb. induction Ha; simpl; [assumption | | ]; constructor; assumption.
Qed.

Lemma padded_tail (t : string) : all_chars J t = true -> padded J EmptyString t.
Proof.
  induction t as [|c t IH]; intros H; [constructor|].
  simpl in H. apply andb_true_iff in H as [Hc Ht].
  apply padded_put; auto.
Qed.

Lemma padded_append_tail (s t : string) : all_chars J t = true -> padded J s (s ++ t).
Proof.
  intros H. rewrite <- (PyStrFacts.append_empty_r s) at 1.
  apply padded_app; [apply padded_refl | now apply padded_tail].
Qed.

(** A pattern without padding characters that starts the padded text starts
    the original one. *)
Lemma starts_with_padded (s t : string) :
  padded J s t ->
  forall p, all_chars (fun c => negb (J c)) p = true ->
            starts_with p t = true -> starts_with p s = true.
Proof.
  induction 1 as [|c s t Hst IH | c s t Hc Hst IH]; intros p Hp Hs.
  - exact Hs.
  - destruct p as [|a p]; [reflexivity|].
    simpl in *. apply andb_true_iff in Hp as [_ Hp].
    apply andb_true_iff in Hs as [Hac Hs].
    rewrite Hac. simpl. now apply IH.
  - destruct p as [|a p]; [now destruct s|].
    simpl in Hp, Hs. apply andb_true_iff in Hp as [Ha _].
    apply andb_true_iff in Hs as [Hac _].
    apply Ascii.eqb_eq in Hac; subst a. rewrite Hc in Ha. discriminate.
Qed.

Lemma contains_cons (p : string) (c : ascii) (s : string) :
  contains p (String c s) = starts_with p (String c s) || contains p s.
Proof.
  unfold contains. cbn [find].
  destruct (starts_with p (String c s)); [reflexivity|].
  now destruct (find p s).
Qed.

Lemma contains_starts (p s : string) : starts_with p s = true -> contains p s = true.
Proof. intros H. unfold contains. destruct s; cbn [find]; now rewrite H. Qed.

(** ... and one that occurs in the padded text occurs in the original. *)
Lemma contains_padded (s t p : string) :
  padded J s t -> all_chars (fun c => negb (J c)) p = true ->
  contains p t = true -> contains p s = true.
Proof.
  intros Hst Hp. induction Hst as [|c s t Hst IH | c s t Hc Hst IH]; intros H.
  - exact H.
  - rewrite contains_cons in *. apply orb_true_iff in H as [H | H]; apply orb_true_iff.
    + left. apply (starts_with_padded _ _ (padded_keep J c s t Hst) p Hp H).
    + right. now apply IH.
  - rewrite contains_cons in H. apply orb_true_iff in H as [H | H]; [|now apply IH].
    apply contains_starts.
    apply (starts_with_padded _ _ (padded_put J c s t Hc Hst) p Hp H).
Qed.

Lemma padded_concat_map {A : Type} (g : A -> string) (h : A -> A) (l : list A) :
  Forall (fun c => padded J (g c) (g (h c))) l ->
  padded J (concat_all (map g l)) (concat_all (map g (map h l))).
Proof.
  induction 1 as [|c l Hc Hl IH]; [constructor|].
  cbn [map concat_all]. now apply padded_app.
Qed.

End Padding.

Ltac peel_padded :=
  repeat first [ apply padded_refl
               | apply padded_keep
               | (apply padded_app; [apply padded_refl|]) ].

(** The brace loop only puts newlines and closing braces into the text the
    serializer writes. *)
Lemma render_node_padded (n : node) :
  raw_styles n = true ->
  forall raw, padded is_brace_padding (render_node raw n) (render_node raw (fix_braces n)).
Proof.
  induction n as [name attrs children IH | | |] using node_induction;
    try (intros _ raw; apply padded_refl).
  intros Hraw raw. cbn [raw_styles] in Hraw.
  apply andb_true_iff in Hraw as [Hstyle Hchildren].
  cbn [fix_braces].
  destruct (String.eqb name "style" && (0 <? missing_braces (Tag name attrs children))%nat)
    eqn:E.
  - apply andb_true_iff in E as [Ename _]. rewrite Ename in Hstyle.
    destruct (string_of (Tag name attrs children)) as [css|] eqn:Es; [|apply padded_refl].
    destruct children as [|c [|c2 cs]]; try discriminate Es.
    destruct c as [| text | |]; try discriminate Hstyle.
    cbn [string_of] in Es. injection Es as <-.
    apply String.eqb_eq in Ename; subst name.
    cbn [render_node map concat_all]. change (is_raw "style") with true. cbv iota.
    rewrite !PyStrFacts.append_empty_r.
    cbn [append]. peel_padded.
    apply padded_app; [|apply padded_refl].
    unfold balanced_css. apply padded_append_tail.
    cbn [append all_chars nl]. apply andb_true_iff. split; [reflexivity|].
    generalize (open_braces text - close_braces text)%nat as k.
    induction k as [|k IHk]; [reflexivity|]. cbn [repeat_char all_chars]. now rewrite IHk.
  - assert (Hall : Forall (fun c => padded is_brace_padding
                                      (render_node (is_raw name) c)
                                      (render_node (is_raw name) (fix_braces c))) children).
    { apply (forallb_Forall_impl raw_styles); [|exact Hchildren].
      eapply Forall_impl; [|exact IH]. intros c Hc Hr. now apply Hc. }
    destruct children as [|c cs]; [apply padded_refl|].
    cbn [render_node map].
    cbn [append]. peel_padded.
    apply padded_app; [|apply padded_refl].
    exact (padded_concat_map is_brace_padding _ _ _ Hall).
Qed.

Lemma render_padded (s : soup) :
  forallb raw_styles s = true ->
  padded is_brace_padding (render s) (render (map fix_braces s)).
Proof.
  intros H. unfold render. apply padded_concat_map.
  apply (forallb_Forall_impl raw_styles); [|exact H].
  apply Forall_forall. intros n _ Hn. now apply render_node_padded.
Qed.

(** An icon class in the text after the loop was in the text before it. *)
Lemma icon_class_not_introduced (s : soup) :
  forallb raw_styles s = true ->
  contains "fa-" (render (map fix_braces s)) = true -> contains "fa-" (render s) = true.
Proof.
  intros Hraw. apply (contains_padded is_brace_padding); [now apply render_padded|].
  reflexivity.
Qed.

End RenderTextFacts.

(** ** Structural repair: a second run *)

Module RepairFacts.
Import PyStr Py Soup HtmlParser BraceFacts TreeFacts RenderTextFacts.

Lemma named_not_style (tag : string) :
  String.eqb tag "style" = false ->
  forall name (attrs : attrs_t), named tag name attrs = true -> String.eqb name "style" = false.
Proof.
  intros Ht name attrs H. unfold named in H. apply String.eqb_eq in H. now subst name.
Qed.

Lemma cons_keeps (p : string -> attrs_t -> bool) (c : node) (cs : list node) :
  existsb (has p) cs = true -> existsb (has p) (c :: cs) = true.
Proof. intros H. cbn [existsb]. rewrite H. apply orb_true_r. Qed.

Lemma snoc_keeps (p : string -> attrs_t -> bool) (c : node) (cs : list node) :
  existsb (has p) cs = true -> existsb (has p) (cs ++ [c]) = true.
Proof. intros H. rewrite existsb_app, H. reflexivity. Qed.

Lemma snoc_adds (p : string -> attrs_t -> bool) (c : node) (cs : list node) :
  has p c = true -> existsb (has p) (cs ++ [c]) = true.
Proof. intros H. rewrite existsb_app. cbn [existsb]. rewrite H. now rewrite !orb_true_r. Qed.

(** Moving the children of html into the new body loses none of them. *)
Lemma move_into_body_keeps (p : string -> attrs_t -> bool) (cs : list node) :
  existsb (has p) cs = true -> existsb (has p) (move_into_body cs) = true.
Proof.
  intros H. apply existsb_exists in H as [c [Hin Hc]].
  unfold move_into_body. rewrite existsb_app. apply orb_true_iff.
  destruct (is_head c) eqn:E.
  - left. apply existsb_exists. exists c. split; [|exact Hc].
    apply filter_In. auto.
  - right. cbn [existsb has]. rewrite orb_false_r. apply orb_true_iff. right.
    apply existsb_exists. exists c. split; [|exact Hc].
    apply filter_In. split; [exact Hin|]. now rewrite E.
Qed.

Lemma move_into_body_adds (cs : list node) :
  existsb (has (named "body")) (move_into_body cs) = true.
Proof. unfold move_into_body. now apply snoc_adds. Qed.

Lemma forallb_filter {A : Type} (R g : A -> bool) (l : list A) :
  forallb R l = true -> forallb R (filter g l) = true.
Proof.
  induction l as [|c l IH]; [reflexivity|].
  cbn [forallb filter]. intros H. apply andb_true_iff in H as [Hc Hl].
  destruct (g c); cbn [forallb]; rewrite ?Hc; auto.
Qed.

Lemma move_into_body_raw (cs : list node) :
  forallb raw_styles cs = true -> forallb raw_styles (move_into_body cs) = true.
Proof.
  intros H. unfold move_into_body. rewrite forallb_app.
  rewrite (forallb_filter _ _ _ H). cbn [forallb raw_styles andb].
  change (String.eqb "body" "style") with false. cbv iota.
  now rewrite (forallb_filter _ _ _ H).
Qed.

Lemma snoc_raw (c : node) (cs : list node) :
  raw_styles c = true -> forallb raw_styles cs = true -> forallb raw_styles (cs ++ [c]) = true.
Proof. intros Hc H. rewrite forallb_app, H. cbn [forallb]. now rewrite Hc. Qed.

(** The branch for a document with an html element always succeeds and
    leaves the three wrapper tags in the tree. *)
Lemma ensure_head_body_ok (s : soup) :
  has_tag "html" s = true -> forallb raw_styles s = true ->
  exists s' fixes,
    ensure_head_body s = Some (s', fixes)
    /\ has_tag "html" s' = true /\ has_tag "head" s' = true /\ has_tag "body" s' = true
    /\ forallb raw_styles s' = true
    /\ (forall p, has_in p s = true -> has_in p s' = true).
Proof.
  intros Hhtml Hraw. unfold ensure_head_body.
  assert (H1 : exists s1 fixes1,
             (if has_tag "head" s then (Some s, [])
              else (prepend_to "html" head_tag s, ["Added head tag"])) = (Some s1, fixes1)
             /\ has_tag "html" s1 = true /\ has_tag "head" s1 = true
             /\ forallb raw_styles s1 = true
             /\ (forall p, has_in p s = true -> has_in p s1 = true)).
  { destruct (has_tag "head" s) eqn:Ehead.
    - exists s, []. auto 6.
    - destruct (update_first_in_succeeds (named "html") (fun cs => head_tag :: cs) s Hhtml)
        as [s1 Hs1].
      exists s1, ["Added head tag"]. unfold prepend_to. rewrite Hs1.
      split; [reflexivity|].
      assert (Hkeep : forall p, has_in p s = true -> has_in p s1 = true).
      { intros p. apply (update_first_in_keeps (named "html") (fun cs => head_tag :: cs) p s s1);
          [|exact Hs1].
        intros cs. apply cons_keeps. }
      split; [now apply Hkeep|]. split; [|split; [|exact Hkeep]].
      + apply (update_first_in_adds (named "html") (fun cs => head_tag :: cs)
                 (named "head") s s1); [|exact Hs1].
        intros cs. reflexivity.
      + apply (update_first_in_keeps_raw (named "html") (fun cs => head_tag :: cs) s s1);
          [| |exact Hs1|exact Hraw].
        * now apply named_not_style.
        * intros cs Hcs. cbn [forallb]. now rewrite Hcs. }
  destruct H1 as [s1 [fixes1 [-> [Hh1 [Hd1 [Hr1 Hk1]]]]]].
  destruct (has_tag "body" s1) eqn:Ebody.
  - exists s1, fixes1. auto 8.
  - destruct (update_first_in_succeeds (named "html") move_into_body s1 Hh1) as [s2 Hs2].
    rewrite Hs2. exists s2, (fixes1 ++ ["Added body tag"])%list.
    assert (Hkeep : forall p, has_in p s1 = true -> has_in p s2 = true).
    { intros p. apply (update_first_in_keeps (named "html") move_into_body p s1 s2);
        [|exact Hs2].
      apply move_into_body_keeps. }
    split; [reflexivity|].
    split; [now apply Hkeep|]. split; [now apply Hkeep|].
    split; [|split; [|now auto]].
    + apply (update_first_in_adds (named "html") move_into_body (named "body") s1 s2);
        [|exact Hs2].
      apply move_into_body_adds.
    + apply (update_first_in_keeps_raw (named "html") move_into_body s1 s2);
        [| |exact Hs2|exact Hr1].
      * now apply named_not_style.
      * apply move_into_body_raw.
Qed.

Section Runs.
Variable parse : string -> soup.

Lemma structure_step_ok (s : soup) :
  has_tag "html" s = true -> forallb raw_styles s = true ->
  exists st, structure_step parse s = Ok st /\ wrapped st.
Proof.
  intros Hhtml Hraw. unfold structure_step. rewrite Hhtml.
  destruct (ensure_head_body_ok s Hhtml Hraw) as [s' [fixes [-> [H1 [H2 [H3 [H4 _]]]]]]].
  eexists. split; [reflexivity|]. repeat split; assumption.
Qed.

Lemma append_to_head_ok (child : node) (st : repair_state) :
  wrapped st -> raw_styles child = true ->
  exists s', append_to "head" child (tree st) = Some s'
             /\ wrapped {| tree := s'; fixed_html := render s'; fixes_made := fixes_made st |}
             /\ (forall p, has_in p (tree st) = true -> has_in p s' = true)
             /\ (forall p, has p child = true -> has_in p s' = true).
Proof.
  intros [Hh [Hd [Hb [Hr Hf]]]] Hc.
  destruct (update_first_in_succeeds (named "head") (fun cs => (cs ++ [child])%list)
              (tree st) Hd) as [s' Hs'].
  exists s'. unfold append_to.
  assert (Hkeep : forall p, has_in p (tree st) = true -> has_in p s' = true).
  { intros p.
    apply (update_first_in_keeps (named "head") (fun cs => (cs ++ [child])%list) p
             (tree st) s');
      [|exact Hs'].
    intros cs. apply snoc_keeps. }
  split; [exact Hs'|]. split; [|split; [exact Hkeep|]].
  - unfold wrapped; cbn [tree fixed_html]. repeat split; try (now apply Hkeep).
    apply (update_first_in_keeps_raw (named "head") (fun cs => (cs ++ [child])%list)
             (tree st) s');
      [| |exact Hs'|exact Hr].
    + now apply named_not_style.
    + intros cs Hcs. now apply snoc_raw.
  - intros p Hp.
    apply (update_first_in_adds (named "head") (fun cs => (cs ++ [child])%list) p
             (tree st) s');
      [|exact Hs'].
    intros cs. now apply snoc_adds.
Qed.

Lemma css_step_ok (st : repair_state) :
  wrapped st ->
  exists st', css_step st = Ok st' /\ wrapped st' /\ styled (tree st') = true.
Proof.
  intros Hw. unfold css_step. fold (styled (tree st)).
  destruct (styled (tree st)) eqn:Es; [exists st; auto|].
  destruct (append_to_head_ok style_tag st Hw eq_refl) as [s' [-> [Hw' [_ Hadd]]]].
  eexists. split; [reflexivity|]. split.
  - destruct Hw' as [A [B [C [D E]]]]. repeat split; assumption.
  - cbn [tree]. unfold styled, has_tag. rewrite (Hadd (named "style") eq_refl). reflexivity.
Qed.

Lemma font_awesome_step_ok (st : repair_state) :
  wrapped st -> styled (tree st) = true ->
  exists st', font_awesome_step st = Ok st' /\ wrapped st'
              /\ styled (tree st') = true /\ icons_linked (tree st') = true.
Proof.
  intros Hw Hs. unfold font_awesome_step.
  destruct (contains "fa-" (fixed_html st) && negb (has_in is_font_awesome_link (tree st)))
    eqn:E.
  - destruct (append_to_head_ok fa_link st Hw eq_refl) as [s' [-> [Hw' [Hkeep Hadd]]]].
    eexists. split; [reflexivity|]. split; [|split].
    + destruct Hw' as [A [B [C [D F]]]]. repeat split; assumption.
    + cbn [tree]. unfold styled, has_tag in *.
      apply orb_true_iff in Hs as [Hs | Hs]; apply orb_true_iff; auto.
    + cbn [tree]. unfold icons_linked.
      rewrite (Hadd is_font_awesome_link eq_refl). apply orb_true_r.
  - exists st. split; [reflexivity|]. split; [exact Hw|]. split; [exact Hs|].
    destruct Hw as [_ [_ [_ [_ Hf]]]]. unfold icons_linked. rewrite <- Hf.
    destruct (contains "fa-" (fixed_html st)); [|reflexivity].
    cbn [andb negb orb] in *. now apply negb_false_iff in E.
Qed.

Lemma brace_step_ok (st : repair_state) :
  wrapped st -> styled (tree st) = true -> icons_linked (tree st) = true ->
  complete (tree (brace_step st)) = true
  /\ fixed_html (brace_step st) = render (tree (brace_step st)).
Proof.
  intros [Hh [Hd [Hb [Hr Hf]]]] Hs Hi. unfold brace_step.
  destruct (brace_entries (tree st)) as [|e es] eqn:E.
  - split; [|exact Hf]. unfold complete. now rewrite Hh, Hd, Hb, Hs, Hi, E.
  - cbn [tree fixed_html]. split; [|reflexivity].
    unfold complete, styled, icons_linked, has_tag in *.
    rewrite !(has_in_fix_braces _ _ Hr), Hh, Hd, Hb, Hs, (brace_entries_fixed _ Hr).
    cbn [andb]. rewrite andb_true_r.
    apply orb_true_iff in Hi as [Hi | Hi]; apply orb_true_iff; [left | now right].
    apply negb_true_iff in Hi. apply negb_true_iff.
    destruct (contains "fa-" (render (map fix_braces (tree st)))) eqn:Ec; [|reflexivity].
    rewrite (icon_class_not_introduced _ Hr Ec) in Hi. discriminate.
Qed.

(** A run on a document with an html element raises nothing and ends with a
    complete tree, whose serialization is the HTML it returns. *)
Lemma first_run_complete (html_content : string) :
  has_tag "html" (parse html_content) = true ->
  forallb raw_styles (parse html_content) = true ->
  exists st, repair_tree parse html_content = Ok st
             /\ complete (tree st) = true /\ fixed_html st = render (tree st).
Proof.
  intros Hhtml Hraw. unfold repair_tree, before_brace_loop.
  destruct (structure_step_ok _ Hhtml Hraw) as [st1 [-> Hw1]]. cbn [bind].
  destruct (css_step_ok st1 Hw1) as [st2 [-> [Hw2 Hs2]]]. cbn [bind].
  destruct (font_awesome_step_ok st2 Hw2 Hs2) as [st3 [-> [Hw3 [Hs3 Hi3]]]]. cbn [bind].
  exists (brace_step st3). split; [reflexivity|].
  now apply brace_step_ok.
Qed.






End Runs.




End RepairFacts.

(** ** Post-generation normalisation and the final artifact *)

Module NormaliseFacts.
Import PyStr Py App Spec PyStrFacts ExtractFacts RenderTextFacts.

Lemma replace_from_skip (p r : string) (k : nat) (s : string) :
  replace_from p r k s = replace_from p r 0 (drop k s).
Proof.
  revert k; induction s as [|c s IH]; intros [|k]; try reflexivity.
  cbn [replace_from drop]. apply IH.
Qed.

(** At an occurrence of the pattern the replacement is written and the scan
    resumes behind the occurrence. *)
Lemma replace_from_match (c0 : ascii) (p' r s : string) :
  starts_with (String c0 p') s = true ->
  replace_from (String c0 p') r 0 s
  = r ++ replace_from (String c0 p') r 0 (drop (String.length (String c0 p')) s).
Proof.
  intros H. destruct s as [|c s]; [discriminate|].
  cbn [replace_from]. rewrite H. f_equal.
  rewrite replace_from_skip. simpl String.length. simpl drop.
  rewrite ?Nat.sub_0_r. reflexivity.
Qed.

Lemma replace_from_no_match (p r : string) (c : ascii) (s : string) :
  starts_with p (String c s) = false ->
  replace_from p r 0 (String c s) = String c (replace_from p r 0 s).
Proof. intros H. cbn [replace_from]. now rewrite H. Qed.

(** Text without the first character of the pattern passes unchanged. *)
Lemma replace_from_through (c0 : ascii) (p' r y b : string) :
  mem_char c0 y = false ->
  replace_from (String c0 p') r 0 (y ++ b) = y ++ replace_from (String c0 p') r 0 b.
Proof.
  induction y as [|a y IH]; intros H; [reflexivity|].
  simpl in H. apply orb_false_iff in H as [Ha Hy].
  change ((String a y) ++ b) with (String a (y ++ b)).
  rewrite replace_from_no_match.
  - simpl. now rewrite IH.
  - cbn [starts_with]. now rewrite Ascii.eqb_sym, Ha.
Qed.

Lemma replace_absent (c0 : ascii) (p' r s : string) :
  contains (String c0 p') s = false -> replace (String c0 p') r s = s.
Proof.
  unfold replace. induction s as [|c s IH]; intros H; [reflexivity|].
  rewrite contains_cons in H. apply orb_false_iff in H as [Hs Hc].
  rewrite (replace_from_no_match _ _ _ _ Hs). now rewrite IH.
Qed.

Lemma contains_append_r (x a b : string) :
  contains x b = true -> contains x (a ++ b) = true.
Proof.
  intros H. induction a as [|c a IH]; [exact H|].
  change ((String c a) ++ b) with (String c (a ++ b)).
  rewrite contains_cons, IH. apply orb_true_r.
Qed.

Lemma starts_with_append_l (x a b : string) :
  starts_with x a = true -> starts_with x (a ++ b) = true.
Proof.
  revert a; induction x as [|c x IH]; intros a H; [reflexivity|].
  destruct a as [|d a]; [discriminate|].
  simpl in *. apply andb_true_iff in H as [Hc Hx]. rewrite Hc. simpl. now apply IH.
Qed.

Lemma contains_append_l (x a b : string) :
  contains x a = true -> contains x (a ++ b) = true.
Proof.
  induction a as [|c a IH]; intros H.
  - unfold contains in H. cbn [find] in H.
    destruct (starts_with x EmptyString) eqn:E; [|discriminate].
    destruct x; [|discriminate]. destruct b; reflexivity.
  - change ((String c a) ++ b) with (String c (a ++ b)).
    rewrite contains_cons in *. apply orb_true_iff in H as [H | H]; apply orb_true_iff.
    + left. apply (starts_with_append_l x (String c a) b H).
    + right. now apply IH.
Qed.

(** No occurrence of a pattern begins inside text that lacks the first
    character of the pattern. *)
Lemma contains_skip_prefix (c0 : ascii) (x' a b : string) :
  mem_char c0 a = false ->
  contains (String c0 x') (a ++ b) = contains (String c0 x') b.
Proof.
  induction a as [|c a IH]; intros H; [reflexivity|].
  simpl in H. apply orb_false_iff in H as [Hc Ha].
  change ((String c a) ++ b) with (String c (a ++ b)).
  rewrite contains_cons, (IH Ha). cbn [starts_with].
  now rewrite Ascii.eqb_sym, Hc.
Qed.

Lemma lower_char_lt (c : ascii) :
  Ascii.eqb (lower_char c) "<"%char = Ascii.eqb c "<"%char.
Proof. destruct c as [[] [] [] [] [] [] [] []]; vm_compute; reflexivity. Qed.

Lemma mem_lt_lower (s : string) : mem_char "<"%char (lower s) = mem_char "<"%char s.
Proof.
  unfold lower. induction s as [|c s IH]; [reflexivity|].
  simpl. now rewrite lower_char_lt, IH.
Qed.

(** A lower-case pattern at the head of the lowered text: the text splits
    into the characters that match it and the rest. *)
Lemma starts_with_lower_split (x s : string) :
  starts_with x (lower s) = true ->
  exists y b, s = y ++ b /\ lower y = x.
Proof.
  revert s; induction x as [|c x IH]; intros s H.
  - exists EmptyString, s. auto.
  - destruct s as [|d s]; [discriminate|].
    unfold lower in H. simpl in H. apply andb_true_iff in H as [Hc Hx].
    apply Ascii.eqb_eq in Hc.
    destruct (IH s Hx) as [y [b [-> Hy]]].
    exists (String d y), b. split; [reflexivity|].
    unfold lower in *. simpl. now rewrite Hy, <- Hc.
Qed.

Section Keeps.
(** The pattern replaced and the tag looked for both begin with the opening
    angle bracket, which occurs nowhere else in them. *)
Variables (p' r x' : string).
Hypothesis Hp : mem_char "<"%char p' = false.
Hypothesis Hx : mem_char "<"%char x' = false.
Hypothesis Hclash :
  starts_with (String "<"%char x') (lower r) = true
  \/ forall t, starts_with (String "<"%char x') (lower (String "<"%char p') ++ t) = false.

Let p := String "<"%char p'.
Let x := String "<"%char x'.

Lemma replace_keeps_tag_bounded (n : nat) :
  forall s, (String.length s <= n)%nat ->
    contains x (lower s) = true ->
    contains x (lower (replace_from p r 0 s)) = true.
Proof.
  induction n as [|n IH]; intros s Hn H.
  - destruct s; [discriminate H | simpl in Hn; lia].
  - destruct s as [|c s]; [discriminate H|].
    destruct (starts_with p (String c s)) eqn:Ep.
    + unfold p in *. rewrite (replace_from_match _ _ _ _ Ep).
      pose proof (starts_with_split _ _ Ep) as Hsplit.
      set (rest := drop (String.length (String "<"%char p')) (String c s)) in *.
      rewrite Hsplit in H. rewrite lower_append in *.
      change (lower (String "<"%char p')) with (String "<"%char (lower p')) in H.
      change (String "<"%char (lower p') ++ lower rest)
        with (String "<"%char (lower p' ++ lower rest)) in H.
      rewrite contains_cons in H. apply orb_true_iff in H as [H | H].
      * destruct Hclash as [Hr | Hno].
        -- apply contains_append_l. now apply contains_starts.
        -- exfalso. specialize (Hno (lower rest)).
           change (lower (String "<"%char p') ++ lower rest)
             with (String "<"%char (lower p' ++ lower rest)) in Hno.
           unfold x in H. congruence.
      * apply contains_append_r. apply IH.
        -- assert (String.length (String c s)
                   = String.length (String "<"%char p') + String.length rest)%nat as Hl
             by (rewrite Hsplit at 1; apply length_append).
           simpl in Hl, Hn. lia.
        -- unfold x in *. rewrite contains_skip_prefix in H; [exact H|].
           now rewrite mem_lt_lower.
    + rewrite (replace_from_no_match _ _ _ _ Ep).
      change (lower (String c s)) with (String (lower_char c) (lower s)) in H.
      change (lower (String c (replace_from p r 0 s)))
        with (String (lower_char c) (lower (replace_from p r 0 s))).
      rewrite contains_cons in *. apply orb_true_iff in H as [H | H]; apply orb_true_iff.
      * left. unfold x in *. cbn [starts_with] in *.
        apply andb_true_iff in H as [Hc Hrest]. rewrite Hc. cbn [andb].
        destruct (starts_with_lower_split _ _ Hrest) as [y [b [-> Hy]]].
        unfold p. rewrite replace_from_through.
        -- rewrite lower_append, Hy. apply starts_with_append.
        -- now rewrite <- mem_lt_lower, Hy.
      * right. apply IH; [simpl in Hn; lia | exact H].
Qed.

(** Replacing the pattern keeps the tag. *)
Lemma replace_keeps_tag (s : string) :
  icontains x s = true -> icontains x (replace p r s) = true.
Proof.
  unfold icontains. intros H. unfold p, replace.
  now apply (replace_keeps_tag_bounded (String.length s)).
Qed.

End Keeps.

(** Where the pattern occurs, the replacement is in the result. *)
Lemma replace_inserts_bounded (c0 : ascii) (p' r : string) (n : nat) :
  forall s, (String.length s <= n)%nat ->
    contains (String c0 p') s = true ->
    exists a b, replace_from (String c0 p') r 0 s = a ++ r ++ b.
Proof.
  induction n as [|n IH]; intros s Hn H.
  - destruct s; [discriminate H | simpl in Hn; lia].
  - destruct s as [|c s]; [discriminate H|].
    destruct (starts_with (String c0 p') (String c s)) eqn:Ep.
    + rewrite (replace_from_match _ _ _ _ Ep). exists EmptyString. eexists. reflexivity.
    + rewrite (replace_from_no_match _ _ _ _ Ep).
      rewrite contains_cons, Ep in H. cbn [orb] in H.
      destruct (IH s) as [a [b Hab]]; [simpl in Hn; lia | exact H |].
      exists (String c a), b. now rewrite Hab.
Qed.

Lemma replace_inserts_tag (c0 : ascii) (p' r x s : string) :
  contains (String c0 p') s = true -> contains x (lower r) = true ->
  icontains x (replace (String c0 p') r s) = true.
Proof.
  intros Hp Hr. unfold icontains, replace.
  destruct (replace_inserts_bounded c0 p' r (String.length s) s (Nat.le_refl _) Hp)
    as [a [b ->]].
  rewrite !lower_append. apply contains_append_r, contains_append_l, Hr.
Qed.

(** The three checks keep a tag that begins with an angle bracket and has no
    other: each replaced pattern either cannot start where the tag starts, or
    its replacement starts with the tag. *)
Lemma normalise_keeps (username x' html : string) :
  mem_char "<"%char x' = false ->
  (forall t, starts_with (String "<"%char x') (lower "</body>" ++ t) = false) ->
  (forall t, starts_with (String "<"%char x') (lower "</head>" ++ t) = false) ->
  (starts_with (String "<"%char x') (lower (meta_block username)) = true
   \/ forall t, starts_with (String "<"%char x') (lower "<head>" ++ t) = false) ->
  icontains (String "<"%char x') html = true ->
  icontains (String "<"%char x') (normalise username html) = true.
Proof.
  intros Hx Hbody Hhead Hmeta H.
  unfold normalise, ensure_meta, ensure_font_awesome, ensure_script.
  assert (H1 : icontains (String "<"%char x')
                 (if icontains "<script" html then html
                  else replace "</body>" script_block html) = true).
  { destruct (icontains "<script" html); [exact H|].
    apply (replace_keeps_tag "/body>" script_block x'); auto. }
  set (h1 := if icontains "<script" html then html
             else replace "</body>" script_block html) in *.
  assert (H2 : icontains (String "<"%char x')
                 (if icontains "font-awesome" h1 || icontains "fontawesome" h1 then h1
                  else replace "</head>" font_awesome_block h1) = true).
  { destruct (icontains "font-awesome" h1 || icontains "fontawesome" h1); [exact H1|].
    apply (replace_keeps_tag "/head>" font_awesome_block x'); auto. }
  set (h2 := if icontains "font-awesome" h1 || icontains "fontawesome" h1 then h1
             else replace "</head>" font_awesome_block h1) in *.
  destruct (icontains ("<meta name=" ++ dq ++ "description" ++ dq) h2); [exact H2|].
  apply (replace_keeps_tag "head>" (meta_block username) x'); auto.
Qed.

Lemma dict_get_set (V : Type) (k : string) (v : V) (d : list (string * V)) :
  dict_get k (dict_set k v d) = Some v.
Proof.
  induction d as [|[k' v'] d IH]; simpl.
  - now rewrite String.eqb_refl.
  - destruct (String.eqb k' k) eqn:E; simpl; rewrite E; [reflexivity | exact IH].
Qed.

(** *** What a replacement can and cannot bring in *)

Lemma inserted_refl (b s : string) : inserted b s s.
Proof. induction s; constructor; assumption. Qed.

Lemma inserted_prefix (b a s t : string) :
  inserted b s t -> inserted b (a ++ s) (a ++ t).
Proof. intros H. induction a as [|c a IH]; simpl; [exact H | now constructor]. Qed.

(** Replacing a pattern by a block followed by the pattern puts copies of
    the block into the text, and so does replacing it by the pattern followed
    by a block. *)
Lemma replace_inserts_before (c0 : ascii) (p' b : string) (n : nat) :
  forall s, (String.length s <= n)%nat ->
    inserted b s (replace_from (String c0 p') (b ++ String c0 p') 0 s).
Proof.
  induction n as [|n IH]; intros s Hn.
  - destruct s; [constructor | simpl in Hn; lia].
  - destruct s as [|c s]; [constructor|].
    destruct (starts_with (String c0 p') (String c s)) eqn:Ep.
    + rewrite (replace_from_match _ _ _ _ Ep).
      pose proof (starts_with_split _ _ Ep) as Hsplit.
      set (rest := drop (String.length (String c0 p')) (String c s)) in *.
      rewrite Hsplit at 1. rewrite append_assoc.
      apply inserted_block, inserted_prefix, IH.
      assert (String.length (String c s)
              = String.length (String c0 p') + String.length rest)%nat as Hl
        by (rewrite Hsplit at 1; apply length_append).
      simpl in Hl, Hn. lia.
    + rewrite (replace_from_no_match _ _ _ _ Ep). constructor. apply IH. simpl in Hn. lia.
Qed.

Lemma replace_inserts_after (c0 : ascii) (p' b : string) (n : nat) :
  forall s, (String.length s <= n)%nat ->
    inserted b s (replace_from (String c0 p') (String c0 p' ++ b) 0 s).
Proof.
  induction n as [|n IH]; intros s Hn.
  - destruct s; [constructor | simpl in Hn; lia].
  - destruct s as [|c s]; [constructor|].
    destruct (starts_with (String c0 p') (String c s)) eqn:Ep.
    + rewrite (replace_from_match _ _ _ _ Ep).
      pose proof (starts_with_split _ _ Ep) as Hsplit.
      set (rest := drop (String.length (String c0 p')) (String c s)) in *.
      rewrite Hsplit at 1. rewrite append_assoc.
      apply inserted_prefix, inserted_block, IH.
      assert (String.length (String c s)
              = String.length (String c0 p') + String.length rest)%nat as Hl
        by (rewrite Hsplit at 1; apply length_append).
      simpl in Hl, Hn. lia.
    + rewrite (replace_from_no_match _ _ _ _ Ep). constructor. apply IH. simpl in Hn. lia.
Qed.

Lemma inserted_lower (b s t : string) :
  inserted b s t -> inserted (lower b) (lower s) (lower t).
Proof.
  induction 1 as [|c s t H IH|s t H IH].
  - constructor.
  - change (lower (String c s)) with (String (lower_char c) (lower s)).
    change (lower (String c t)) with (String (lower_char c) (lower t)).
    now constructor.
  - rewrite lower_append. now constructor.
Qed.

Section Blocks.
(** A block that begins with a character the tag does not have. *)
Variables (c0 : ascii) (b' x : string).
Hypothesis Hfirst : mem_char c0 x = false.

Lemma starts_with_inserted (s t : string) :
  inserted (String c0 b') s t ->
  forall y, mem_char c0 y = false -> starts_with y t = true -> starts_with y s = true.
Proof.
  induction 1 as [|c s t H IH|s t H IH]; intros y Hy Hst.
  - exact Hst.
  - destruct y as [|a y]; [reflexivity|].
    simpl in *. apply orb_false_iff in Hy as [_ Hy].
    apply andb_true_iff in Hst as [Hac Hst]. rewrite Hac. simpl. now apply IH.
  - destruct y as [|a y]; [now destruct s|].
    simpl in *. apply orb_false_iff in Hy as [Ha _].
    apply andb_true_iff in Hst as [Hac _]. congruence.
Qed.

(** If no occurrence of the tag can begin inside the block, the tag occurs
    in the text with the blocks only if it occurs in the text without. *)
Lemma contains_inserted (s t : string) :
  (forall u, contains x (String c0 b' ++ u) = contains x u) ->
  inserted (String c0 b') s t ->
  contains x t = true -> contains x s = true.
Proof.
  intros Hblock. induction 1 as [|c s t H IH|s t H IH]; intros Hc.
  - exact Hc.
  - rewrite contains_cons in *. apply orb_true_iff in Hc as [Hc | Hc]; apply orb_true_iff.
    + left. apply (starts_with_inserted (String c s) (String c t));
        [now constructor | exact Hfirst | exact Hc].
    + right. now apply IH.
  - apply IH. now rewrite Hblock in Hc.
Qed.

End Blocks.

(** No occurrence of [x] begins inside [b], so [b] can be skipped. *)
Lemma contains_skip_block (x b : string) :
  meets x b = false -> forall u, contains x (b ++ u) = contains x u.
Proof.
  induction b as [|c b IH]; intros Hm u; [reflexivity|].
  cbn [meets] in Hm. apply orb_false_iff in Hm as [Hm Hrest].
  apply orb_false_iff in Hm as [Hin Hover].
  change (String c b ++ u) with (String c (b ++ u)).
  rewrite contains_cons, (IH Hrest).
  replace (starts_with x (String c (b ++ u))) with false; [reflexivity|].
  symmetry. destruct (starts_with x (String c (b ++ u))) eqn:E; [|reflexivity].
  change (String c (b ++ u)) with (String c b ++ u) in E.
  destruct (starts_with_app_inv _ _ _ E) as [H | [y [-> _]]].
  - congruence.
  - now rewrite starts_with_append in Hover.
Qed.

(** The two shapes of replacement the checks use, seen from the result. *)
Lemma replace_before_adds_nothing (pc : ascii) (p' b x h : string) (c0 : ascii) (b' : string) :
  lower b = String c0 b' -> mem_char c0 x = false -> meets x (lower b) = false ->
  icontains x (replace (String pc p') (b ++ String pc p') h) = true ->
  icontains x h = true.
Proof.
  intros Hb Hfirst Hm. unfold icontains, replace. rewrite Hb in Hm.
  apply (contains_inserted c0 b' x Hfirst); [now apply contains_skip_block|].
  rewrite <- Hb. apply inserted_lower.
  now apply (replace_inserts_before pc p' b (String.length h)).
Qed.

Lemma script_block_shape : script_block = script_lead ++ "</body>".
Proof. vm_compute. reflexivity. Qed.

Lemma font_awesome_block_shape : font_awesome_block = font_awesome_lead ++ "</head>".
Proof. vm_compute. reflexivity. Qed.

Lemma meta_block_shape (username : string) :
  meta_block username
  = "<head>" ++ (meta_lead ++ username ++ meta_between ++ username ++ meta_end).
Proof. reflexivity. Qed.

Lemma script_step_adds_nothing (x h : string) :
  mem_char "010"%char x = false -> meets x (lower script_lead) = false ->
  icontains x (ensure_script h) = true -> icontains x h = true.
Proof.
  intros Hnl Hm. unfold ensure_script.
  destruct (icontains "<script" h); [auto|].
  rewrite script_block_shape.
  apply (replace_before_adds_nothing "<"%char "/body>" script_lead x h
           "010"%char (drop 1 (lower script_lead))); [vm_compute; reflexivity | exact Hnl | exact Hm].
Qed.

Lemma icon_step_adds_nothing (x h : string) :
  mem_char "010"%char x = false -> meets x (lower font_awesome_lead) = false ->
  icontains x (replace "</head>" font_awesome_block h) = true -> icontains x h = true.
Proof.
  intros Hnl Hm. rewrite font_awesome_block_shape.
  apply (replace_before_adds_nothing "<"%char "/head>" font_awesome_lead x h
           "010"%char (drop 1 (lower font_awesome_lead)));
    [vm_compute; reflexivity | exact Hnl | exact Hm].
Qed.

Lemma meta_step_adds_nothing (username x' h : string) :
  mem_char "<"%char username = false ->
  mem_char "010"%char (String "<"%char x') = false ->
  meets (String "<"%char x') (lower meta_lead) = false ->
  meets (String "<"%char x') (lower meta_between) = false ->
  meets (String "<"%char x') (lower meta_end) = false ->
  icontains (String "<"%char x') (replace "<head>" (meta_block username) h) = true ->
  icontains (String "<"%char x') h = true.
Proof.
  intros Hu Hnl H1 H2 H3. unfold icontains, replace.
  rewrite meta_block_shape.
  set (b := meta_lead ++ username ++ meta_between ++ username ++ meta_end).
  assert (Hb : lower b = String "010"%char
                          (drop 1 (lower meta_lead)
                           ++ lower username ++ lower meta_between
                           ++ lower username ++ lower meta_end)).
  { unfold b. rewrite !lower_append. reflexivity. }
  intros Hc.
  set (b' := drop 1 (lower meta_lead)
             ++ lower username ++ lower meta_between
             ++ lower username ++ lower meta_end) in Hb.
  apply (contains_inserted "010"%char b' (String "<"%char x') Hnl
           (lower h) (lower (replace_from "<head>" ("<head>" ++ b) 0 h))).
  - intros u. rewrite <- Hb. unfold b. rewrite !lower_append, !append_assoc.
    rewrite (contains_skip_block _ _ H1).
    rewrite contains_skip_prefix by (now rewrite mem_lt_lower).
    rewrite (contains_skip_block _ _ H2).
    rewrite contains_skip_prefix by (now rewrite mem_lt_lower).
    apply (contains_skip_block _ _ H3).
  - rewrite <- Hb. apply inserted_lower.
    apply (replace_inserts_after "<"%char "head>" b (String.length h)). apply Nat.le_refl.
  - exact Hc.
Qed.

(** The three checks bring in no tag that is foreign to their blocks. *)
Lemma normalise_adds_nothing (username x' h : string) :
  mem_char "<"%char username = false -> foreign x' ->
  icontains (String "<"%char x') (normalise username h) = true ->
  icontains (String "<"%char x') (ensure_script h) = true.
Proof.
  intros Hu Hf H. pose proof Hf as [Hx [Hnl [_ [Hfa _]]]].
  unfold normalise, ensure_meta in H.
  set (h1 := ensure_script h) in *.
  assert (H2 : icontains (String "<"%char x') (ensure_font_awesome h1) = true).
  { destruct (icontains ("<meta name=" ++ dq ++ "description" ++ dq)
                        (ensure_font_awesome h1)); [exact H|].
    destruct Hf as [_ [_ [_ [_ [M1 [M2 M3]]]]]].
    now apply (meta_step_adds_nothing username). }
  unfold ensure_font_awesome in H2.
  destruct (icontains "font-awesome" h1 || icontains "fontawesome" h1); [exact H2|].
  now apply icon_step_adds_nothing.
Qed.

(** *** The closing tags, which are matched as written *)

Section KeepsExact.
Variables (p' r x' : string).
Hypothesis Hp : mem_char "<"%char p' = false.
Hypothesis Hx : mem_char "<"%char x' = false.
Hypothesis Hclash : forall t, starts_with (String "<"%char x') (String "<"%char p' ++ t) = false.

Lemma replace_keeps_exact_bounded (n : nat) :
  forall s, (String.length s <= n)%nat ->
    contains (String "<"%char x') s = true ->
    contains (String "<"%char x') (replace_from (String "<"%char p') r 0 s) = true.
Proof.
  induction n as [|n IH]; intros s Hn H.
  - destruct s; [discriminate H | simpl in Hn; lia].
  - destruct s as [|c s]; [discriminate H|].
    destruct (starts_with (String "<"%char p') (String c s)) eqn:Ep.
    + rewrite (replace_from_match _ _ _ _ Ep).
      pose proof (starts_with_split _ _ Ep) as Hsplit.
      set (rest := drop (String.length (String "<"%char p')) (String c s)) in *.
      rewrite Hsplit in H.
      change (String "<"%char p' ++ rest) with (String "<"%char (p' ++ rest)) in H.
      rewrite contains_cons in H. apply orb_true_iff in H as [H | H].
      * specialize (Hclash rest).
        change (String "<"%char p' ++ rest) with (String "<"%char (p' ++ rest)) in Hclash.
        congruence.
      * apply contains_append_r. apply IH.
        -- assert (String.length (String c s)
                   = String.length (String "<"%char p') + String.length rest)%nat as Hl
             by (rewrite Hsplit at 1; apply length_append).
           simpl in Hl, Hn. lia.
        -- now rewrite contains_skip_prefix in H.
    + rewrite (replace_from_no_match _ _ _ _ Ep).
      rewrite contains_cons in *. apply orb_true_iff in H as [H | H]; apply orb_true_iff.
      * left. cbn [starts_with] in *.
        apply andb_true_iff in H as [Hc Hrest]. rewrite Hc. cbn [andb].
        rewrite (starts_with_split _ _ Hrest).
        rewrite replace_from_through by exact Hx. apply starts_with_append.
      * right. apply IH; [simpl in Hn; lia | exact H].
Qed.

End KeepsExact.

(** The closing head tag survives the script step. *)
Lemma script_step_keeps_head_end (h : string) :
  contains "</head>" h = true -> contains "</head>" (ensure_script h) = true.
Proof.
  intros H. unfold ensure_script. destruct (icontains "<script" h); [exact H|].
  apply (replace_keeps_exact_bounded "/body>" script_block "/head>" eq_refl eq_refl
           (fun t => eq_refl) (String.length h)); [apply Nat.le_refl | exact H].
Qed.

(** ... and is not brought in by it. *)
Lemma script_step_adds_no_head_end (h : string) :
  contains "</head>" (ensure_script h) = true -> contains "</head>" h = true.
Proof.
  unfold ensure_script. destruct (icontains "<script" h); [auto|].
  rewrite script_block_shape. unfold replace. intros H.
  apply (contains_inserted "010"%char (drop 1 script_lead) "</head>" eq_refl
           h (replace_from "</body>" (script_lead ++ "</body>") 0 h)).
  - apply (contains_skip_block "</head>" script_lead). vm_compute. reflexivity.
  - apply (replace_inserts_before "<"%char "/body>" script_lead (String.length h)).
    apply Nat.le_refl.
  - exact H.
Qed.

Lemma foreign_tags (tag : string) :
  In tag ["<html"; "<head"; "<body"; "<style"] ->
  exists x', tag = String "<"%char x' /\ foreign x'.
Proof.
  intros H. cbn [In] in H.
  destruct H as [<- | [<- | [<- | [<- | []]]]]; eexists; (split; [reflexivity|]);
    unfold foreign; repeat split; vm_compute; reflexivity.
Qed.

Lemma kept_tags (username tag html : string) :
  In tag ["<html"; "<head"; "<body"; "<style"; "<script"; stylesheet_link] ->
  icontains tag html = true -> icontains tag (normalise username html) = true.
Proof.
  intros Hin Htag. cbn [In] in Hin.
  destruct Hin as [<- | [<- | [<- | [<- | [<- | [<- | []]]]]]];
    apply normalise_keeps; try exact Htag; try reflexivity;
    try (intros t; reflexivity); try (left; reflexivity); try (right; intros t; reflexivity).
Qed.

(** The script tag is there exactly when the HTML had one or has the
    closing body tag. *)
Lemma script_tag_exactly (username html : string) :
  mem_char "<"%char username = false ->
  icontains "<script" (normalise username html)
  = icontains "<script" html || contains "</body>" html.
Proof.
  intros Hu.
  destruct (icontains "<script" html || contains "</body>" html) eqn:E.
  - apply orb_true_iff in E as [E | E].
    + apply kept_tags; [cbn; auto 10 | exact E].
    + assert (Hs : icontains "<script" (ensure_script html) = true).
      { unfold ensure_script. destruct (icontains "<script" html) eqn:E'; [exact E'|].
        apply replace_inserts_tag; [exact E | reflexivity]. }
      unfold normalise, ensure_meta, ensure_font_awesome.
      set (h1 := ensure_script html) in *.
      assert (H2 : icontains "<script"
                     (if icontains "font-awesome" h1 || icontains "fontawesome" h1 then h1
                      else replace "</head>" font_awesome_block h1) = true).
      { destruct (icontains "font-awesome" h1 || icontains "fontawesome" h1); [exact Hs|].
        apply (replace_keeps_tag "/head>" font_awesome_block "script");
          [reflexivity | reflexivity | right; intros t; reflexivity | exact Hs]. }
      set (h2 := if icontains "font-awesome" h1 || icontains "fontawesome" h1 then h1
                 else replace "</head>" font_awesome_block h1) in *.
      destruct (icontains ("<meta name=" ++ dq ++ "description" ++ dq) h2); [exact H2|].
      apply (replace_keeps_tag "head>" (meta_block username) "script");
        [reflexivity | reflexivity | right; intros t; reflexivity | exact H2].
  - apply orb_false_iff in E as [Es Eb].
    destruct (icontains "<script" (normalise username html)) eqn:En; [|reflexivity].
    assert (H1 : ensure_script html = html).
    { unfold ensure_script. rewrite Es. now apply replace_absent. }
    exfalso.
    assert (Hh2 : icontains "<script" (ensure_font_awesome html) = true).
    { unfold normalise, ensure_meta in En. rewrite H1 in En.
      destruct (icontains ("<meta name=" ++ dq ++ "description" ++ dq)
                          (ensure_font_awesome html)); [exact En|].
      apply (meta_step_adds_nothing username "script" _ Hu);
        try (vm_compute; reflexivity). exact En. }
    unfold ensure_font_awesome in Hh2.
    destruct (icontains "font-awesome" html || icontains "fontawesome" html).
    + congruence.
    + apply icon_step_adds_nothing in Hh2; [congruence | reflexivity | vm_compute; reflexivity].
Qed.

(** The Font Awesome stylesheet is linked when the HTML has the closing head
    tag and does not mention the library. *)
Lemma link_added (username html : string) :
  contains "</head>" html = true ->
  icontains "font-awesome" html = false -> icontains "fontawesome" html = false ->
  icontains stylesheet_link (normalise username html) = true.
Proof.
  intros Hhead Hfa1 Hfa2. unfold normalise.
  set (h1 := ensure_script html).
  assert (H1 : icontains "font-awesome" h1 = false).
  { destruct (icontains "font-awesome" h1) eqn:E; [|reflexivity].
    apply script_step_adds_nothing in E; [congruence | reflexivity | vm_compute; reflexivity]. }
  assert (H2 : icontains "fontawesome" h1 = false).
  { destruct (icontains "fontawesome" h1) eqn:E; [|reflexivity].
    apply script_step_adds_nothing in E; [congruence | reflexivity | vm_compute; reflexivity]. }
  assert (Hh1 : contains "</head>" h1 = true) by now apply script_step_keeps_head_end.
  assert (Hl : icontains stylesheet_link (ensure_font_awesome h1) = true).
  { unfold ensure_font_awesome. rewrite H1, H2. cbn [orb].
    apply replace_inserts_tag; [exact Hh1 | vm_compute; reflexivity]. }
  unfold ensure_meta.
  destruct (icontains ("<meta name=" ++ dq ++ "description" ++ dq) (ensure_font_awesome h1));
    [exact Hl|].
  apply (replace_keeps_tag "head>" (meta_block username)
           ("link rel=" ++ dq ++ "stylesheet" ++ dq));
    [reflexivity | reflexivity | right; intros t; reflexivity | exact Hl].
Qed.

(** ... and a stylesheet link in the result was in the HTML or was put
    before a closing head tag. *)
Lemma link_only_if (username html : string) :
  mem_char "<"%char username = false ->
  icontains stylesheet_link (normalise username html) = true ->
  icontains stylesheet_link html = true \/ contains "</head>" html = true.
Proof.
  intros Hu H. unfold normalise, ensure_meta in H.
  set (h1 := ensure_script html) in *.
  assert (H2 : icontains stylesheet_link (ensure_font_awesome h1) = true).
  { destruct (icontains ("<meta name=" ++ dq ++ "description" ++ dq)
                        (ensure_font_awesome h1)); [exact H|].
    apply (meta_step_adds_nothing username ("link rel=" ++ dq ++ "stylesheet" ++ dq) _ Hu);
      try (vm_compute; reflexivity). exact H. }
  assert (Hback : icontains stylesheet_link h1 = true -> icontains stylesheet_link html = true).
  { intros E. apply script_step_adds_nothing in E;
      [exact E | reflexivity | vm_compute; reflexivity]. }
  unfold ensure_font_awesome in H2.
  destruct (icontains "font-awesome" h1 || icontains "fontawesome" h1); [left; auto|].
  destruct (contains "</head>" h1) eqn:Eh.
  - right. now apply script_step_adds_no_head_end.
  - left. apply Hback. now rewrite (replace_absent _ _ _ _ Eh) in H2.
Qed.

(** The four tags the checks neither remove nor bring in. *)
Lemma tags_exactly (username tag html : string) :
  mem_char "<"%char username = false ->
  In tag ["<html"; "<head"; "<body"; "<style"] ->
  icontains tag (normalise username html) = icontains tag html.
Proof.
  intros Hu Hin.
  destruct (icontains tag html) eqn:E.
  - apply kept_tags; [|exact E]. cbn [In] in *. intuition.
  - destruct (icontains tag (normalise username html)) eqn:En; [|reflexivity].
    destruct (foreign_tags tag Hin) as [x' [-> Hf]].
    apply (normalise_adds_nothing username x' html Hu Hf) in En.
    destruct Hf as [_ [Hnl [Hs _]]].
    apply script_step_adds_nothing in En; [congruence | exact Hnl | exact Hs].
Qed.

(** C1 (as amended). The artifact of a completed turn is the normalised form
    of the HTML left by the validation step; it is what the conversation
    state stores and what the file named after the username holds. It has an
    html, head, body or style tag exactly when that HTML has one; a script tag
    exactly when that HTML has one or has the closing body tag; a stylesheet
    link when that HTML has one, or has the closing head tag and does not
    mention Font Awesome, and only if that HTML has one or has the closing head
    tag. So all five parts are there when that HTML has the html, head and
    body tags, the closing body tag and a style source (or the closing head tag
    and no mention of Font Awesome). *)
Theorem artifact_is_normalised_html :
  forall (username bio : string) (script : list outcome) (st st' : ConversationState)
         (artifact : string) (path : option string) (log : list string),
    username <> EmptyString ->
    mem_char "<"%char username = false ->
    build_site username bio script st = Some (Some artifact, path, log, st') ->
    exists (generated : string) (validation : outcome) (html : string),
      html = validation_step generated validation
      /\ artifact = normalise username html
      /\ generated_html st' = Some artifact
      /\ path = Some (PORTFOLIO_DIR ++ "/" ++ portfolio_filename username)
      /\ dict_get (PORTFOLIO_DIR ++ "/" ++ portfolio_filename username) (files st')
         = Some artifact
      /\ (forall tag, In tag ["<html"; "<head"; "<body"; "<style"] ->
            icontains tag artifact = icontains tag html)
      /\ icontains "<script" artifact
         = icontains "<script" html || contains "</body>" html
      /\ (icontains stylesheet_link html = true ->
          icontains stylesheet_link artifact = true)
      /\ (contains "</head>" html = true ->
          icontains "font-awesome" html = false -> icontains "fontawesome" html = false ->
          icontains stylesheet_link artifact = true)
      /\ (icontains stylesheet_link artifact = true ->
          icontains stylesheet_link html = true \/ contains "</head>" html = true)
      /\ (icontains "<html" html = true -> icontains "<head" html = true ->
          icontains "<body" html = true -> contains "</body>" html = true ->
          icontains "<style" html = true \/ icontains stylesheet_link html = true
          \/ (contains "</head>" html = true /\ icontains "font-awesome" html = false
              /\ icontains "fontawesome" html = false) ->
          icontains "<html" artifact = true /\ icontains "<head" artifact = true
          /\ icontains "<body" artifact = true
          /\ (icontains "<style" artifact = true \/ icontains stylesheet_link artifact = true)
          /\ icontains "<script" artifact = true).
Proof.
  intros username bio script st st' artifact path log Hname Hu H.
  unfold build_site in H.
  destruct (generate_site_loop username bio script 0 _) as [[[[h|] log1] [|o rest]]|];
    try discriminate.
  set (html := validation_step h o) in *.
  exists h, o, html. split; [reflexivity|].
  assert (Hresult :
            artifact = normalise username html /\ generated_html st' = Some artifact
            /\ path = Some (PORTFOLIO_DIR ++ "/" ++ portfolio_filename username)
            /\ dict_get (PORTFOLIO_DIR ++ "/" ++ portfolio_filename username) (files st')
               = Some artifact).
  { unfold save_portfolio in H. cbn [generated_html current_username files portfolio_path] in H.
    destruct username as [|u0 u]; [congruence|].
    destruct (normalise (String u0 u) html) as [|c n] eqn:En.
    - cbn in H. discriminate H.
    - cbn [str_truthy andb generated_html portfolio_path files] in H.
      injection H as <- <- _ <-.
      cbn [generated_html files]. split; [reflexivity|]. split; [reflexivity|].
      split; [reflexivity|]. apply dict_get_set. }
  destruct Hresult as [-> [Hgen [Hpath Hfile]]].
  split; [reflexivity|]. split; [exact Hgen|]. split; [exact Hpath|].
  split; [exact Hfile|].
  assert (Htags : forall tag, In tag ["<html"; "<head"; "<body"; "<style"] ->
            icontains tag (normalise username html) = icontains tag html)
    by (intros tag Hin; now apply tags_exactly).
  assert (Hscript := script_tag_exactly username html Hu).
  assert (Hkeep : icontains stylesheet_link html = true ->
                  icontains stylesheet_link (normalise username html) = true)
    by (apply kept_tags; cbn; auto 10).
  assert (Hadd := link_added username html).
  split; [exact Htags|]. split; [exact Hscript|]. split; [exact Hkeep|].
  split; [exact Hadd|]. split; [now apply link_only_if|].
  intros H1 H2 H3 H4 H5.
  rewrite !Htags by (cbn; auto 10). rewrite Hscript, H1, H2, H3, H4, orb_true_r.
  repeat split.
  destruct H5 as [H5 | [H5 | [H5 [H6 H7]]]].
  - left. exact H5.
  - right. now apply Hkeep.
  - right. now apply Hadd.
Qed.

(** The theorem on a turn whose three generation runs and validation run all
    fail, so that the fallback template is the HTML. *)
Lemma artifact_is_normalised_html_witness :
  exists (generated : string) (validation : outcome) (html : string),
      html = validation_step generated validation
      /\ fallback_artifact = normalise "ada" html
      /\ generated_html fallback_state = Some fallback_artifact
      /\ (Some "generated_portfolios/ada_portfolio.html") = Some (PORTFOLIO_DIR ++ "/" ++ portfolio_filename "ada")
      /\ dict_get (PORTFOLIO_DIR ++ "/" ++ portfolio_filename "ada") (files fallback_state)
         = Some fallback_artifact
      /\ (forall tag, In tag ["<html"; "<head"; "<body"; "<style"] ->
            icontains tag fallback_artifact = icontains tag html)
      /\ icontains "<script" fallback_artifact
         = icontains "<script" html || contains "</body>" html
      /\ (icontains stylesheet_link html = true ->
          icontains stylesheet_link fallback_artifact = true)
      /\ (contains "</head>" html = true ->
          icontains "font-awesome" html = false -> icontains "fontawesome" html = false ->
          icontains stylesheet_link fallback_artifact = true)
      /\ (icontains stylesheet_link fallback_artifact = true ->
          icontains stylesheet_link html = true \/ contains "</head>" html = true)
      /\ (icontains "<html" html = true -> icontains "<head" html = true ->
          icontains "<body" html = true -> contains "</body>" html = true ->
          icontains "<style" html = true \/ icontains stylesheet_link html = true
          \/ (contains "</head>" html = true /\ icontains "font-awesome" html = false
              /\ icontains "fontawesome" html = false) ->
          icontains "<html" fallback_artifact = true /\ icontains "<head" fallback_artifact = true
          /\ icontains "<body" fallback_artifact = true
          /\ (icontains "<style" fallback_artifact = true \/ icontains stylesheet_link fallback_artifact = true)
          /\ icontains "<script" fallback_artifact = true).
Proof.
  eapply (artifact_is_normalised_html "ada" "GitHub User"
            [Raises boom; Raises boom; Raises boom; Raises boom] empty_state fallback_state
            fallback_artifact (Some "generated_portfolios/ada_portfolio.html")).
  - discriminate.
  - reflexivity.
  - vm_compute. reflexivity.
Defined.

(** C1 as the specification states it fails: when the generation reply
    carries a bare paragraph in a fenced block and the validation run fails,
    the turn completes, and the artifact stored and saved is that paragraph,
    with no html, head or body tag, no style source and no script. *)
Lemma artifact_without_tags_counterexample :
  match build_site "ada" "GitHub User" [Returns fenced_fragment; Raises boom] empty_state with
  | Some (Some artifact, Some file, _, st') =>
      artifact = "<p>hi</p>"
      /\ generated_html st' = Some artifact
      /\ dict_get file (files st') = Some artifact
      /\ icontains "<html" artifact = false
      /\ icontains "<head" artifact = false
      /\ icontains "<body" artifact = false
      /\ icontains "<style" artifact = false
      /\ icontains "<link" artifact = false
      /\ icontains "<script" artifact = false
  | _ => False
  end.
Proof. vm_compute. repeat split. Qed.

End NormaliseFacts.

(** ** Further properties of the orchestrator *)

Module LoopFacts.
Import PyStr Py App Spec PyStrFacts IntentFacts.

Lemma truthy_not_none (v : json) : truthy v = true -> is_none v = false.
Proof. destruct v; simpl; congruence. Qed.

(** X1. Two failures, then a reply that holds a usable profile: the loop yields
    the two retry updates, no exhaustion update, makes no fourth run and the
    caller gets the decoded profile, not the fallback. *)
Theorem fetch_profile_succeeds_on_third :
  forall (json_loads : string -> result json) (username : string)
         (o1 o2 o3 : outcome) (e1 e2 : exn) (v : json) (rest : list outcome),
    profile_attempt json_loads o1 = Raise e1 ->
    profile_attempt json_loads o2 = Raise e2 ->
    profile_attempt json_loads o3 = Ok v ->
    truthy v = true ->
    fetch_profile json_loads username (o1 :: o2 :: o3 :: rest)
    = Some (v, [retry_profile_status 1; retry_profile_status 2], rest)
    /\ retry_updates [retry_profile_status 1; retry_profile_status 2] = 2
    /\ exhausted_updates [retry_profile_status 1; retry_profile_status 2] = 0.
Proof.
  intros json_loads username o1 o2 o3 e1 e2 v rest H1 H2 H3 Hv.
  split; [|split; reflexivity].
  unfold fetch_profile. cbn [fetch_profile_loop].
  change (0 <? max_retries)%nat with true. cbv iota. rewrite H1. cbv zeta.
  change (1 <? max_retries)%nat with true. cbv iota. rewrite H2. cbv zeta.
  change (2 <? max_retries)%nat with true. cbv iota. rewrite H3.
  rewrite (truthy_not_none v Hv), Hv. reflexivity.
Qed.

Lemma fetch_profile_succeeds_on_third_witness :
  fetch_profile JsonText.loads "ada"
    [Raises boom; Returns "{oops}"; Returns "{'repos': [1]}"]
  = Some (JObj [("repos", JArr [JNum 1])],
          [retry_profile_status 1; retry_profile_status 2], [])
  /\ retry_updates [retry_profile_status 1; retry_profile_status 2] = 2
  /\ exhausted_updates [retry_profile_status 1; retry_profile_status 2] = 0.
Proof.
  apply (fetch_profile_succeeds_on_third JsonText.loads "ada"
           (Raises boom) (Returns "{oops}") (Returns "{'repos': [1]}")
           boom JsonText.decode_error (JObj [("repos", JArr [JNum 1])]) []);
    vm_compute; reflexivity.
Defined.

(** X2. A reply with neither a fenced block nor a brace span raises nothing and
    leaves [profile_data] at [None]: it is not counted as an attempt and
    yields no update, so any number of such replies is consumed before the
    loop goes on as if they had not been there. *)
Theorem uncounted_profile_replies :
  forall (json_loads : string -> result json) (data : string) (k : nat)
         (rest : list outcome) (retry_count : nat) (log : list string),
    fence_search "json" data = None ->
    dict_search data = None ->
    (retry_count < max_retries)%nat ->
    fetch_profile_loop json_loads (repeat (Returns data) k ++ rest) retry_count log
    = fetch_profile_loop json_loads rest retry_count log.
Proof.
  intros json_loads data k rest n log Hf Hd Hn.
  induction k as [|k IH]; [reflexivity|].
  cbn [repeat app fetch_profile_loop].
  apply Nat.ltb_lt in Hn. rewrite Hn.
  unfold profile_attempt, extract_profile, json_candidate. rewrite Hf, Hd.
  cbn [is_none]. exact IH.
Qed.

Lemma uncounted_profile_replies_witness :
  fetch_profile_loop JsonText.loads (repeat (Returns "no data here") 7 ++ [Raises boom]) 0 []
  = fetch_profile_loop JsonText.loads [Raises boom] 0 [].
Proof.
  apply (uncounted_profile_replies JsonText.loads "no data here" 7 [Raises boom] 0 []);
    [reflexivity | reflexivity | unfold max_retries; lia].
Defined.

(** X3. An unfenced reply that does not look like HTML is assigned to
    [html_content] before the check raises: the loop yields one retry update
    and ends at once with that reply as the HTML, without a further run. *)
Theorem rejected_reply_becomes_html :
  forall (username bio data : string) (rest : list outcome) (log : list string),
    fence_search "html" data = None ->
    looks_like_html data = false ->
    generate_site_loop username bio (Returns data :: rest) 0 log
    = Some (Some data, (log ++ [retry_site_status 1])%list, rest).
Proof.
  intros username bio data rest log Hf Hl.
  cbn [generate_site_loop]. change (0 <? max_retries)%nat with true. cbv iota.
  unfold site_attempt. rewrite Hf, Hl.
  change (1 <? max_retries)%nat with true. reflexivity.
Qed.

Lemma rejected_reply_becomes_html_witness :
  generate_site_loop "ada" "GitHub User" [Returns "Sorry, I cannot do that."] 0 []
  = Some (Some "Sorry, I cannot do that.", ([] ++ [retry_site_status 1])%list, []).
Proof.
  apply (rejected_reply_becomes_html "ada" "GitHub User" "Sorry, I cannot do that." [] []);
    reflexivity.
Defined.

(** X4. When the model call raises three times the generation loop yields two
    retry updates and the exhaustion update and leaves the fallback template
    as the HTML. *)
Theorem generation_falls_back_to_template :
  forall (username bio : string) (e1 e2 e3 : exn) (rest : list outcome) (log : list string),
    generate_site_loop username bio (Raises e1 :: Raises e2 :: Raises e3 :: rest) 0 log
    = Some (Some (fallback_template username bio),
            (log ++ [retry_site_status 1; retry_site_status 2; exhausted_site_status e3])%list,
            rest).
Proof.
  intros. cbn [generate_site_loop site_attempt].
  change (0 <? max_retries)%nat with true.
  change (1 <? max_retries)%nat with true.
  change (2 <? max_retries)%nat with true.
  change (3 <? max_retries)%nat with false. cbv iota.
  now rewrite <- !app_assoc.
Qed.

(** X5. Whatever the replies, a generation loop that ends has set
    [html_content]: the search for a script tag never meets [None]. *)
Theorem generation_loop_sets_html :
  forall (username bio : string) (script : list outcome) (retry_count : nat)
         (log log' : list string) (html_content : option string) (rest : list outcome),
    (retry_count < max_retries)%nat ->
    generate_site_loop username bio script retry_count log = Some (html_content, log', rest) ->
    exists html, html_content = Some html.
Proof.
  intros username bio script.
  induction script as [|o script IH]; intros n log log' h rest Hn H.
  - cbn [generate_site_loop] in H. apply Nat.ltb_lt in Hn. rewrite Hn in H. discriminate.
  - cbn [generate_site_loop] in H. pose proof Hn as Hn'. apply Nat.ltb_lt in Hn'.
    rewrite Hn' in H.
    destruct (site_attempt o) as [[html|] [e|]] eqn:Ea.
    + destruct (S n <? max_retries)%nat; injection H as <- _ _; eauto.
    + injection H as <- _ _. eauto.
    + destruct (S n <? max_retries)%nat eqn:E.
      * apply Nat.ltb_lt in E. now apply (IH (S n) _ _ _ _ E H).
      * injection H as <- _ _. eauto.
    + now apply (IH n _ _ _ _ Hn H).
Qed.

Lemma generation_loop_sets_html_witness :
  exists html, Some "Sorry, I cannot do that." = Some html.
Proof.
  apply (generation_loop_sets_html "ada" "GitHub User" [Returns "Sorry, I cannot do that."]
           0 [] ([] ++ [retry_site_status 1])%list (Some "Sorry, I cannot do that.") []).
  - unfold max_retries. lia.
  - reflexivity.
Defined.

(** *** The username is safe to put in a file name *)

Lemma all_chars_take_while (f : ascii -> bool) (s : string) :
  all_chars f (take_while f s) = true.
Proof.
  induction s as [|c s IH]; [reflexivity|].
  simpl. destruct (f c) eqn:E; [|reflexivity]. simpl. now rewrite E.
Qed.

Lemma written_chars (m w : string) :
  username_as_written m = Some w -> all_chars is_user_char w = true.
Proof.
  revert w; induction m as [|c m IH]; intros w H; [discriminate H|].
  cbn [username_as_written] in H.
  destruct (written_at (String c m)) as [x|] eqn:E; [|now apply IH].
  injection H as <-. unfold written_at in E.
  destruct (starts_with "github.com/" (lower (String c m))); [|discriminate].
  pose proof (all_chars_take_while is_user_char (drop 11 (String c m))) as Hall.
  destruct (take_while is_user_char (drop 11 (String c m))); [discriminate|].
  injection E as <-. exact Hall.
Qed.

Lemma name_char_lower (c : ascii) :
  is_user_char c = true -> is_name_char (lower_char c) = true.
Proof. destruct c as [[] [] [] [] [] [] [] []]; vm_compute; congruence. Qed.

Lemma name_char_path (c : ascii) :
  is_name_char c = true -> Ascii.eqb c "/"%char = false /\ Ascii.eqb c "."%char = false.
Proof. destruct c as [[] [] [] [] [] [] [] []]; vm_compute; intuition congruence. Qed.

(** X6. The username bound on the portfolio branch is never empty and holds only
    lower-case letters, digits and hyphens; in particular it has no slash and
    no dot, so the saved file stays in the portfolio directory. *)
Theorem portfolio_username_is_a_file_name :
  forall (message u : string),
    portfolio_username message = Some u ->
    u <> EmptyString
    /\ all_chars is_name_char u = true
    /\ mem_char "/"%char u = false
    /\ mem_char "."%char u = false.
Proof.
  intros message u H. unfold portfolio_username in H.
  destruct (contains "portfolio" (lower message) && contains "github.com/" (lower message));
    [|discriminate].
  rewrite search_username_lower in H.
  destruct (username_as_written message) as [w|] eqn:Hw; [|discriminate].
  injection H as <-.
  pose proof (username_as_written_nonempty _ _ Hw) as Hne.
  pose proof (written_chars _ _ Hw) as Hall.
  split; [destruct w; [congruence | discriminate]|].
  assert (Hname : all_chars is_name_char (lower w) = true).
  { clear - Hall. unfold lower. induction w as [|c w IH]; [reflexivity|].
    simpl in *. apply andb_true_iff in Hall as [Hc Hw].
    now rewrite (name_char_lower c Hc), (IH Hw). }
  split; [exact Hname|].
  clear - Hname. induction (lower w) as [|c s IH]; [split; reflexivity|].
  simpl in *. apply andb_true_iff in Hname as [Hc Hs].
  destruct (name_char_path c Hc) as [H1 H2]. destruct (IH Hs) as [H3 H4].
  now rewrite H1, H2, H3, H4.
Qed.

Lemma portfolio_username_is_a_file_name_witness :
  "samchou05" <> EmptyString
  /\ all_chars is_name_char "samchou05" = true
  /\ mem_char "/"%char "samchou05" = false
  /\ mem_char "."%char "samchou05" = false.
Proof.
  apply (portfolio_username_is_a_file_name
           "portfolio please: GitHub.com/SamChou05/../x").
  vm_compute. reflexivity.
Defined.

End LoopFacts.

(** ** Saved files, normalisation steps, skills and the context of a turn *)

Module StateFacts.
Import PyStr Py App Spec Render Tools PyStrFacts RenderTextFacts NormaliseFacts SkillFacts.

(** *** Each normalisation step fires at most once *)

Lemma meta_block_has_tag (username : string) :
  contains ("<meta name=" ++ dq ++ "description" ++ dq) (lower (meta_block username)) = true.
Proof. vm_compute. reflexivity. Qed.

(** X7. Running a normalisation step on its own output changes nothing: where
    the step inserted its block the tag it looks for is now present, and where
    it found nothing to replace it finds nothing again. *)
Theorem normalisation_steps_idempotent :
  forall (username html : string),
    ensure_script (ensure_script html) = ensure_script html
    /\ ensure_font_awesome (ensure_font_awesome html) = ensure_font_awesome html
    /\ ensure_meta username (ensure_meta username html) = ensure_meta username html.
Proof.
  intros username html. split; [|split].
  - unfold ensure_script. destruct (icontains "<script" html) eqn:E; [now rewrite E|].
    destruct (contains "</body>" html) eqn:Eb.
    + now rewrite (replace_inserts_tag "<"%char "/body>" script_block "<script" html Eb eq_refl).
    + rewrite (replace_absent _ _ _ _ Eb), E. now rewrite (replace_absent _ _ _ _ Eb).
  - unfold ensure_font_awesome.
    destruct (icontains "font-awesome" html || icontains "fontawesome" html) eqn:E;
      [now rewrite E|].
    destruct (contains "</head>" html) eqn:Eh.
    + now rewrite (replace_inserts_tag "<"%char "/head>" font_awesome_block "font-awesome"
                     html Eh eq_refl).
    + rewrite (replace_absent _ _ _ _ Eh), E. now rewrite (replace_absent _ _ _ _ Eh).
  - unfold ensure_meta.
    destruct (icontains ("<meta name=" ++ dq ++ "description" ++ dq) html) eqn:E;
      [now rewrite E|].
    destruct (contains "<head>" html) eqn:Eh.
    + now rewrite (replace_inserts_tag "<"%char "head>" (meta_block username) _
                     html Eh (meta_block_has_tag username)).
    + rewrite (replace_absent _ _ _ _ Eh), E. now rewrite (replace_absent _ _ _ _ Eh).
Qed.

(** *** The saved file *)

Lemma dict_get_set_ne (V : Type) (k other : string) (v : V) (d : list (string * V)) :
  other <> k -> dict_get other (dict_set k v d) = dict_get other d.
Proof.
  intros Hne. induction d as [|[k' v'] d IH]; simpl.
  - destruct (String.eqb k other) eqn:E; [|reflexivity].
    apply String.eqb_eq in E. congruence.
  - destruct (String.eqb k' k) eqn:E; simpl.
    + apply String.eqb_eq in E; subst k'.
      destruct (String.eqb k other) eqn:E'; [|reflexivity].
      apply String.eqb_eq in E'. congruence.
    + now rewrite IH.
Qed.

Lemma dict_set_twice (V : Type) (k : string) (v : V) (d : list (string * V)) :
  dict_set k v (dict_set k v d) = dict_set k v d.
Proof.
  induction d as [|[k' v'] d IH]; simpl.
  - now rewrite String.eqb_refl.
  - destruct (String.eqb k' k) eqn:E; simpl; rewrite E; [reflexivity | now rewrite IH].
Qed.

(** X8. Saving writes the page under the path made from the username: reading
    that file back gives the page, every other file is as it was, the state
    remembers the path, and saving once more changes nothing. *)
Theorem saved_page_round_trip :
  forall (st : ConversationState) (html username : string),
    generated_html st = Some html ->
    current_username st = Some username ->
    html <> EmptyString ->
    username <> EmptyString ->
    let file_path := PORTFOLIO_DIR ++ "/" ++ username ++ "_portfolio.html" in
    snd (save_portfolio st) = Some file_path
    /\ portfolio_path (fst (save_portfolio st)) = Some file_path
    /\ dict_get file_path (files (fst (save_portfolio st))) = Some html
    /\ (forall other, other <> file_path ->
          dict_get other (files (fst (save_portfolio st))) = dict_get other (files st))
    /\ save_portfolio (fst (save_portfolio st)) = save_portfolio st.
Proof.
  intros st html username Hh Hu Hhne Hune file_path.
  unfold save_portfolio. rewrite Hh, Hu.
  destruct html as [|c html]; [congruence|].
  destruct username as [|d username]; [congruence|].
  cbn [str_truthy andb fst snd portfolio_path files generated_html current_username].
  unfold portfolio_filename. fold file_path.
  split; [reflexivity|]. split; [reflexivity|].
  split; [apply dict_get_set|]. split; [intros other Hne; now apply dict_get_set_ne|].
  now rewrite dict_set_twice.
Qed.

Lemma saved_page_round_trip_witness :
  let st := {| generated_html := Some "<html></html>"; current_username := Some "ada";
               portfolio_path := None;
               files := [("generated_portfolios/bob_portfolio.html", "<p>bob</p>")] |} in
  let file_path := PORTFOLIO_DIR ++ "/" ++ "ada" ++ "_portfolio.html" in
  snd (save_portfolio st) = Some file_path
  /\ portfolio_path (fst (save_portfolio st)) = Some file_path
  /\ dict_get file_path (files (fst (save_portfolio st))) = Some "<html></html>"
  /\ (forall other, other <> file_path ->
        dict_get other (files (fst (save_portfolio st))) = dict_get other (files st))
  /\ save_portfolio (fst (save_portfolio st)) = save_portfolio st.
Proof.
  apply (saved_page_round_trip
           {| generated_html := Some "<html></html>"; current_username := Some "ada";
              portfolio_path := None;
              files := [("generated_portfolios/bob_portfolio.html", "<p>bob</p>")] |}
           "<html></html>" "ada"); [reflexivity | reflexivity | discriminate | discriminate].
Defined.

(** X9. Without a page or without a username, either missing or empty, nothing
    is written, no path is returned and the state is as before; with both a
    path is returned. *)
Theorem save_needs_page_and_user :
  forall st : ConversationState,
    (snd (save_portfolio st) = None
     <-> str_truthy (generated_html st) && str_truthy (current_username st) = false)
    /\ (snd (save_portfolio st) = None -> fst (save_portfolio st) = st).
Proof.
  intros st. unfold save_portfolio.
  destruct (generated_html st) as [[|c html]|]; destruct (current_username st) as [[|d u]|];
    cbn; (split; [split; intros H; (reflexivity || discriminate H) | intros H; (reflexivity || discriminate H)]).
Qed.

(** *** The language histogram behind the skills *)

Lemma total_count_language (lang : string) (h : list (string * nat)) :
  total (count_language lang h) = S (total h).
Proof.
  unfold count_language, get0. induction h as [|[k v] h IH]; [reflexivity|].
  cbn [dict_get dict_set]. destruct (String.eqb k lang) eqn:E.
  - cbn [total fold_right snd]. unfold total. simpl. lia.
  - unfold total in *. simpl. rewrite IH. lia.
Qed.

Lemma positive_dict_set (k : string) (v : nat) (h : list (string * nat)) :
  (1 <= v)%nat -> Forall (fun item => (1 <= snd item)%nat) h ->
  Forall (fun item => (1 <= snd item)%nat) (dict_set k v h).
Proof.
  intros Hv H. induction H as [|[k' v'] h Hk Hh IH]; simpl.
  - constructor; [exact Hv | constructor].
  - destruct (String.eqb k' k); constructor; auto.
Qed.

Lemma histogram_positive (seen : list string) :
  Forall (fun item => (1 <= snd item)%nat) (histogram seen).
Proof.
  induction seen as [|x l IH] using rev_ind; [constructor|].
  rewrite histogram_snoc. unfold count_language. apply positive_dict_set; [lia | exact IH].
Qed.

(** X10. The histogram loses no observation: its counts add up to the number of
    languages observed. Every skill built from it has a level between 20 and
    100 that is a multiple of 20. *)
Theorem histogram_counts_every_observation :
  forall seen : list string,
    total (histogram seen) = List.length seen
    /\ Forall (fun s => (20 <= skill_level s <= 100)%nat /\ (skill_level s mod 20 = 0)%nat)
              (skills_of (histogram seen)).
Proof.
  intros seen. split.
  - induction seen as [|x l IH] using rev_ind; [reflexivity|].
    rewrite histogram_snoc, total_count_language, IH, length_app. simpl. lia.
  - unfold skills_of. apply Forall_map. apply Forall_forall. intros item Hin.
    pose proof (histogram_positive seen) as Hpos. rewrite Forall_forall in Hpos.
    specialize (Hpos item (Permutation_in _ (sorted_desc_perm snd (histogram seen)) Hin)).
    cbn [skill_level]. split; [lia|].
    destruct (Nat.min_spec (snd item * 20) 100) as [[_ ->] | [_ ->]].
    + apply Nat.Div0.mod_mul.
    + reflexivity.
Qed.

(** *** The context handed to the agent *)

Lemma conversation_history_app (h1 h2 : list (string * string)) :
  conversation_history (h1 ++ h2) = (conversation_history h1 ++ conversation_history h2)%list.
Proof.
  induction h1 as [|[u b] h1 IH]; [reflexivity|].
  cbn [app conversation_history]. now rewrite IH, <- !app_assoc.
Qed.

Lemma pending_turn_silent (message : string) :
  conversation_history [(message, thinking)] = [].
Proof.
  cbn [conversation_history]. rewrite String.eqb_refl. cbn [negb]. now rewrite !andb_false_r.
Qed.

Lemma slice_of_snoc {A : Type} (msgs : list A) (last : A) :
  slice_last_five (msgs ++ [last]) = skipn (List.length msgs - 5) msgs.
Proof.
  unfold slice_last_five. rewrite length_app. cbn [List.length].
  replace (List.length msgs + 1 - 6)%nat with (List.length msgs - 5)%nat by lia.
  rewrite skipn_app.
  replace (List.length msgs - 5 - List.length msgs)%nat with 0%nat by lia.
  cbn [skipn]. rewrite firstn_app.
  rewrite length_skipn.
  replace (List.length msgs + 1 - 1 - (List.length msgs - 5)
           - (List.length msgs - (List.length msgs - 5)))%nat with 0%nat by lia.
  cbn [firstn]. rewrite app_nil_r. apply firstn_all2. rewrite length_skipn. lia.
Qed.

(** X11. The message sent to the agent on a turn. The turn itself, still showing
    the placeholder, adds nothing to the context; the latest completed message
    is left out; of the messages before it the last five are quoted. With
    fewer than two completed messages the agent gets the bare message. *)
Theorem context_of_a_turn :
  forall (message : string) (history : list (string * string)),
    combined_message message (history ++ [(message, thinking)])
    = match removelast (conversation_history history) with
      | [] => message
      | earlier =>
          "Previous conversation:" ++ nl
          ++ join nl (map context_line (skipn (List.length earlier - 5) earlier))
          ++ nl ++ nl ++ "Current message: " ++ message
      end.
Proof.
  intros message history. unfold combined_message, context_messages.
  rewrite conversation_history_app, pending_turn_silent, app_nil_r.
  destruct (conversation_history history) as [|m ms] eqn:E; [reflexivity|].
  destruct (exists_last (l := m :: ms)) as [earlier [last Hl]]; [discriminate|].
  rewrite Hl, removelast_last, slice_of_snoc, length_app. cbn [List.length].
  destruct earlier as [|e earlier]; [reflexivity|].
  replace (1 <? List.length (e :: earlier) + 1)%nat with true
    by (symmetry; apply Nat.ltb_lt; simpl; lia).
  destruct (map context_line (skipn (List.length (e :: earlier) - 5) (e :: earlier)))
    as [|line lines] eqn:Em; [|rewrite <- Em; reflexivity].
  exfalso. apply (f_equal (@List.length string)) in Em.
  rewrite length_map, length_skipn in Em. cbn [List.length] in Em. lia.
Qed.

End StateFacts.

(** ** The GitHub tools: URL matching, tree listing, profile record, cards *)

Module ToolFacts.
Import PyStr Py Render Tools PyStrFacts RenderFacts.

(** *** The repository URL *)

Lemma take_while_stop (f : ascii -> bool) (a b : string) :
  all_chars f a = true ->
  (b = EmptyString \/ exists c t, b = String c t /\ f c = false) ->
  take_while f (a ++ b) = a.
Proof.
  intros Ha Hb. induction a as [|x a IH].
  - destruct Hb as [-> | [c [t [-> Hc]]]]; [reflexivity|]. simpl. now rewrite Hc.
  - simpl in *. apply andb_true_iff in Ha as [Hx Ha]. rewrite Hx. now rewrite IH.
Qed.

(** X12. A URL of the documented form, with or without a path behind the
    repository name, yields the owner and the repository. *)
Theorem repo_url_round_trip :
  forall (owner repo tail : string),
    owner <> EmptyString -> repo <> EmptyString ->
    all_chars not_slash owner = true -> all_chars not_slash repo = true ->
    (tail = EmptyString \/ exists t, tail = String "/"%char t) ->
    match_repo_url ("https://github.com/" ++ owner ++ "/" ++ repo ++ tail)
    = Some (owner, repo).
Proof.
  intros owner repo tail Ho Hr Hao Har Ht.
  unfold match_repo_url.
  change ("https://github.com/" ++ owner ++ "/" ++ repo ++ tail)
    with ("https://github" ++ String "."%char ("com/" ++ owner ++ "/" ++ repo ++ tail)).
  rewrite starts_with_append.
  rewrite (drop_append "https://github"). 
  change (Ascii.eqb "."%char "010"%char) with false. cbv iota.
  rewrite starts_with_append.
  change 4%nat with (String.length "com/"). rewrite drop_append.
  rewrite (take_while_stop not_slash owner ("/" ++ repo ++ tail) Hao)
    by (right; exists "/"%char, (repo ++ tail); split; reflexivity).
  destruct owner as [|o owner]; [congruence|].
  rewrite drop_append.
  change ("/" ++ repo ++ tail) with (String "/"%char (repo ++ tail)). cbv iota.
  rewrite (take_while_stop not_slash repo tail Har).
  - destruct repo; [congruence | reflexivity].
  - destruct Ht as [-> | [t ->]]; [now left|].
    right. exists "/"%char, t. split; reflexivity.
Qed.

Lemma repo_url_round_trip_witness :
  match_repo_url ("https://github.com/" ++ "SamChou05" ++ "/" ++ "Personal-Website-Creator"
                  ++ "/tree/main")
  = Some ("SamChou05", "Personal-Website-Creator").
Proof.
  apply (repo_url_round_trip "SamChou05" "Personal-Website-Creator" "/tree/main");
    [discriminate | discriminate | reflexivity | reflexivity |].
  right. exists "tree/main". reflexivity.
Defined.

(** *** The listing of a repository *)

Lemma item_present (d : dict) (k : string) :
  has_key k d = true -> item d k = Ok (get d k VNone).
Proof. unfold has_key, item, get. now destruct (dict_get k d). Qed.

Lemma item_missing (d : dict) (k : string) :
  has_key k d = false -> item d k = Raise (key_error k).
Proof. unfold has_key, item. now destruct (dict_get k d). Qed.

Lemma blob_files_complete (tree : list dict) :
  complete_blobs tree = true -> blob_files tree = Ok (map file_entry (filter is_blob tree)).
Proof.
  induction tree as [|entry tree IH]; intros H; [reflexivity|].
  cbn [complete_blobs forallb] in H. apply andb_true_iff in H as [He Ht].
  cbn [blob_files filter]. fold (is_blob entry).
  destruct (is_blob entry) eqn:Eb.
  - cbn [negb orb] in He. apply andb_true_iff in He as [Hp Hs].
    rewrite (item_present _ _ Hp), (item_present _ _ Hs). cbn [bind].
    now rewrite (IH Ht).
  - now apply IH.
Qed.

Lemma blob_files_incomplete (tree : list dict) :
  complete_blobs tree = false ->
  exists k, (k = "path" \/ k = "size") /\ blob_files tree = Raise (key_error k).
Proof.
  induction tree as [|entry tree IH]; intros H; [discriminate H|].
  cbn [complete_blobs forallb] in H. cbn [blob_files]. fold (is_blob entry).
  destruct (is_blob entry) eqn:Eb.
  - cbn [negb orb] in H.
    destruct (has_key "path" entry) eqn:Hp.
    + destruct (has_key "size" entry) eqn:Hs.
      * cbn [andb] in H. destruct (IH H) as [k [Hk Hr]].
        exists k. split; [exact Hk|].
        rewrite (item_present _ _ Hp), (item_present _ _ Hs). cbn [bind].
        now rewrite Hr.
      * exists "size". split; [now right|].
        rewrite (item_present _ _ Hp), (item_missing _ _ Hs). reflexivity.
    + exists "path". split; [now left|]. now rewrite (item_missing _ _ Hp).
  - cbn [negb orb andb] in H. now apply IH.
Qed.

Section Requests.
Variable http_get : string -> list (string * string) -> response.
Variable is_success : nat -> bool.

(** X13. For a URL that matches: the tree of main is requested first and the tree
    of master only when main answered 404; the result is decided by the last
    reply alone. A failure status raises the status error. A successful reply
    lists exactly the blob entries of its tree, in order, each reduced to path
    and size, and an entry of type blob without one of the two keys raises
    KeyError. *)
Theorem repo_structure_of_reply :
  forall (github_token : option string) (repo_url owner repo : string),
    match_repo_url repo_url = Some (owner, repo) ->
    let headers := auth_headers github_token in
    let main := (tree_url owner repo "main", headers) in
    let master := (tree_url owner repo "master", headers) in
    let r := deciding_response http_get github_token owner repo in
    let run := fetch_repo_structure http_get is_success github_token repo_url in
    fst run = (if (status_code (http_get (fst main) headers) =? 404)%nat
               then [main; master] else [main])
    /\ (is_success (status_code r) = false ->
        snd run = Raise (http_status_error (status_code r)))
    /\ (forall fields tree,
          is_success (status_code r) = true -> json r = BObject fields (Some tree) ->
          (complete_blobs tree = true ->
           snd run = Ok {| rs_owner := owner; rs_repo := repo;
                           rs_files := map file_entry (filter is_blob tree) |})
          /\ (complete_blobs tree = false ->
              exists k, (k = "path" \/ k = "size") /\ snd run = Raise (key_error k))).
Proof.
  intros github_token repo_url owner repo Hm headers main master r run.
  unfold run, fetch_repo_structure. rewrite Hm. cbv zeta.
  unfold r, deciding_response, main, master, headers. cbn [fst].
  destruct (status_code (http_get (tree_url owner repo "main") (auth_headers github_token))
            =? 404)%nat;
    (split; [reflexivity|]; split;
     [ intros Hs; cbn [snd]; now rewrite Hs
     | intros fields tree Hs Hj; cbn [snd]; rewrite Hs, Hj; split; intros Hc;
       [ now rewrite (blob_files_complete tree Hc)
       | destruct (blob_files_incomplete tree Hc) as [k [Hk Hr]];
         exists k; split; [exact Hk | now rewrite Hr] ] ]).
Qed.

End Requests.

(** A repository whose default branch is master: main answers 404, master
    answers with a tree of one directory and one file. *)
Lemma repo_structure_of_reply_witness :
  let http_get := fun (url : string) (_ : list (string * string)) =>
    if String.eqb url (tree_url "ada" "engine" "main")
    then {| status_code := 404; json := BObject [] None |}
    else {| status_code := 200;
            json := BObject []
                      (Some [[("path", VStr "src"); ("type", VStr "tree")];
                             [("path", VStr "src/a.py"); ("type", VStr "blob");
                              ("size", VInt 12)]]) |} in
  let is_success := fun status => ((200 <=? status) && (status <? 300))%nat in
  let run := fetch_repo_structure http_get is_success None "https://github.com/ada/engine" in
  fst run = [(tree_url "ada" "engine" "main", []); (tree_url "ada" "engine" "master", [])]
  /\ snd run = Ok {| rs_owner := "ada"; rs_repo := "engine";
                     rs_files := [[("path", VStr "src/a.py"); ("size", VInt 12)]] |}.
Proof.
  intros http_get is_success run.
  destruct (repo_structure_of_reply http_get is_success None
              "https://github.com/ada/engine" "ada" "engine" eq_refl)
    as [Hreq [_ Hok]].
  split; [exact Hreq|].
  destruct (Hok [] [[("path", VStr "src"); ("type", VStr "tree")];
                    [("path", VStr "src/a.py"); ("type", VStr "blob"); ("size", VInt 12)]]
              eq_refl eq_refl) as [Hfiles _].
  exact (Hfiles eq_refl).
Defined.

(** *** Sorting by stars *)

Lemma insert_by_sorted {A : Type} (key : A -> value) (x : A) (l : list A) :
  is_int (key x) = true -> Forall (fun y => is_int (key y) = true) l ->
  StronglySorted (ordered key) l -> StronglySorted (ordered key) (insert_by key x l).
Proof.
  intros Hx Hall Hs. induction Hs as [|y l Hs IH Hy]; simpl.
  - constructor; [constructor | constructor].
  - inversion Hall as [|? ? Hiy Hil]; subst.
    destruct (value_ltb (key x) (key y)) eqn:E.
    + constructor; [now apply IH|].
      rewrite Forall_forall. intros z Hz.
      apply (Permutation_in _ (insert_by_perm key x l)) in Hz. destruct Hz as [<- | Hz].
      * unfold ordered. destruct (key x), (key y); try discriminate. simpl in *. lia.
      * rewrite Forall_forall in Hy. now apply Hy.
    + constructor; [now constructor|]. constructor; [exact E|].
      rewrite Forall_forall in *. intros z Hz.
      specialize (Hy z Hz). specialize (Hil z Hz). unfold ordered in *.
      destruct (key x), (key y), (key z); try discriminate. simpl in *. lia.
Qed.

Lemma sorted_by_sorted {A : Type} (key : A -> value) (l : list A) :
  Forall (fun y => is_int (key y) = true) l -> StronglySorted (ordered key) (sorted_by key l).
Proof.
  induction l as [|x l IH]; intros H; simpl; [constructor|].
  inversion H as [|? ? Hx Hl]; subst.
  apply insert_by_sorted; [exact Hx | | now apply IH].
  rewrite Forall_forall in *. intros z Hz. apply Hl.
  now apply (Permutation_in _ (sorted_by_perm key l)).
Qed.

(** X14. Sorting by stars only reorders the repositories. With integer star
    counts no repository ends up before one with more stars; when the counts
    are neither all integers nor all strings the comparison fails and the
    original order is kept. *)
Theorem sort_repos_orders_by_stars :
  forall repos : list dict,
    Permutation (sort_repos repos) repos
    /\ (forallb (fun x => is_int (star_key x)) repos = true ->
        StronglySorted (fun a b => value_ltb (star_key a) (star_key b) = false)
                       (sort_repos repos))
    /\ (forallb (fun x => is_int (star_key x)) repos = false ->
        forallb (fun x => is_str (star_key x)) repos = false ->
        sort_repos repos = repos).
Proof.
  intros repos. split; [apply sort_repos_perm|]. split.
  - intros Hint. unfold sort_repos.
    destruct repos as [|a [|b l]]; [constructor | constructor; constructor|].
    rewrite Hint. cbn [orb]. apply (sorted_by_sorted star_key).
    apply Forall_forall. intros z Hz.
    rewrite forallb_forall in Hint. now apply Hint.
  - intros H1 H2. unfold sort_repos. destruct repos as [|a [|b l]]; try reflexivity.
    now rewrite H1, H2.
Qed.

(** *** From the API replies to the cards *)

(** X15. The record of a repository keeps the address under the key url, the card
    loop reads html_url: for every record the tool builds, the card links to
    an address rebuilt from the display name and the repository name, whatever
    address the API reported; the star and fork counts do reach the card. *)
Theorem card_of_fetched_repo :
  forall (name : value) (api_repo : dict),
    let repo_name := get api_repo "name" (VStr EmptyString) in
    let language := get api_repo "language" (VStr EmptyString) in
    get (fetched_repo api_repo) "url" (VStr EmptyString)
    = get api_repo "html_url" (VStr EmptyString)
    /\ card_of name (fetched_repo api_repo)
       = repo_card repo_name
           (por (get api_repo "description" (VStr EmptyString)) (VStr EmptyString))
           (VStr EmptyString) language
           (get api_repo "stargazers_count" (VInt 0))
           (get api_repo "forks_count" (VInt 0))
           (VStr ("https://github.com/" ++ str name ++ "/" ++ str repo_name))
           (language_color language).
Proof.
  intros name api_repo repo_name language. split; [reflexivity|].
  unfold card_of, fetched_repo, get. cbn [dict_get String.eqb Ascii.eqb Bool.eqb].
  cbn [por truth Z.eqb negb String.eqb].
  fold (get api_repo "name" (VStr EmptyString)).
  fold (get api_repo "description" (VStr EmptyString)).
  fold (get api_repo "language" (VStr EmptyString)).
  fold (get api_repo "stargazers_count" (VInt 0)).
  fold (get api_repo "forks_count" (VInt 0)).
  fold repo_name. fold language.
  destruct (value_eqb (VStr EmptyString)
              (por (get api_repo "description" (VStr EmptyString)) (VStr EmptyString)));
    reflexivity.
Qed.

(** X16. The fields of the API profile that the renderer reads under the name
    the record stores them by come through unchanged; a profile without a name
    shows the login, never the renderer's own default. *)
Theorem fetched_profile_round_trip :
  forall (username : string) (api_profile : dict) (k : string) (default : value),
    In k ["name"; "bio"; "avatar_url"; "location"; "blog"] ->
    (forall v, dict_get k api_profile = Some v ->
               get (fetched_profile username api_profile) k default = v)
    /\ (dict_get "name" api_profile = None ->
        get (fetched_profile username api_profile) "name" (VStr "GitHub User")
        = VStr username).
Proof.
  intros username api_profile k default Hk. split.
  - intros v Hv.
    repeat (destruct Hk as [<- | Hk]; [unfold fetched_profile, get; rewrite Hv; reflexivity|]).
    contradiction.
  - intros Hn. unfold fetched_profile, get. rewrite Hn. reflexivity.
Qed.

Lemma fetched_profile_round_trip_witness :
  (forall v, dict_get "location" ada_api_profile = Some v ->
             get (fetched_profile "ada" ada_api_profile) "location" (VStr EmptyString) = v)
  /\ (dict_get "name" ada_api_profile = None ->
      get (fetched_profile "ada" ada_api_profile) "name" (VStr "GitHub User") = VStr "ada").
Proof.
  apply (fetched_profile_round_trip "ada" ada_api_profile "location" (VStr EmptyString)).
  simpl. auto.
Defined.

Section Profile.
Variable http_get : string -> list (string * string) -> response.
Variable is_success : nat -> bool.

(** X17. When the profile request fails the repositories are never requested.
    When both requests succeed, with an object and a list, the tool returns one
    record per listed repository and the renderer builds one card for each of
    the first six. *)
Theorem profile_requests_and_cards :
  forall (github_token : option string) (username : string),
    let headers := auth_headers github_token in
    let r1 := http_get (user_url username) headers in
    let r2 := http_get (repos_url username) headers in
    let run := fetch_github_profile http_get is_success github_token username in
    (is_success (status_code r1) = false ->
     run = ([(user_url username, headers)], Raise (http_status_error (status_code r1))))
    /\ (forall profile_data tree repos_data,
          is_success (status_code r1) = true -> is_success (status_code r2) = true ->
          json r1 = BObject profile_data tree -> json r2 = BList repos_data ->
          exists fetched,
            run = ([(user_url username, headers); (repos_url username, headers)], Ok fetched)
            /\ repos fetched = map fetched_repo repos_data
            /\ forall name,
                 List.length (repo_cards name (sort_repos (repos fetched)))
                 = Nat.min 6 (List.length repos_data)).
Proof.
  intros github_token username headers r1 r2 run.
  unfold run, fetch_github_profile. fold headers. fold r1. fold r2. split.
  - intros H1. now rewrite H1.
  - intros profile_data tree repos_data H1 H2 J1 J2. rewrite H1, H2, J1, J2.
    eexists. split; [reflexivity|]. split; [reflexivity|].
    intros name. unfold repo_cards. rewrite length_map, length_firstn.
    rewrite (Permutation_length (sort_repos_perm _)).
    cbn [repos fetch_github_profile_result]. now rewrite length_map.
Qed.

End Profile.

End ToolFacts.

(** ** What a repair keeps and reports *)

Module RepairKeepFacts.
Import PyStr Py Soup PyStrFacts BraceFacts TreeFacts RenderTextFacts RepairFacts.

Section Keeping.
Variable parse : string -> soup.

Lemma css_step_keeps (st : repair_state) :
  wrapped st ->
  exists st', css_step st = Ok st' /\ wrapped st' /\ styled (tree st') = true
              /\ (forall p, has_in p (tree st) = true -> has_in p (tree st') = true).
Proof.
  intros Hw. unfold css_step. fold (styled (tree st)).
  destruct (styled (tree st)) eqn:Es; [exists st; auto|].
  destruct (append_to_head_ok style_tag st Hw eq_refl) as [s' [-> [Hw' [Hkeep Hadd]]]].
  eexists. split; [reflexivity|]. split; [|split].
  - destruct Hw' as [A [B [C [D E]]]]. repeat split; assumption.
  - cbn [tree]. unfold styled, has_tag. rewrite (Hadd (named "style") eq_refl). reflexivity.
  - exact Hkeep.
Qed.

Lemma font_awesome_step_keeps (st : repair_state) :
  wrapped st -> styled (tree st) = true ->
  exists st', font_awesome_step st = Ok st' /\ wrapped st'
              /\ styled (tree st') = true /\ icons_linked (tree st') = true
              /\ (forall p, has_in p (tree st) = true -> has_in p (tree st') = true).
Proof.
  intros Hw Hs. unfold font_awesome_step.
  destruct (contains "fa-" (fixed_html st) && negb (has_in is_font_awesome_link (tree st)))
    eqn:E.
  - destruct (append_to_head_ok fa_link st Hw eq_refl) as [s' [-> [Hw' [Hkeep Hadd]]]].
    eexists. split; [reflexivity|]. split; [|split; [|split]].
    + destruct Hw' as [A [B [C [D F]]]]. repeat split; assumption.
    + cbn [tree]. unfold styled, has_tag in *.
      apply orb_true_iff in Hs as [Hs | Hs]; apply orb_true_iff; auto.
    + cbn [tree]. unfold icons_linked.
      rewrite (Hadd is_font_awesome_link eq_refl). apply orb_true_r.
    + exact Hkeep.
  - exists st. split; [reflexivity|]. split; [exact Hw|]. split; [exact Hs|].
    split; [|auto].
    destruct Hw as [_ [_ [_ [_ Hf]]]]. unfold icons_linked. rewrite <- Hf.
    destruct (contains "fa-" (fixed_html st)); [|reflexivity].
    cbn [andb negb orb] in *. now apply negb_false_iff in E.
Qed.

Lemma brace_step_keeps (st : repair_state) (p : string -> attrs_t -> bool) :
  wrapped st -> has_in p (tree (brace_step st)) = has_in p (tree st).
Proof.
  intros [_ [_ [_ [Hr _]]]]. unfold brace_step.
  destruct (brace_entries (tree st)); [reflexivity|].
  cbn [tree]. now apply has_in_fix_braces.
Qed.

Lemma run_keeps_elements (html_content : string) :
  has_tag "html" (parse html_content) = true ->
  forallb raw_styles (parse html_content) = true ->
  exists st, repair_tree parse html_content = Ok st
             /\ forall p, has_in p (parse html_content) = true -> has_in p (tree st) = true.
Proof.
  intros Hhtml Hraw. unfold repair_tree, before_brace_loop, structure_step. rewrite Hhtml.
  destruct (ensure_head_body_ok _ Hhtml Hraw)
    as [s1 [fixes [-> [H1 [H2 [H3 [H4 Hk1]]]]]]]. cbn [bind].
  set (st1 := {| tree := s1; fixed_html := render s1; fixes_made := fixes |}).
  assert (Hw1 : wrapped st1) by (repeat split; assumption).
  destruct (css_step_keeps st1 Hw1) as [st2 [-> [Hw2 [Hs2 Hk2]]]]. cbn [bind].
  destruct (font_awesome_step_keeps st2 Hw2 Hs2) as [st3 [-> [Hw3 [Hs3 [Hi3 Hk3]]]]].
  cbn [bind]. exists (brace_step st3). split; [reflexivity|].
  intros p Hp. rewrite (brace_step_keeps st3 p Hw3).
  apply Hk3, Hk2. now apply Hk1.
Qed.

End Keeping.

(** X18. For a document with an html element the tool never takes its error
    branch: the HTML it returns is the serialization of a tree with html, head
    and body, a style source, the icon stylesheet when icon classes occur, and
    no style block short of braces; and its message names at least one
    entry. *)
Theorem repair_completes_documents :
  forall (parse : string -> soup) (html_content : string),
    has_tag "html" (parse html_content) = true ->
    forallb raw_styles (parse html_content) = true ->
    exists st,
      complete_html_structure parse html_content
      = (render (tree st),
         "HTML structure checked and fixed: "
         ++ join ", " (final_fixes html_content st) ++ ".")
      /\ complete (tree st) = true
      /\ final_fixes html_content st <> [].
Proof.
  intros parse html_content Hhtml Hraw.
  destruct (first_run_complete parse html_content Hhtml Hraw) as [st [Hrun [Hc Hf]]].
  exists st. unfold complete_html_structure. rewrite Hrun, Hf.
  split; [reflexivity|]. split; [exact Hc|].
  unfold final_fixes.
  destruct (if negb (String.length (fixed_html st) =? String.length html_content)%nat
               && negb (String.eqb (fixed_html st) html_content)
            then (fixes_made st ++ ["Fixed HTML structure and missing tags"])%list
            else fixes_made st); discriminate.
Qed.

Lemma repair_completes_documents_witness :
  exists st,
    complete_html_structure HtmlParser.parse HtmlParser.page_without_head
    = (render (tree st),
       "HTML structure checked and fixed: "
       ++ join ", " (final_fixes HtmlParser.page_without_head st) ++ ".")
    /\ complete (tree st) = true
    /\ final_fixes HtmlParser.page_without_head st <> [].
Proof.
  apply (repair_completes_documents HtmlParser.parse HtmlParser.page_without_head);
    vm_compute; reflexivity.
Defined.

(** X19. The repair removes no element: a tag with given name and attributes that
    occurs in the parsed input still occurs in the repaired tree. *)
Theorem repair_keeps_elements :
  forall (parse : string -> soup) (html_content : string)
         (p : string -> attrs_t -> bool),
    has_tag "html" (parse html_content) = true ->
    forallb raw_styles (parse html_content) = true ->
    has_in p (parse html_content) = true ->
    has_in p (repaired_tree parse html_content) = true.
Proof.
  intros parse html_content p Hhtml Hraw Hp.
  destruct (run_keeps_elements parse html_content Hhtml Hraw) as [st [Hrun Hkeep]].
  unfold repaired_tree. rewrite Hrun. now apply Hkeep.
Qed.

Lemma repair_keeps_elements_witness :
  has_in (named "i") (repaired_tree HtmlParser.parse HtmlParser.page_without_head) = true.
Proof.
  apply (repair_keeps_elements HtmlParser.parse HtmlParser.page_without_head (named "i"));
    vm_compute; reflexivity.
Defined.

End RepairKeepFacts.

(** ** Download, clearing, descriptions and the renderer's own skills *)

Module LifecycleFacts.
Import PyStr Py App Render PyStrFacts NormaliseFacts StateFacts SkillFacts.

(** X20. After a save the download handler returns the saved path. After the
    conversation is cleared it returns nothing, although the file is still
    there with the page in it. *)
Theorem download_follows_state :
  forall (st : ConversationState) (html username : string),
    generated_html st = Some html ->
    current_username st = Some username ->
    html <> EmptyString ->
    username <> EmptyString ->
    let file_path := PORTFOLIO_DIR ++ "/" ++ username ++ "_portfolio.html" in
    let saved := fst (save_portfolio st) in
    download_portfolio saved = Some file_path
    /\ download_portfolio (clear_all saved) = None
    /\ dict_get file_path (files (clear_all saved)) = Some html
    /\ save_portfolio (clear_all saved) = (clear_all saved, None).
Proof.
  intros st html username Hh Hu Hhne Hune file_path saved.
  unfold saved, save_portfolio. rewrite Hh, Hu.
  destruct html as [|c html]; [congruence|].
  destruct username as [|d username]; [congruence|].
  cbn [str_truthy andb fst]. unfold portfolio_filename. fold file_path.
  split; [|split; [reflexivity | split; [apply dict_get_set | reflexivity]]].
  unfold download_portfolio. cbn [portfolio_path files].
  rewrite dict_get_set. unfold file_path, PORTFOLIO_DIR. reflexivity.
Qed.

Lemma download_follows_state_witness :
  let st := {| generated_html := Some "<html></html>"; current_username := Some "ada";
               portfolio_path := None; files := [] |} in
  let file_path := PORTFOLIO_DIR ++ "/" ++ "ada" ++ "_portfolio.html" in
  let saved := fst (save_portfolio st) in
  download_portfolio saved = Some file_path
  /\ download_portfolio (clear_all saved) = None
  /\ dict_get file_path (files (clear_all saved)) = Some "<html></html>"
  /\ save_portfolio (clear_all saved) = (clear_all saved, None).
Proof.
  apply (download_follows_state
           {| generated_html := Some "<html></html>"; current_username := Some "ada";
              portfolio_path := None; files := [] |} "<html></html>" "ada");
    [reflexivity | reflexivity | discriminate | discriminate].
Defined.



(** *** The skills the renderer derives *)

Lemma language_total_set (k : value) (languages : list (value * nat)) :
  language_total
    (vdict_set k (match vdict_get k languages with Some n => n | None => 0 end + 1)%nat
               languages)
  = S (language_total languages).
Proof.
  induction languages as [|[k' n'] l IH]; [reflexivity|].
  cbn [vdict_get vdict_set]. destruct (value_eqb k' k) eqn:E.
  - unfold language_total. simpl. lia.
  - unfold language_total in *. simpl. rewrite IH. lia.
Qed.

Lemma positive_vdict_set (k : value) (v : nat) (h : list (value * nat)) :
  (1 <= v)%nat -> Forall (fun item => (1 <= snd item)%nat) h ->
  Forall (fun item => (1 <= snd item)%nat) (vdict_set k v h).
Proof.
  intros Hv H. induction H as [|[k' v'] h Hk Hh IH]; simpl.
  - constructor; [exact Hv | constructor].
  - destruct (value_eqb k' k); constructor; auto.
Qed.

Lemma length_le_total (languages : list (value * nat)) :
  Forall (fun item => (1 <= snd item)%nat) languages ->
  (List.length languages <= language_total languages)%nat.
Proof.
  intros H. induction H as [|item l Hi Hl IH]; [simpl; lia|].
  unfold language_total in *. simpl. lia.
Qed.

Lemma repo_languages_snoc (repos : list dict) (repo : dict) :
  repo_languages (repos ++ [repo]) = count_repo_language (repo_languages repos) repo.
Proof. unfold repo_languages. now rewrite fold_left_app. Qed.

(** X22. The renderer counts every repository that has a language exactly once,
    and no other: the counts add up to the number of such repositories. Each
    skill it derives has a level between 20 and 100, and there are no more
    skills than repositories with a language. *)
Theorem derived_skills_count_repositories :
  forall repos : list dict,
    language_total (repo_languages repos) = List.length (filter has_language repos)
    /\ (List.length (derived_skills repos) <= List.length (filter has_language repos))%nat
    /\ Forall (fun skill => exists level,
                 get skill "level" (VInt 50) = VInt level /\ (20 <= level <= 100)%Z)
              (derived_skills repos).
Proof.
  intros repos.
  assert (Htotal : language_total (repo_languages repos)
                   = List.length (filter has_language repos)).
  { induction repos as [|repo l IH] using rev_ind; [reflexivity|].
    rewrite repo_languages_snoc, filter_app, length_app. unfold count_repo_language.
    cbn [filter]. fold (has_language repo). destruct (has_language repo).
    - rewrite language_total_set, IH. simpl. lia.
    - rewrite IH. simpl. lia. }
  assert (Hpos : Forall (fun item => (1 <= snd item)%nat) (repo_languages repos)).
  { clear Htotal. induction repos as [|repo l IH] using rev_ind; [constructor|].
    rewrite repo_languages_snoc. unfold count_repo_language.
    destruct (truth (get repo "language" VNone)); [|exact IH].
    apply positive_vdict_set; [lia | exact IH]. }
  split; [exact Htotal|]. split.
  - unfold derived_skills. rewrite length_map.
    rewrite (Permutation_length (sorted_desc_perm snd (repo_languages repos))).
    rewrite <- Htotal. now apply length_le_total.
  - unfold derived_skills. apply Forall_map. apply Forall_forall. intros item Hin.
    rewrite Forall_forall in Hpos.
    specialize (Hpos item (Permutation_in _ (sorted_desc_perm snd (repo_languages repos)) Hin)).
    exists (Z.of_nat (Nat.min (snd item * 20) 100)). split; [reflexivity | lia].
Qed.

End LifecycleFacts.
